(** * pylearn2.space: shape descriptors and format conversion

    A shallow embedding of [pylearn2/space/__init__.py] (Python 2): the
    descriptors [VectorSpace], [Conv2DSpace], [CompositeSpace] and
    [NullSpace], their validators, the format converter and the origin
    generator, followed by the properties established about them. *)

From Stdlib Require Import String Ascii DecimalString PrimFloat.
From Stdlib Require Import ZArith Lia Bool PeanoNat List Permutation.
Import ListNotations.

Set Implicit Arguments.
Set Warnings "-register-all".

(** ** Python values and exceptions *)

(** The exception classes the module raises, directly or through the
    interpreter and the array substrate. *)
Inductive exn_class :=
| TypeError
| ValueError
| AssertionError
| NotImplementedError
| KeyError
| IndexError
| AttributeError.

(** A raised exception: its class and its message.  The message is [None]
    where the text is produced by the interpreter or interpolates the printed
    form of a foreign object (a theano variable or type). *)
Inductive exn :=
| Raise (c : exn_class) (msg : option string).

Inductive result (A : Type) :=
| OK (a : A)
| Err (e : exn).

Arguments OK {A} a.
Arguments Err {A} e.

Definition bind {A B : Type} (r : result A) (k : A -> result B) : result B :=
  match r with
  | OK a => k a
  | Err e => Err e
  end.

Notation "x <- r ;; k" := (bind r (fun x => k))
  (at level 61, r at next level, right associativity).
Notation "r ;;; k" := (bind r (fun _ => k))
  (at level 61, right associativity).

Definition raise {A : Type} (c : exn_class) (msg : string) : result A :=
  Err (Raise c (Some msg)).

Definition raise_opaque {A : Type} (c : exn_class) : result A :=
  Err (Raise c None).

(** [assert cond]: an [AssertionError] without message when [cond] fails. *)
Definition assert (cond : bool) : result unit :=
  if cond then OK tt else raise AssertionError "".

(** An axis tag of a [Conv2DSpace]: a Python string such as ['b'] and ['c'],
    or a Python int such as [0] and [1]. *)
Inductive tag :=
| TStr (s : string)
| TInt (z : Z).

Definition tag_eqb (a b : tag) : bool :=
  match a, b with
  | TStr s, TStr t => String.eqb s t
  | TInt x, TInt y => Z.eqb x y
  | _, _ => false
  end.

Definition tag_b : tag := TStr "b".
Definition tag_c : tag := TStr "c".
Definition tag_0 : tag := TInt 0.
Definition tag_1 : tag := TInt 1.

(** A Python sequence is a tuple or a list: [==] and [hash] tell them apart. *)
Inductive seqkind :=
| Tuple
| List.

Record pyseq (A : Type) := PySeq { kind : seqkind; items : list A }.

Definition seqkind_eqb (a b : seqkind) : bool :=
  match a, b with
  | Tuple, Tuple | List, List => true
  | _, _ => false
  end.

Fixpoint list_eqb {A : Type} (eqb : A -> A -> bool) (l1 l2 : list A) : bool :=
  match l1, l2 with
  | [], [] => true
  | x :: r1, y :: r2 => eqb x y && list_eqb eqb r1 r2
  | _, _ => false
  end.

Definition tuple {A : Type} (l : list A) : pyseq A := PySeq Tuple l.

(** [s1 == s2] on sequences: a tuple never equals a list. *)
Definition pyseq_eqb {A : Type} (eqb : A -> A -> bool) (s1 s2 : pyseq A) : bool :=
  seqkind_eqb (kind s1) (kind s2) && list_eqb eqb (items s1) (items s2).

(** [seq.index(x)]: the first position of [x], a [ValueError] when absent. *)
Fixpoint index_from (x : tag) (l : list tag) (k : nat) : result nat :=
  match l with
  | [] => raise_opaque ValueError
  | y :: r => if tag_eqb y x then OK k else index_from x r (S k)
  end.

Definition index (l : list tag) (x : tag) : result nat := index_from x l 0.

(** [l[i]] on a Python list or tuple: negative indices count from the end. *)
Definition py_getitem {A : Type} (l : list A) (i : Z) : result A :=
  let n := Z.of_nat (length l) in
  let j := if (i <? 0)%Z then (i + n)%Z else i in
  if ((0 <=? j) && (j <? n))%Z then
    match nth_error l (Z.to_nat j) with
    | Some x => OK x
    | None => raise_opaque IndexError
    end
  else raise_opaque IndexError.

(** [[f(x) for x in l]] where [f] may raise. *)
Fixpoint mapM {A B : Type} (f : A -> result B) (l : list A) : result (list B) :=
  match l with
  | [] => OK []
  | x :: r => y <- f x ;; ys <- mapM f r ;; OK (y :: ys)
  end.

(** *** Printing *)

Definition str_int (z : Z) : string := NilZero.string_of_int (Z.to_int z).

Definition str_nat (n : nat) : string := str_int (Z.of_nat n).

Definition repr_tag (a : tag) : string :=
  match a with
  | TStr s => ("'" ++ s ++ "'")%string
  | TInt z => str_int z
  end.

(** [str] of a tuple or list, given the [repr] of its elements. *)
Definition str_seq {A : Type} (repr : A -> string) (s : pyseq A) : string :=
  match kind s with
  | List => ("[" ++ String.concat ", " (map repr (items s)) ++ "]")%string
  | Tuple =>
      match items s with
      | [x] => ("(" ++ repr x ++ ",)")%string
      | l => ("(" ++ String.concat ", " (map repr l) ++ ")")%string
      end
  end.

(** The values a caller may pass where an int is expected. *)
Inductive pyval :=
| PInt (z : Z)
| PFloat (x : float)
| PStr (s : string)
| PNone.

(** [str(v)]; the decimal rendering of a float is not modelled. *)
Definition str_pyval (v : pyval) : option string :=
  match v with
  | PInt z => Some (str_int z)
  | PFloat _ => None
  | PStr s => Some s
  | PNone => Some "None"%string
  end.

Definition str_type_pyval (v : pyval) : string :=
  match v with
  | PInt _ => "<type 'int'>"
  | PFloat _ => "<type 'float'>"
  | PStr _ => "<type 'str'>"
  | PNone => "<type 'NoneType'>"
  end.

(** ** Descriptors *)

Inductive Space :=
| VectorSpace (dim : Z) (sparse : bool)
| Conv2DSpace (shape : pyseq Z) (num_channels : Z) (axes : pyseq tag)
| CompositeSpace (components : list Space)
| NullSpace.

(** [type(self)]. *)
Inductive space_class :=
| VectorSpaceT
| Conv2DSpaceT
| CompositeSpaceT
| NullSpaceT.

Definition type_of (s : Space) : space_class :=
  match s with
  | VectorSpace _ _ => VectorSpaceT
  | Conv2DSpace _ _ _ => Conv2DSpaceT
  | CompositeSpace _ => CompositeSpaceT
  | NullSpace => NullSpaceT
  end.

Definition str_type (c : space_class) : string :=
  match c with
  | VectorSpaceT => "<class 'pylearn2.space.VectorSpace'>"
  | Conv2DSpaceT => "<class 'pylearn2.space.Conv2DSpace'>"
  | CompositeSpaceT => "<class 'pylearn2.space.CompositeSpace'>"
  | NullSpaceT => "<class 'pylearn2.space.NullSpace'>"
  end.

(** *** Construction *)

(** [VectorSpace.__init__(dim, sparse=False)] stores its arguments. *)
Definition VectorSpace_init (dim : Z) (sparse : option bool) : result Space :=
  OK (VectorSpace dim (match sparse with Some b => b | None => false end)).

Definition is_None {A : Type} (o : option A) : Z :=
  match o with
  | None => 1
  | Some _ => 0
  end.

(** [Conv2DSpace.__init__(shape, channels=None, num_channels=None, axes=None)].
    [shape] is a sequence of ints and the channel counts are ints, so the
    [isinstance] assertions hold by typing; when both channel arguments are
    [None] the first assertion has already failed. *)
Definition Conv2DSpace_init (shape : pyseq Z) (channels num_channels : option Z)
    (axes : option (pyseq tag)) : result Space :=
  assert (is_None channels + is_None num_channels =? 1)%Z ;;;
  let num_channels := match num_channels with None => channels | Some _ => num_channels end in
  match num_channels with
  | None => raise AssertionError ""
  | Some nc =>
      if negb (length (items shape) =? 2)%nat then
        raise ValueError "shape argument to Conv2DSpace must be length 2"
      else
        assert (forallb (fun elem => (elem >? 0)%Z) (items shape)) ;;;
        assert (nc >? 0)%Z ;;;
        let axes :=
          match axes with
          | None => tuple [tag_b; tag_0; tag_1; tag_c]
          | Some a => a
          end in
        assert (length (items axes) =? 4)%nat ;;;
        OK (Conv2DSpace shape nc axes)
  end.

(** [CompositeSpace.__init__(components)]: the components are descriptors by
    typing and are copied into a list. *)
Definition CompositeSpace_init (components : pyseq Space) : result Space :=
  OK (CompositeSpace (items components)).

(** *** Equality, hashing and printing *)

(** [self == other]. *)
Fixpoint space_eq (self other : Space) {struct self} : bool :=
  match self, other with
  | VectorSpace d1 _, VectorSpace d2 _ => (d1 =? d2)%Z
  | Conv2DSpace s1 n1 a1, Conv2DSpace s2 n2 a2 =>
      pyseq_eqb Z.eqb s1 s2 && (n1 =? n2)%Z && list_eqb tag_eqb (items a1) (items a2)
  | CompositeSpace c1, CompositeSpace c2 =>
      (length c1 =? length c2)%nat &&
      (fix all_eq (l1 l2 : list Space) {struct l1} : bool :=
         match l1, l2 with
         | x :: r1, y :: r2 => space_eq x y && all_eq r1 r2
         | _, _ => true
         end) c1 c2
  | NullSpace, NullSpace => true
  | _, _ => false
  end.

(** [str(self)]. *)
Fixpoint space_str (self : Space) : string :=
  match self with
  | VectorSpace dim sparse =>
      ("VectorSpace(dim=" ++ str_int dim ++ (if sparse then ", sparse" else "") ++ ")")%string
  | Conv2DSpace shape nc _ =>
      ("Conv2DSpace{shape=" ++ str_seq str_int shape ++ ",num_channels=" ++ str_int nc ++ "}")%string
  | CompositeSpace components =>
      ("CompositeSpace(" ++ String.concat ", " (map space_str components) ++ ")")%string
  | NullSpace => "NullSpace"
  end.

(** [self.get_total_dimension()]; [NullSpace] inherits the base method, which
    raises. *)
Fixpoint get_total_dimension (self : Space) : result Z :=
  match self with
  | VectorSpace dim _ => OK dim
  | Conv2DSpace shape nc _ =>
      h <- py_getitem (items shape) 0 ;;
      w <- py_getitem (items shape) 1 ;;
      OK (h * w * nc)%Z
  | CompositeSpace components =>
      dims <- mapM get_total_dimension components ;;
      OK (fold_left Z.add dims 0%Z)
  | NullSpace =>
      raise NotImplementedError
        (str_type NullSpaceT ++ " does not implement get_total_dimension.")%string
  end.

(** [CompositeSpace.restrict(subset)]; on another descriptor the method does
    not exist. *)
Definition restrict (self : Space) (subset : pyseq Z) : result Space :=
  match self with
  | CompositeSpace components =>
      match items subset with
      | [idx] => py_getitem components idx
      | l => cs <- mapM (py_getitem components) l ;; OK (CompositeSpace cs)
      end
  | _ => raise_opaque AttributeError
  end.

(** ** Helpers from [pylearn2.utils] *)

(** [zip( *args )]: the tuples of items at equal positions, as many as the
    shortest argument has. *)
Fixpoint heads {A : Type} (args : list (list A)) : option (list A) :=
  match args with
  | [] => Some []
  | [] :: _ => None
  | (x :: _) :: rest =>
      match heads rest with
      | Some hs => Some (x :: hs)
      | None => None
      end
  end.

Fixpoint zip_upto {A : Type} (n : nat) (args : list (list A)) : list (list A) :=
  match n with
  | O => []
  | S k =>
      match heads args with
      | Some hs => hs :: zip_upto k (map (@tl A) args)
      | None => []
      end
  end.

Definition py_zip {A : Type} (args : list (list A)) : list (list A) :=
  match args with
  | [] => []
  | first :: _ => zip_upto (length first) args
  end.

(** The loop of [safe_zip] over [enumerate(args[1:])]. *)
Fixpoint safe_zip_check {A : Type} (base i : nat) (rest : list (list A)) : result unit :=
  match rest with
  | [] => OK tt
  | arg :: rest' =>
      if negb (length arg =? base)%nat then
        raise ValueError
          ("Argument 0 has length " ++ str_nat base ++ " but argument " ++
           str_nat (i + 1) ++ " has length " ++ str_nat (length arg))%string
      else safe_zip_check base (S i) rest'
  end.

(** [safe_zip( *args )]. *)
Definition safe_zip {A : Type} (args : list (list A)) : result (list (list A)) :=
  match args with
  | [] => raise_opaque IndexError
  | first :: rest =>
      safe_zip_check (length first) 0 rest ;;;
      OK (py_zip args)
  end.

(** The loop of [safe_union]: [for x in l: if x not in c: c.append(x)]. *)
Fixpoint append_new {A : Type} (eqb : A -> A -> bool) (c l : list A) : list A :=
  match l with
  | [] => c
  | x :: r => append_new eqb (if existsb (eqb x) c then c else c ++ [x]) r
  end.

(** [safe_union(a, b)]; [eqb] is [==] on the items. *)
Definition safe_union {A : Type} (eqb : A -> A -> bool) (a b : pyseq A) : result (list A) :=
  match kind a with
  | Tuple =>
      raise TypeError "Expected first argument to be a list, but got <type 'tuple'>"
  | List =>
      assert (seqkind_eqb (kind b) List) ;;;
      OK (append_new eqb [] (items a ++ items b))
  end.

(** An entry of a dimshuffle pattern: ['x'] or an axis number. *)
Inductive pattern_entry :=
| PatX
| PatDim (k : nat).

(** The loop of [get_dimshuffle_pattern] over [xrange(ndim)], from position
    [i] with [shf_dim_count] kept axes so far. *)
Fixpoint dimshuffle_loop (axes : list Z) (i : Z) (count shf_dim_count : nat)
    : list pattern_entry :=
  match count with
  | O => []
  | S count' =>
      if existsb (Z.eqb i) axes then
        PatX :: dimshuffle_loop axes (i + 1) count' shf_dim_count
      else
        PatDim shf_dim_count :: dimshuffle_loop axes (i + 1) count' (S shf_dim_count)
  end.

(** [get_dimshuffle_pattern(axes, ndim)]. *)
Definition get_dimshuffle_pattern (axes : option (pyseq Z)) (ndim : Z)
    : result (list pattern_entry) :=
  match axes with
  | None => raise AssertionError "axes should not be empty."
  | Some ax =>
      match kind ax with
      | List => raise AssertionError "the type of axes should be a tuple."
      | Tuple => OK (dimshuffle_loop (items ax) 0 (Z.to_nat ndim) 0)
      end
  end.

(** The kept axes of a pattern, in order. *)
Fixpoint kept_axes (pattern : list pattern_entry) : list nat :=
  match pattern with
  | [] => []
  | PatX :: r => kept_axes r
  | PatDim k :: r => k :: kept_axes r
  end.

(** ** The array substrate

    A dense array is its shape and its elements in row-major (C) order, as
    numpy lays out a fresh array.  The element type is arbitrary: the
    conversions move elements and never compute with them.  [zero] is the
    element [np.zeros] fills with. *)

Section Spaces.

Context {elt : Type}.
Variable zero : elt.

(** theano's [config.compute_test_value] is not ['off']: validators then also
    inspect the value a variable carries. *)
Variable compute_test_value : bool.

Record ndarray := NDArray { arr_shape : list nat; arr_data : list elt }.

Definition ndim (t : ndarray) : nat := length (arr_shape t).

Definition prod (l : list nat) : nat := fold_right Nat.mul 1 l.

(** The representation invariant: one element per position. *)
Definition wf_ndarray (t : ndarray) : Prop :=
  length (arr_data t) = prod (arr_shape t).

(** Row-major strides, in elements. *)
Fixpoint strides (shape : list nat) : list nat :=
  match shape with
  | [] => []
  | _ :: rest => prod rest :: strides rest
  end.

(** The flat offset of a multi-index under given strides. *)
Fixpoint ravel (idx str : list nat) : nat :=
  match idx, str with
  | i :: idx', s :: str' => i * s + ravel idx' str'
  | _, _ => 0
  end.

(** The multi-index of a flat offset in a row-major array of shape [shape]. *)
Fixpoint unravel (shape : list nat) (j : nat) : list nat :=
  match shape with
  | [] => []
  | _ :: rest => j / prod rest :: unravel rest (j mod prod rest)
  end.

(** [idx] addresses an element of an array of shape [shape]. *)
Fixpoint in_bounds (idx shape : list nat) : Prop :=
  match idx, shape with
  | [], [] => True
  | i :: idx', s :: shape' => i < s /\ in_bounds idx' shape'
  | _, _ => False
  end.

(** [t[i0, i1, ...]]. *)
Definition get (t : ndarray) (idx : list nat) : elt :=
  nth (ravel idx (strides (arr_shape t))) (arr_data t) zero.

(** [perm] lists each of [0 .. n-1] once. *)
Definition is_axis_permutation (perm : list nat) (n : nat) : bool :=
  (length perm =? n)%nat &&
  forallb (fun k => existsb (Nat.eqb k) perm) (seq 0 n).

(** [t.transpose( *perm )] and, on a theano variable, [t.dimshuffle( *perm )]
    with a pattern of ints: axis [k] of the result is axis [perm[k]] of [t]. *)
Definition transpose (t : ndarray) (perm : list nat) : result ndarray :=
  if is_axis_permutation perm (ndim t) then
    let shape' := map (fun k => nth k (arr_shape t) 0) perm in
    let str' := map (fun k => nth k (strides (arr_shape t)) 0) perm in
    OK (NDArray shape'
          (map (fun j => nth (ravel (unravel shape' j) str') (arr_data t) zero)
               (seq 0 (prod shape'))))
  else raise_opaque ValueError.

(** [t.reshape(newshape)]: at most one extent may be [-1] and is then
    inferred; the element count must not change. *)
Definition reshape (t : ndarray) (newshape : list Z) : result ndarray :=
  let size := Z.of_nat (length (arr_data t)) in
  if existsb (fun d => (d <? -1)%Z) newshape then raise_opaque ValueError
  else
    let known := fold_right Z.mul 1%Z (filter (fun d => negb (d =? -1)%Z) newshape) in
    match filter (fun d => (d =? -1)%Z) newshape with
    | [] =>
        if (known =? size)%Z then OK (NDArray (map Z.to_nat newshape) (arr_data t))
        else raise_opaque ValueError
    | [_] =>
        if (known =? 0)%Z then raise_opaque ValueError
        else if (size mod known =? 0)%Z then
          OK (NDArray
                (map (fun d => Z.to_nat (if (d =? -1)%Z then size / known else d)%Z) newshape)
                (arr_data t))
        else raise_opaque ValueError
    | _ => raise_opaque ValueError
    end.

(** [np.zeros(shape)]. *)
Definition np_zeros (shape : list Z) : result ndarray :=
  if existsb (fun d => (d <? 0)%Z) shape then raise_opaque ValueError
  else
    let shape' := map Z.to_nat shape in
    OK (NDArray shape' (repeat zero (prod shape'))).

(** The first [n] consecutive blocks of [m] elements of [l]. *)
Fixpoint chunks (n m : nat) (l : list elt) : list (list elt) :=
  match n with
  | O => []
  | S k => firstn m l :: chunks k m (skipn m l)
  end.

(** A slice bound [i] on an axis of extent [n], as Python clamps it. *)
Definition clamp_bound (i : Z) (n : nat) : nat :=
  Z.to_nat (if (i <? 0)%Z then Z.max 0 (i + Z.of_nat n) else Z.min i (Z.of_nat n)).

(** [t[:, start:stop]] on an array of two or more axes. *)
Definition slice_axis1 (t : ndarray) (start stop : Z) : result ndarray :=
  match arr_shape t with
  | s0 :: s1 :: rest =>
      let lo := clamp_bound start s1 in
      let hi := clamp_bound stop s1 in
      let p := prod rest in
      OK (NDArray (s0 :: (hi - lo) :: rest)
            (concat (map (fun row => firstn ((hi - lo) * p) (skipn (lo * p) row))
                         (chunks s0 (s1 * p) (arr_data t)))))
  | _ => raise_opaque IndexError
  end.

(** The rows (blocks along the first axis) of an array of two or more axes. *)
Definition rows_of (t : ndarray) : list (list elt) :=
  match arr_shape t with
  | s0 :: rest => chunks s0 (prod rest) (arr_data t)
  | [] => []
  end.

Fixpoint zip_app (l1 l2 : list (list elt)) : list (list elt) :=
  match l1, l2 with
  | r1 :: l1', r2 :: l2' => (r1 ++ r2) :: zip_app l1' l2'
  | _, _ => []
  end.

Definition list_nat_eqb : list nat -> list nat -> bool := list_eqb Nat.eqb.

(** [concatenate(pieces, axis=1)]: the pieces agree on every extent but the
    second. *)
Definition concatenate_axis1 (pieces : list ndarray) : result ndarray :=
  match pieces with
  | [] => raise_opaque ValueError
  | first :: _ =>
      match arr_shape first with
      | s0 :: _ :: rest =>
          if forallb (fun t =>
                        match arr_shape t with
                        | s0' :: _ :: rest' => (s0' =? s0)%nat && list_nat_eqb rest' rest
                        | _ => false
                        end) pieces
          then
            OK (NDArray
                  (s0 :: fold_right Nat.add 0 (map (fun t => nth 1 (arr_shape t) 0) pieces) :: rest)
                  (concat (fold_right zip_app (repeat [] s0) (map rows_of pieces))))
          else raise_opaque ValueError
      | _ => raise_opaque ValueError
      end
  end.

(** ** Batches *)

(** The type of a theano variable, as far as the module tells them apart:
    [TensorType] and [CudaNdarrayType] are accepted together everywhere. *)
Inductive vartype :=
| DenseType
| SparseType.

(** A batch as the module receives it: [None], a theano variable (with the
    array it evaluates to), a numpy array, or a tuple of batches. *)
Inductive batch :=
| BNone
| BVar (ty : vartype) (v : ndarray)
| BArray (v : ndarray)
| BTuple (l : list batch).

(** [str(type(batch))] for a batch that is not a theano variable. *)
Definition str_type_batch (b : batch) : string :=
  match b with
  | BNone => "<type 'NoneType'>"
  | BVar _ _ => "<class 'theano.tensor.var.TensorVariable'>"
  | BArray _ => "<type 'numpy.ndarray'>"
  | BTuple _ => "<type 'tuple'>"
  end.

(** theano's [get_debug_values(batch)]. *)
Definition get_debug_values (v : ndarray) : list ndarray :=
  if compute_test_value then [v] else [].

(** [batch.shape[k]]. *)
Definition shape_at (v : ndarray) (k : nat) : result Z :=
  match nth_error (arr_shape v) k with
  | Some s => OK (Z.of_nat s)
  | None => raise_opaque IndexError
  end.

Definition batch_shape_at (b : batch) (k : nat) : result Z :=
  match b with
  | BVar _ v | BArray v => shape_at v k
  | _ => raise_opaque AttributeError
  end.

(** [batch[:, start:stop]]. *)
Definition batch_slice_axis1 (b : batch) (start stop : Z) : result batch :=
  match b with
  | BVar ty v => v' <- slice_axis1 v start stop ;; OK (BVar ty v')
  | BArray v => v' <- slice_axis1 v start stop ;; OK (BArray v')
  | _ => raise_opaque TypeError
  end.

(** [batch.reshape(shape)]. *)
Definition batch_reshape (b : batch) (shape : list Z) : result batch :=
  match b with
  | BVar DenseType v => v' <- reshape v shape ;; OK (BVar DenseType v')
  | BArray v => v' <- reshape v shape ;; OK (BArray v')
  | _ => raise_opaque AttributeError
  end.

(** [batch.dimshuffle( *perm )]: a method of dense theano variables only. *)
Definition batch_dimshuffle (b : batch) (perm : list nat) : result batch :=
  match b with
  | BVar DenseType v => v' <- transpose v perm ;; OK (BVar DenseType v')
  | _ => raise_opaque AttributeError
  end.

(** [T.concatenate(pieces, axis=1)]: numpy arrays are lifted to constants. *)
Definition T_concatenate_axis1 (pieces : list batch) : result batch :=
  vs <- mapM (fun b => match b with
                       | BVar DenseType v | BArray v => OK v
                       | _ => raise_opaque TypeError
                       end) pieces ;;
  v <- concatenate_axis1 vs ;;
  OK (BVar DenseType v).

(** [iter(batch)], as [zip] consumes it. *)
Definition batch_iter (b : batch) : result (list batch) :=
  match b with
  | BTuple l => OK l
  | BArray v =>
      match arr_shape v with
      | _ :: rest => OK (map (fun r => BArray (NDArray rest r)) (rows_of v))
      | [] => raise_opaque TypeError
      end
  | _ => raise_opaque TypeError
  end.

(** A dict literal with axis tags as keys; a missing key is a [KeyError]. *)
Fixpoint dict_get (d : list (tag * Z)) (k : tag) : result Z :=
  match d with
  | [] => raise_opaque KeyError
  | (k', v) :: r => if tag_eqb k' k then OK v else dict_get r k
  end.

(** ** Validators *)

Definition VectorSpace_validate (sparse : bool) (b : batch) : result unit :=
  match b with
  | BVar ty v =>
      match sparse, ty with
      | false, SparseType => raise_opaque TypeError
      | true, DenseType => raise TypeError ""
      | _, _ =>
          if negb (ndim v =? 2)%nat then
            raise ValueError
              ("VectorSpace batches must be 2D, got " ++ str_nat (ndim v) ++ " dimensions")%string
          else OK tt
      end
  | _ =>
      raise TypeError
        ("VectorSpace batch should be a theano Variable, got " ++ str_type_batch b)%string
  end.

(** The checks [Conv2DSpace.validate] makes on one debug value. *)
Definition Conv2DSpace_validate_value (shape : pyseq Z) (num_channels : Z)
    (axes : pyseq tag) (val : ndarray) : result unit :=
  d <- index (items axes) tag_c ;;
  actual_channels <- shape_at val d ;;
  if negb (actual_channels =? num_channels)%Z then
    raise ValueError
      ("Expected axis " ++ str_nat d ++ " to be number of channels (" ++
       str_int num_channels ++ ") but it is " ++ str_int actual_channels)%string
  else
    d' <- index (items axes) tag_c ;;
    c' <- shape_at val d' ;;
    assert (c' =? num_channels)%Z ;;;
    mapM (fun coord =>
            d <- index (items axes) (TInt coord) ;;
            actual_shape <- shape_at val d ;;
            expected_shape <- py_getitem (items shape) coord ;;
            if negb (actual_shape =? expected_shape)%Z then raise_opaque ValueError
            else OK tt) [0%Z; 1%Z] ;;;
    OK tt.

Definition Conv2DSpace_validate (shape : pyseq Z) (num_channels : Z)
    (axes : pyseq tag) (b : batch) : result unit :=
  match b with
  | BVar ty v =>
      match ty with
      | SparseType => raise TypeError ""
      | DenseType =>
          if negb (ndim v =? 4)%nat then raise ValueError ""
          else
            mapM (Conv2DSpace_validate_value shape num_channels axes)
                 (get_debug_values v) ;;;
            OK tt
      end
  | _ =>
      raise TypeError
        ("Conv2DSpace batches must be theano Variables, got " ++ str_type_batch b)%string
  end.

Definition NullSpace_validate (b : batch) : result unit :=
  match b with
  | BNone => OK tt
  | _ => raise_opaque TypeError
  end.

(** [self.validate(batch)]. *)
Fixpoint validate (self : Space) (b : batch) {struct self} : result unit :=
  match self with
  | VectorSpace _ sparse => VectorSpace_validate sparse b
  | Conv2DSpace shape nc axes => Conv2DSpace_validate shape nc axes b
  | CompositeSpace components =>
      match b with
      | BTuple l =>
          if negb (length l =? length components)%nat then
            raise ValueError
              ("Expected " ++ str_nat (length components) ++ " elements in batch, " ++
               "got " ++ str_nat (length l))%string
          else
            (fix each (bs : list batch) (cs : list Space) {struct cs} : result unit :=
               match bs, cs with
               | batch_elem :: bs', component :: cs' =>
                   validate component batch_elem ;;; each bs' cs'
               | _, _ => OK tt
               end) l components
      | _ => raise TypeError ""
      end
  | NullSpace => NullSpace_validate b
  end.

(** ** Batch size and origin *)

(** [Conv2DSpace.get_batch_size(data)]. *)
Definition Conv2DSpace_get_batch_size (shape : pyseq Z) (num_channels : Z)
    (axes : pyseq tag) (data : batch) : result Z :=
  Conv2DSpace_validate shape num_channels axes data ;;;
  k <- index (items axes) tag_b ;;
  batch_shape_at data k.

(** What [get_batch_size] returns.  [data.shape[k]] of a theano variable is
    a theano scalar, given here with the number it evaluates to; [NullSpace]
    and a [CompositeSpace] whose loop ends return the Python int [0]. *)
Inductive batch_size :=
| SizeVar (value : Z)
| SizeInt (value : Z).

Definition size_value (b : batch_size) : Z :=
  match b with
  | SizeVar value | SizeInt value => value
  end.

(** [b != 0].  theano variables overload neither [==] nor [!=], so Python 2
    compares a theano scalar with the int [0] as two distinct objects: the
    test is true whatever the scalar evaluates to.  Ints compare by value. *)
Definition ne_zero (b : batch_size) : bool :=
  match b with
  | SizeVar _ => true
  | SizeInt value => negb (value =? 0)%Z
  end.

(** [self.get_batch_size(data)], as the object it returns.  A batch that
    passed the validator of a [VectorSpace] or [Conv2DSpace] is a theano
    variable, so its [shape[k]] is a theano scalar. *)
Fixpoint get_batch_size_object (self : Space) (data : batch) {struct self}
    : result batch_size :=
  match self with
  | VectorSpace _ sparse =>
      VectorSpace_validate sparse data ;;;
      n <- batch_shape_at data 0 ;;
      OK (SizeVar n)
  | Conv2DSpace shape nc axes =>
      n <- Conv2DSpace_get_batch_size shape nc axes data ;;
      OK (SizeVar n)
  | CompositeSpace components =>
      validate self data ;;;
      ds <- batch_iter data ;;
      (fix first_nonzero (cs : list Space) (ds : list batch) {struct cs}
         : result batch_size :=
         match cs, ds with
         | c :: cs', d :: ds' =>
             b <- get_batch_size_object c d ;;
             if ne_zero b then OK b else first_nonzero cs' ds'
         | _, _ => OK (SizeInt 0)
         end) components ds
  | NullSpace => NullSpace_validate data ;;; OK (SizeInt 0)
  end.

(** [self.get_batch_size(data)], as the number of examples it stands for. *)
Definition get_batch_size (self : Space) (data : batch) : result Z :=
  b <- get_batch_size_object self data ;;
  OK (size_value b).

(** [Conv2DSpace.get_origin_batch(n)]. *)
Definition Conv2DSpace_get_origin_batch (shape : pyseq Z) (num_channels : Z)
    (axes : pyseq tag) (n : pyval) : result ndarray :=
  match n with
  | PInt n =>
      assert (n >? 0)%Z ;;;
      h <- py_getitem (items shape) 0 ;;
      w <- py_getitem (items shape) 1 ;;
      let dims := [(tag_b, n); (tag_0, h); (tag_1, w); (tag_c, num_channels)] in
      shape <- mapM (dict_get dims) (items axes) ;;
      np_zeros shape
  | _ =>
      Err (Raise TypeError
             (option_map
                (fun str_n =>
                   ("Conv2DSpace.get_origin_batch expects an int, got " ++ str_n ++
                    " of type " ++ str_type_pyval n)%string)
                (str_pyval n)))
  end.

(** ** The format converter *)

(** The message of the error [format_as] raises on unequal total dimensions. *)
Definition dimension_error_message (self space : Space) (my_dimension other_dimension : Z)
    : string :=
  (space_str self ++ " with total dimension " ++ str_int my_dimension ++
   " can't format a batch into " ++ space_str space ++
   "because its total dimension is " ++ str_int other_dimension)%string.

(** [Space.format_as], with the subclass hook [self._format_as(batch, space)]
    as a parameter. *)
Definition format_as_with (hook : result batch) (self : Space) (b : batch) (space : Space)
    : result batch :=
  validate self b ;;;
  my_dimension <- get_total_dimension self ;;
  other_dimension <- get_total_dimension space ;;
  if negb (my_dimension =? other_dimension)%Z then
    raise ValueError (dimension_error_message self space my_dimension other_dimension)
  else if space_eq self space then OK b
  else hook.

(** [['b'] + [axis for axis in axes if axis != 'b']]. *)
Definition batch_leading (axes : list tag) : list tag :=
  tag_b :: filter (fun axis => negb (tag_eqb axis tag_b)) axes.

(** [VectorSpace._format_as(batch, space)], by recursion on the destination:
    each slice is handed to [VectorSpace(width).format_as]. *)
Fixpoint VectorSpace__format_as (dim : Z) (sparse : bool) (b : batch) (space : Space)
    {struct space} : result batch :=
  match space with
  | CompositeSpace components =>
      pieces <-
        (fix slices (cs : list Space) (pos : Z) {struct cs} : result (list batch) :=
           match cs with
           | [] => OK []
           | component :: cs' =>
               width <- get_total_dimension component ;;
               subtensor <- batch_slice_axis1 b pos (pos + width) ;;
               formatted <-
                 format_as_with (VectorSpace__format_as width false subtensor component)
                   (VectorSpace width false) subtensor component ;;
               rest <- slices cs' (pos + width)%Z ;;
               OK (formatted :: rest)
           end) components 0%Z ;;
      OK (BTuple pieces)
  | Conv2DSpace shape nc axes =>
      n <- batch_shape_at b 0 ;;
      h <- py_getitem (items shape) 0 ;;
      w <- py_getitem (items shape) 1 ;;
      let dims := [(tag_b, n); (tag_c, nc); (tag_0, h); (tag_1, w)] in
      first <- py_getitem (items axes) 0 ;;
      if negb (tag_eqb first tag_b) then
        let tmp_axes := batch_leading (items axes) in
        shape' <- mapM (dict_get dims) tmp_axes ;;
        b' <- batch_reshape b shape' ;;
        shuffle <- mapM (index tmp_axes) (items axes) ;;
        batch_dimshuffle b' shuffle
      else
        shape' <- mapM (dict_get dims) (items axes) ;;
        batch_reshape b shape'
  | _ =>
      raise NotImplementedError
        (space_str (VectorSpace dim sparse) ++ " doesn't know how to format as " ++
         space_str space)%string
  end.

(** [[src_axes.index(elem) for elem in dst_axes]]. *)
Definition axes_shuffle (src_axes dst_axes : list tag) : result (list nat) :=
  mapM (index src_axes) dst_axes.

(** [Conv2DSpace.convert(tensor, src_axes, dst_axes)]. *)
Definition Conv2DSpace_convert (tensor : batch) (src_axes dst_axes : pyseq tag)
    : result batch :=
  let src_axes := items src_axes in
  let dst_axes := items dst_axes in
  assert (length src_axes =? 4)%nat ;;;
  assert (length dst_axes =? 4)%nat ;;;
  if list_eqb tag_eqb src_axes dst_axes then OK tensor
  else
    shuffle <- axes_shuffle src_axes dst_axes ;;
    batch_dimshuffle tensor shuffle.

(** [Conv2DSpace.convert_numpy(tensor, src_axes, dst_axes)]. *)
Definition Conv2DSpace_convert_numpy (tensor : ndarray) (src_axes dst_axes : pyseq tag)
    : result ndarray :=
  let src_axes := items src_axes in
  let dst_axes := items dst_axes in
  assert (length src_axes =? 4)%nat ;;;
  assert (length dst_axes =? 4)%nat ;;;
  if list_eqb tag_eqb src_axes dst_axes then OK tensor
  else
    shuffle <- axes_shuffle src_axes dst_axes ;;
    transpose tensor shuffle.

(** [Conv2DSpace._format_as(batch, space)]. *)
Definition Conv2DSpace__format_as (shape : pyseq Z) (nc : Z) (axes : pyseq tag)
    (b : batch) (space : Space) : result batch :=
  Conv2DSpace_validate shape nc axes b ;;;
  match space with
  | VectorSpace _ _ =>
      first <- py_getitem (items axes) 0 ;;
      b' <- (if negb (tag_eqb first tag_b) then
               shuffle <- mapM (index (items axes)) (batch_leading (items axes)) ;;
               batch_dimshuffle b shuffle
             else OK b) ;;
      n <- batch_shape_at b' 0 ;;
      total <- get_total_dimension (Conv2DSpace shape nc axes) ;;
      batch_reshape b' [n; total]
  | Conv2DSpace _ _ axes' => Conv2DSpace_convert b axes axes'
  | _ =>
      raise NotImplementedError
        ("Conv2DSPace doesn't know how to format as " ++ str_type (type_of space))%string
  end.

(** [Conv2DSpace.np_format_as(batch, space)], on a numpy array. *)
Definition Conv2DSpace_np_format_as (shape : pyseq Z) (nc : Z) (axes : pyseq tag)
    (b : ndarray) (space : Space) : result ndarray :=
  match space with
  | VectorSpace _ _ =>
      first <- py_getitem (items axes) 0 ;;
      b' <- (if negb (tag_eqb first tag_b) then
               shuffle <- mapM (index (items axes)) (batch_leading (items axes)) ;;
               transpose b shuffle
             else OK b) ;;
      n <- shape_at b' 0 ;;
      total <- get_total_dimension (Conv2DSpace shape nc axes) ;;
      reshape b' [n; total]
  | Conv2DSpace _ _ axes' => Conv2DSpace_convert_numpy b axes axes'
  | _ =>
      raise NotImplementedError
        ("Conv2DSPace doesn't know how to format as " ++ str_type (type_of space))%string
  end.

(** [NullSpace._format_as(batch, space)]. *)
Definition NullSpace__format_as (b : batch) (space : Space) : result batch :=
  NullSpace_validate b ;;;
  assert (match space with NullSpace => true | _ => false end) ;;;
  OK BNone.

(** [self._format_as(batch, space)], by recursion on the source: a composite
    hands each piece to its component's [format_as]. *)
Fixpoint _format_as (self : Space) (b : batch) (space : Space) {struct self}
    : result batch :=
  match self with
  | VectorSpace dim sparse => VectorSpace__format_as dim sparse b space
  | Conv2DSpace shape nc axes => Conv2DSpace__format_as shape nc axes b space
  | CompositeSpace components =>
      match space with
      | VectorSpace _ _ =>
          input_pieces <- batch_iter b ;;
          pieces <-
            (fix each (cs : list Space) (bs : list batch) {struct cs}
               : result (list batch) :=
               match cs, bs with
               | component :: cs', input_piece :: bs' =>
                   width <- get_total_dimension component ;;
                   piece <-
                     format_as_with
                       (_format_as component input_piece (VectorSpace width false))
                       component input_piece (VectorSpace width false) ;;
                   rest <- each cs' bs' ;;
                   OK (piece :: rest)
               | _, _ => OK []
               end) components input_pieces ;;
          T_concatenate_axis1 pieces
      | _ =>
          raise NotImplementedError
            (space_str self ++ " does not know how to format as " ++ space_str space)%string
      end
  | NullSpace => NullSpace__format_as b space
  end.

(** [self.format_as(batch, space)]. *)
Definition format_as (self : Space) (b : batch) (space : Space) : result batch :=
  format_as_with (_format_as self b space) self b space.

(** ** Further methods of the descriptors *)

(** [Space.__ne__]. *)
Definition space_ne (self other : Space) : bool := negb (space_eq self other).

(** [Conv2DSpace.get_origin()]. *)
Definition Conv2DSpace_get_origin (shape : pyseq Z) (num_channels : Z) (axes : pyseq tag)
    : result ndarray :=
  h <- py_getitem (items shape) 0 ;;
  w <- py_getitem (items shape) 1 ;;
  let dims := [(tag_0, h); (tag_1, w); (tag_c, num_channels)] in
  shape <- mapM (dict_get dims)
             (filter (fun elem => negb (tag_eqb elem tag_b)) (items axes)) ;;
  np_zeros shape.

(** [self.get_origin()]; [CompositeSpace] and [NullSpace] inherit the base
    method, which raises. *)
Definition get_origin (self : Space) : result ndarray :=
  match self with
  | VectorSpace dim _ => np_zeros [dim]
  | Conv2DSpace shape nc axes => Conv2DSpace_get_origin shape nc axes
  | _ => raise NotImplementedError ""
  end.

(** [self.get_origin_batch(n)] for an int [n]. *)
Fixpoint get_origin_batch (self : Space) (n : Z) {struct self} : result batch :=
  match self with
  | VectorSpace dim _ => v <- np_zeros [n; dim] ;; OK (BArray v)
  | Conv2DSpace shape nc axes =>
      v <- Conv2DSpace_get_origin_batch shape nc axes (PInt n) ;; OK (BArray v)
  | CompositeSpace components =>
      bs <- mapM (fun component => get_origin_batch component n) components ;;
      OK (BTuple bs)
  | NullSpace => raise NotImplementedError ""
  end.

(** [CompositeSpace.restrict_batch(batch, subset)]. *)
Definition restrict_batch (self : Space) (b : batch) (subset : pyseq Z) : result batch :=
  match self with
  | CompositeSpace _ =>
      validate self b ;;;
      match b with
      | BTuple l =>
          match items subset with
          | [idx] => py_getitem l idx
          | s => bs <- mapM (py_getitem l) s ;; OK (BTuple bs)
          end
      | _ => raise_opaque TypeError
      end
  | _ => raise_opaque AttributeError
  end.

(** ** Hashing *)

(** Python's builtin [hash] on ints, strings, classes and tuples (of the
    hashes of their items). *)
Variable hash_int : Z -> Z.
Variable hash_str : string -> Z.
Variable hash_type : space_class -> Z.
Variable hash_tuple : list Z -> Z.

Definition hash_tag (a : tag) : Z :=
  match a with
  | TStr s => hash_str s
  | TInt z => hash_int z
  end.

(** [hash(s)] of a sequence: a list is unhashable. *)
Definition hash_seq {A : Type} (h : A -> Z) (s : pyseq A) : result Z :=
  match kind s with
  | Tuple => OK (hash_tuple (map h (items s)))
  | List => raise TypeError "unhashable type: 'list'"
  end.

(** [hash(self)]. *)
Fixpoint space_hash (self : Space) : result Z :=
  match self with
  | VectorSpace dim _ => OK (hash_tuple [hash_type VectorSpaceT; hash_int dim])
  | Conv2DSpace shape nc axes =>
      hs <- hash_seq hash_int shape ;;
      ha <- hash_seq hash_tag axes ;;
      OK (hash_tuple [hash_type Conv2DSpaceT; hs; hash_int nc; ha])
  | CompositeSpace components =>
      hs <- mapM space_hash components ;;
      OK (hash_tuple [hash_type CompositeSpaceT; hash_tuple hs])
  | NullSpace => OK (hash_type NullSpaceT)
  end.

(** ** Specification vocabulary *)

(** The attributes [__eq__] compares: [sparse] is dropped and [axes] is read
    as a tuple. *)
Fixpoint compared_attributes (s : Space) : Space :=
  match s with
  | VectorSpace dim _ => VectorSpace dim false
  | Conv2DSpace shape nc axes => Conv2DSpace shape nc (PySeq Tuple (items axes))
  | CompositeSpace components => CompositeSpace (map compared_attributes components)
  | NullSpace => NullSpace
  end.

(** The four axis tags of an image batch. *)
Definition axis_tags : list tag := [tag_b; tag_c; tag_0; tag_1].

(** The image-display ordering (the default), theano's convolution ordering
    and a batch-last ordering. *)
Definition axes_b01c : pyseq tag := tuple [tag_b; tag_0; tag_1; tag_c].
Definition axes_bc01 : pyseq tag := tuple [tag_b; tag_c; tag_0; tag_1].
Definition axes_c01b : pyseq tag := tuple [tag_c; tag_0; tag_1; tag_b].

(** Every ordering of the items of a list. *)
Fixpoint insertions {A : Type} (x : A) (l : list A) : list (list A) :=
  match l with
  | [] => [[x]]
  | y :: r => (x :: l) :: map (cons y) (insertions x r)
  end.

Fixpoint orderings {A : Type} (l : list A) : list (list A) :=
  match l with
  | [] => [[]]
  | x :: r => flat_map (insertions x) (orderings r)
  end.

(** The columns [lo .. hi-1] of each row. *)
Definition columns (lo hi : nat) (rows : list (list elt)) : list (list elt) :=
  map (fun row => firstn (hi - lo) (skipn lo row)) rows.

(** The consecutive column blocks of the widths [widths], from column [pos]
    on, of a matrix [v] of [n] rows and [m] columns. *)
Fixpoint column_blocks (v : ndarray) (n m pos : nat) (widths : list nat) : list ndarray :=
  match widths with
  | [] => []
  | w :: ws =>
      NDArray [n; pos + w - pos]
        (concat (columns pos (pos + w) (chunks n m (arr_data v))))
      :: column_blocks v n m (pos + w) ws
  end.

(** The extent of an array along the axis tagged [a]:
    [v.shape[axes.index(a)]]. *)
Definition extent_at (axes : list tag) (v : ndarray) (a : tag) : result Z :=
  d <- index axes a ;; shape_at v d.

(** The descriptor has no list where [hash] needs a tuple. *)
Fixpoint hashable (s : Space) : bool :=
  match s with
  | Conv2DSpace shape _ axes => seqkind_eqb (kind shape) Tuple && seqkind_eqb (kind axes) Tuple
  | CompositeSpace components => forallb hashable components
  | _ => true
  end.

(** A [NullSpace] occurs in the descriptor. *)
Fixpoint contains_null (s : Space) : bool :=
  match s with
  | NullSpace => true
  | CompositeSpace components => existsb contains_null components
  | _ => false
  end.

(** The sum of a list of ints. *)
Definition sum_Z (l : list Z) : Z := fold_right Z.add 0%Z l.

(** The extent an image batch of [n] examples has along the axis tagged
    [a], for images of [h] rows, [w] columns and [c] channels. *)
Definition image_extent (n h w c : Z) (a : tag) : Z :=
  if tag_eqb a tag_b then n
  else if tag_eqb a tag_0 then h
  else if tag_eqb a tag_1 then w
  else c.

(** Structural induction through the component lists. *)
Lemma Space_ind' (P : Space -> Prop) :
  (forall dim sparse, P (VectorSpace dim sparse)) ->
  (forall shape nc axes, P (Conv2DSpace shape nc axes)) ->
  (forall components, Forall P components -> P (CompositeSpace components)) ->
  P NullSpace ->
  forall s, P s.
Proof.
  intros Hv Hc Hk Hn.
  fix IH 1.
  intros [dim sparse | shape nc axes | components | ].
  - apply Hv.
  - apply Hc.
  - apply Hk.
    induction components as [| x r IHr]; constructor.
    + apply IH.
    + exact IHr.
  - apply Hn.
Qed.

(** * Properties *)

Unset Implicit Arguments.

(** ** Auxiliary facts on Python values *)

Lemma bind_OK {A B : Type} (r : result A) (k : A -> result B) (b : B) :
  bind r k = OK b -> exists a, r = OK a /\ k a = OK b.
Proof.
  destruct r as [a | e]; simpl; intros H.
  - exists a. split; [reflexivity | exact H].
  - discriminate H.
Qed.

Lemma tag_eqb_eq (a b : tag) : tag_eqb a b = true <-> a = b.
Proof.
  destruct a as [s | x], b as [t | y]; simpl.
  - rewrite String.eqb_eq. split; congruence.
  - split; discriminate.
  - split; discriminate.
  - rewrite Z.eqb_eq. split; congruence.
Qed.

Lemma tag_eqb_refl (a : tag) : tag_eqb a a = true.
Proof. apply tag_eqb_eq. reflexivity. Qed.

Lemma list_eqb_eq {A : Type} (eqb : A -> A -> bool) :
  (forall x y, eqb x y = true <-> x = y) ->
  forall l1 l2, list_eqb eqb l1 l2 = true <-> l1 = l2.
Proof.
  intros Heqb l1.
  induction l1 as [| x r1 IH]; intros [| y r2]; simpl.
  - split; reflexivity.
  - split; discriminate.
  - split; discriminate.
  - rewrite andb_true_iff, Heqb, IH. split.
    + intros [-> ->]. reflexivity.
    + intros H. injection H as -> ->. split; reflexivity.
Qed.

Lemma seqkind_eqb_eq (a b : seqkind) : seqkind_eqb a b = true <-> a = b.
Proof. destruct a, b; simpl; split; congruence. Qed.

Lemma pyseq_eqb_eq {A : Type} (eqb : A -> A -> bool) :
  (forall x y, eqb x y = true <-> x = y) ->
  forall s1 s2, pyseq_eqb eqb s1 s2 = true <-> s1 = s2.
Proof.
  intros Heqb [k1 l1] [k2 l2]. unfold pyseq_eqb. simpl.
  rewrite andb_true_iff, seqkind_eqb_eq, (list_eqb_eq eqb Heqb). split.
  - intros [-> ->]. reflexivity.
  - intros H. injection H as -> ->. split; reflexivity.
Qed.

Lemma mapM_total {A B : Type} (f : A -> result B) (g : A -> B) (l : list A) :
  (forall x, In x l -> f x = OK (g x)) -> mapM f l = OK (map g l).
Proof.
  induction l as [| x l IH]; simpl; intros H.
  - reflexivity.
  - rewrite (H x (or_introl eq_refl)). simpl.
    rewrite IH; [reflexivity |].
    intros y Hy. apply H. right. exact Hy.
Qed.

(** ** Equality and hashing *)

Lemma space_eq_compared (s1 : Space) :
  forall s2, space_eq s1 s2 = true <-> compared_attributes s1 = compared_attributes s2.
Proof.
  induction s1 as [d1 sp1 | sh1 n1 a1 | c1 IH | ] using Space_ind';
    intros [d2 sp2 | sh2 n2 a2 | c2 | ]; simpl;
    try (split; [discriminate | congruence]); try (split; reflexivity).
  - rewrite Z.eqb_eq. split; congruence.
  - rewrite !andb_true_iff, (pyseq_eqb_eq Z.eqb Z.eqb_eq), Z.eqb_eq,
      (list_eqb_eq tag_eqb tag_eqb_eq).
    split.
    + intros [[-> ->] ->]. reflexivity.
    + intros H. injection H as -> -> ->. repeat split.
  - revert c2. induction IH as [| x r Hx Hr IHr]; intros [| y c2]; simpl.
    + split; reflexivity.
    + split; discriminate.
    + split; discriminate.
    + specialize (IHr c2). simpl in IHr.
      rewrite andb_true_iff in IHr.
      rewrite !andb_true_iff, Hx. split.
      * intros [Hlen [Hxy Hall]].
        rewrite Hxy. f_equal. f_equal.
        assert (Hc : CompositeSpace (map compared_attributes r) =
                     CompositeSpace (map compared_attributes c2))
          by (apply IHr; split; assumption).
        congruence.
      * intros H. injection H as Hxy Hmap.
        assert (Hc : (length r =? length c2)%nat = true /\ _)
          by (apply IHr; rewrite Hmap; reflexivity).
        destruct Hc as [Hlen Hall]. repeat split; assumption.
Qed.

Lemma space_hash_compared (s : Space) :
  forall h, space_hash s = OK h -> space_hash (compared_attributes s) = OK h.
Proof.
  induction s as [d sp | sh n a | c IH | ] using Space_ind'; simpl; intros h H.
  - exact H.
  - destruct sh as [ks ls], a as [ka la]. unfold hash_seq in *. simpl in *.
    destruct ks; simpl in *; [| discriminate H].
    destruct ka; simpl in *; [exact H | discriminate H].
  - apply bind_OK in H. destruct H as [hs [Hhs H]].
    assert (Hm : mapM space_hash (map compared_attributes c) = OK hs).
    { clear H. revert hs Hhs.
      induction IH as [| x r Hx Hr IHr]; simpl; intros hs Hhs.
      - exact Hhs.
      - apply bind_OK in Hhs. destruct Hhs as [y [Hy Hhs]].
        apply bind_OK in Hhs. destruct Hhs as [ys [Hys Hhs]].
        rewrite (Hx y Hy). simpl. rewrite (IHr ys Hys). simpl. exact Hhs. }
    rewrite Hm. exact H.
  - exact H.
Qed.

(** What [__eq__] decides: two descriptors are equal exactly when they are
    the same variant with the same compared attributes, and equal
    descriptors whose hashes are defined have equal hashes. *)
Lemma space_eq_characterisation (s1 s2 : Space) :
  (space_eq s1 s2 = true <-> compared_attributes s1 = compared_attributes s2) /\
  (space_eq s1 s2 = true ->
   forall h1 h2, space_hash s1 = OK h1 -> space_hash s2 = OK h2 -> h1 = h2).
Proof.
  split.
  - apply space_eq_compared.
  - intros Heq h1 h2 H1 H2.
    apply space_eq_compared in Heq.
    apply space_hash_compared in H1. apply space_hash_compared in H2.
    rewrite Heq in H1. congruence.
Qed.

(** ** Construction *)

(** C4 (as the code has it).  [VectorSpace.__init__] validates nothing: for
    every integer [dim], positive or not, construction succeeds and stores
    [dim] and the [sparse] flag ([False] when omitted) as given. *)
Theorem VectorSpace_init_stores_arguments (dim : Z) (sparse : option bool) :
  VectorSpace_init dim sparse =
  OK (VectorSpace dim (match sparse with Some b => b | None => false end)) /\
  (s <- VectorSpace_init dim sparse ;; get_total_dimension s) = OK dim.
Proof.
  split; reflexivity.
Qed.

Lemma assert_OK (c : bool) (u : unit) : assert c = OK u -> c = true.
Proof. destruct c; simpl; [reflexivity | discriminate]. Qed.

(** C5 (as the code has it).  A successfully constructed [Conv2DSpace] has
    four axes: the given sequence, of length 4, or the default
    [('b', 0, 1, 'c')] when omitted; a sequence of another length does not
    produce a descriptor. *)
Theorem Conv2DSpace_init_axes (shape : pyseq Z) (channels num_channels : option Z)
    (axes : option (pyseq tag)) :
  (forall s, Conv2DSpace_init shape channels num_channels axes = OK s ->
     exists nc ax,
       s = Conv2DSpace shape nc ax /\
       length (items ax) = 4 /\
       ax = match axes with
            | None => PySeq Tuple [tag_b; tag_0; tag_1; tag_c]
            | Some a => a
            end) /\
  (forall a, axes = Some a -> length (items a) <> 4 ->
     exists e, Conv2DSpace_init shape channels num_channels axes = Err e).
Proof.
  unfold Conv2DSpace_init. split.
  - intros s H.
    apply bind_OK in H. destruct H as [u1 [_ H]].
    destruct (match num_channels with None => channels | Some _ => num_channels end)
      as [nc |]; [| discriminate H].
    destruct (negb (length (items shape) =? 2)%nat); [discriminate H |].
    apply bind_OK in H. destruct H as [u2 [_ H]].
    apply bind_OK in H. destruct H as [u3 [_ H]].
    apply bind_OK in H. destruct H as [u4 [Hlen H]].
    apply assert_OK in Hlen. apply Nat.eqb_eq in Hlen.
    injection H as <-.
    eexists. eexists. repeat split. exact Hlen.
  - intros a -> Hlen.
    destruct (assert (is_None channels + is_None num_channels =? 1)%Z) as [u |e];
      simpl; [| eexists; reflexivity].
    destruct (match num_channels with None => channels | Some _ => num_channels end)
      as [nc |]; [| eexists; reflexivity].
    destruct (negb (length (items shape) =? 2)%nat); [eexists; reflexivity |].
    destruct (assert (forallb (fun elem => (elem >? 0)%Z) (items shape))) as [u2 | e];
      simpl; [| eexists; reflexivity].
    destruct (assert (nc >? 0)%Z) as [u3 | e]; simpl; [| eexists; reflexivity].
    apply Nat.eqb_neq in Hlen. rewrite Hlen. simpl. eexists. reflexivity.
Qed.

(** ** Restriction *)

Lemma py_getitem_in_range {A : Type} (l : list A) (i : Z) (d : A) :
  (- Z.of_nat (length l) <= i < Z.of_nat (length l))%Z ->
  py_getitem l i =
  OK (nth (Z.to_nat (if (i <? 0)%Z then i + Z.of_nat (length l) else i)%Z) l d).
Proof.
  intros Hi. unfold py_getitem.
  set (j := (if (i <? 0)%Z then (i + Z.of_nat (length l))%Z else i)).
  assert (Hj : (0 <= j < Z.of_nat (length l))%Z).
  { unfold j. destruct (Z.ltb_spec i 0); lia. }
  destruct (Z.leb_spec 0 j) as [_ | Hneg]; [| lia].
  destruct (Z.ltb_spec j (Z.of_nat (length l))) as [_ | Hge]; [| lia].
  simpl. rewrite (nth_error_nth' l d) by lia. reflexivity.
Qed.

(** C9.  On a [CompositeSpace], restricting to a non-empty subset of valid
    indices (counted from the end when negative, as Python does) returns
    the selected components in the subset's order: the component itself for
    a single index, a [CompositeSpace] of them otherwise; so [[2]] on
    [[A, B, C]] returns [C] and [[2, 0]] returns [CompositeSpace([C, A])]. *)
Theorem restrict_selects_in_order (components : list Space) (subset : pyseq Z) :
  items subset <> [] ->
  Forall (fun i => (- Z.of_nat (length components) <= i < Z.of_nat (length components))%Z)
         (items subset) ->
  let position i :=
    Z.to_nat (if (i <? 0)%Z then i + Z.of_nat (length components) else i)%Z in
  let selected := map (fun i => nth (position i) components NullSpace) (items subset) in
  restrict (CompositeSpace components) subset =
  OK (match selected with
      | [component] => component
      | _ => CompositeSpace selected
      end) /\
  (forall A B C k,
      restrict (CompositeSpace [A; B; C]) (PySeq k [2%Z]) = OK C /\
      restrict (CompositeSpace [A; B; C]) (PySeq k [2%Z; 0%Z]) = OK (CompositeSpace [C; A])).
Proof.
  intros Hne Hin position selected.
  assert (Hget : forall i, In i (items subset) ->
            py_getitem components i = OK (nth (position i) components NullSpace)).
  { intros i Hi. rewrite Forall_forall in Hin. specialize (Hin i Hi).
    apply py_getitem_in_range. exact Hin. }
  split.
  - unfold restrict, selected.
    destruct (items subset) as [| i [| j r]] eqn:Hitems.
    + contradiction.
    + simpl. apply Hget. left. reflexivity.
    + rewrite (mapM_total _ _ _ Hget). reflexivity.
  - intros A B C k. split; reflexivity.
Qed.

(** ** Dimension check of the converter *)

Lemma append_assoc (a b c : string) : ((a ++ b) ++ c = a ++ (b ++ c))%string.
Proof.
  induction a as [| ch a IH]; simpl.
  - reflexivity.
  - rewrite IH. reflexivity.
Qed.

(** C6.  When the batch validates under the source and the two total
    dimensions are defined and differ, [format_as] raises a [ValueError]
    whose message names both totals, and returns no batch; so
    [VectorSpace(dim=3)] formatted into [VectorSpace(dim=4)] raises. *)
Theorem format_as_dimension_mismatch (self space : Space) (b : batch) (m n : Z) :
  validate self b = OK tt ->
  get_total_dimension self = OK m ->
  get_total_dimension space = OK n ->
  m <> n ->
  format_as self b space =
  Err (Raise ValueError (Some (dimension_error_message self space m n))) /\
  (exists pre mid,
      dimension_error_message self space m n =
      (pre ++ str_int m ++ mid ++ str_int n)%string) /\
  (forall r, format_as self b space <> OK r) /\
  (forall sp sp' x, validate (VectorSpace 3 sp) x = OK tt ->
      format_as (VectorSpace 3 sp) x (VectorSpace 4 sp') =
      Err (Raise ValueError
             (Some (dimension_error_message (VectorSpace 3 sp) (VectorSpace 4 sp') 3 4)))).
Proof.
  intros Hval Hm Hn Hneq.
  assert (Hraise : forall s1 s2 x m1 m2,
             validate s1 x = OK tt -> get_total_dimension s1 = OK m1 ->
             get_total_dimension s2 = OK m2 -> m1 <> m2 ->
             format_as s1 x s2 =
             Err (Raise ValueError (Some (dimension_error_message s1 s2 m1 m2)))).
  { intros s1 s2 x m1 m2 H1 H2 H3 H4.
    unfold format_as, format_as_with. rewrite H1, H2, H3. simpl.
    destruct (Z.eqb_spec m1 m2) as [Heq | _]; [contradiction | reflexivity]. }
  repeat split.
  - apply Hraise; assumption.
  - exists (space_str self ++ " with total dimension ")%string.
    exists (" can't format a batch into " ++ space_str space ++
            "because its total dimension is ")%string.
    unfold dimension_error_message.
    rewrite !append_assoc. reflexivity.
  - intros r Hr. rewrite (Hraise self space b m n) in Hr by assumption. discriminate Hr.
  - intros sp sp' x Hx. apply Hraise; [exact Hx | reflexivity | reflexivity | lia].
Qed.

(** ** The null space *)

(** C7 (the code at the failing input).  Through [format_as] a [NullSpace]
    never converts: a batch other than [None] fails validation, and [None]
    reaches [get_total_dimension], which [NullSpace] does not implement, so
    the hook that returns the placeholder is never run. *)
Theorem NullSpace_format_as_raises (b : batch) (space : Space) :
  (exists e, format_as NullSpace b space = Err e) /\
  format_as NullSpace BNone NullSpace =
  Err (Raise NotImplementedError
         (Some (str_type NullSpaceT ++ " does not implement get_total_dimension.")%string)) /\
  _format_as NullSpace BNone NullSpace = OK BNone.
Proof.
  repeat split.
  destruct b; eexists; reflexivity.
Qed.

(** ** Origin batches *)

Lemma dict_get_axis_tags (n h w c : Z) (a : tag) :
  In a axis_tags ->
  exists v, dict_get [(tag_b, n); (tag_0, h); (tag_1, w); (tag_c, c)] a = OK v /\
            In v [n; h; w; c].
Proof.
  intros [<- | [<- | [<- | [<- | []]]]]; eexists; (split; [reflexivity |]); simpl; auto.
Qed.

Lemma repeat_Forall {A : Type} (x : A) (k : nat) : Forall (eq x) (repeat x k).
Proof. induction k; simpl; constructor; auto. Qed.

(** C8.  For a [Conv2DSpace] of positive shape [(h, w)] and channel count
    [c] whose four axes are axis tags, and a positive int [n],
    [get_origin_batch(n)] returns an all-zero array of four axes whose
    extent at each position is the entry of [{b: n, 0: h, 1: w, c: c}] for the
    tag at that position of the axes; an argument that is not an int raises
    a [TypeError]. *)
Theorem Conv2DSpace_get_origin_batch_shape (shape : pyseq Z) (h w c n : Z)
    (ax : pyseq tag) :
  items shape = [h; w] ->
  (0 < h)%Z -> (0 < w)%Z -> (0 < c)%Z ->
  length (items ax) = 4 ->
  Forall (fun a => In a axis_tags) (items ax) ->
  (0 < n)%Z ->
  (exists t,
      Conv2DSpace_get_origin_batch shape c ax (PInt n) = OK t /\
      ndim t = 4 /\
      wf_ndarray t /\
      Forall (eq zero) (arr_data t) /\
      forall k a, nth_error (items ax) k = Some a ->
        exists v, dict_get [(tag_b, n); (tag_0, h); (tag_1, w); (tag_c, c)] a = OK v /\
                  shape_at t k = OK v) /\
  (forall v, (forall z, v <> PInt z) ->
     exists msg, Conv2DSpace_get_origin_batch shape c ax v = Err (Raise TypeError msg)).
Proof.
  intros Hshape Hh Hw Hc Hlen Htags Hn. split.
  - set (dims := [(tag_b, n); (tag_0, h); (tag_1, w); (tag_c, c)]).
    set (extent := fun a => match dict_get dims a with OK v => v | Err _ => 0%Z end).
    assert (Hext : forall a, In a (items ax) ->
               dict_get dims a = OK (extent a) /\ (0 < extent a)%Z).
    { intros a Ha. rewrite Forall_forall in Htags.
      destruct (dict_get_axis_tags n h w c a (Htags a Ha)) as [v [Hv Hin]].
      unfold extent. fold dims in Hv. rewrite Hv. split; [reflexivity |].
      simpl in Hin. destruct Hin as [<- | [<- | [<- | [<- | []]]]]; assumption. }
    exists (NDArray (map Z.to_nat (map extent (items ax)))
                    (repeat zero (prod (map Z.to_nat (map extent (items ax)))))).
    split; [| split; [| split; [| split]]].
    + unfold Conv2DSpace_get_origin_batch.
      destruct (Z.gtb_spec n 0) as [_ | Hle]; [| lia].
      rewrite Hshape.
      change (py_getitem [h; w] 0%Z) with (OK h).
      change (py_getitem [h; w] 1%Z) with (OK w).
      cbn [bind assert]. fold dims.
      rewrite (mapM_total (dict_get dims) extent (items ax))
        by (intros a Ha; apply Hext; exact Ha).
      cbn [bind]. unfold np_zeros.
      replace (existsb (fun d => (d <? 0)%Z) (map extent (items ax))) with false;
        [reflexivity |].
      symmetry. apply not_true_is_false. intros Hex.
      apply existsb_exists in Hex. destruct Hex as [d [Hd Hneg]].
      apply in_map_iff in Hd. destruct Hd as [a [<- Ha]].
      apply Z.ltb_lt in Hneg. specialize (Hext a Ha). lia.
    + unfold ndim. simpl. rewrite !length_map. exact Hlen.
    + unfold wf_ndarray. simpl. apply repeat_length.
    + simpl. apply repeat_Forall.
    + intros k a Hk. exists (extent a).
      assert (Ha : In a (items ax)) by (eapply nth_error_In; exact Hk).
      destruct (Hext a Ha) as [Hget Hpos]. split; [exact Hget |].
      unfold shape_at. simpl.
      rewrite !nth_error_map, Hk. simpl. rewrite Z2Nat.id by lia. reflexivity.
  - intros v Hv. destruct v as [z | x | s |].
    + exfalso. apply (Hv z). reflexivity.
    + eexists. reflexivity.
    + eexists. reflexivity.
    + eexists. reflexivity.
Qed.

(** ** Batch size *)

Lemma index_from_In (x : tag) (l : list tag) (k0 : nat) :
  In x l ->
  exists k, index_from x l k0 = OK (k0 + k) /\ nth_error l k = Some x /\ k < length l.
Proof.
  revert k0. induction l as [| y r IH]; intros k0 Hin.
  - destruct Hin.
  - simpl. destruct (tag_eqb y x) eqn:Hyx.
    + apply tag_eqb_eq in Hyx. subst y. exists 0.
      rewrite Nat.add_0_r. repeat split. simpl. lia.
    + destruct Hin as [-> | Hin]; [rewrite tag_eqb_refl in Hyx; discriminate |].
      destruct (IH (S k0) Hin) as [k [Hk [Hnth Hlt]]].
      exists (S k). rewrite Hk. repeat split.
      * f_equal. lia.
      * exact Hnth.
      * simpl. lia.
Qed.

Lemma Conv2DSpace_validate_OK (shape : pyseq Z) (nc : Z) (axes : pyseq tag)
    (b : batch) (u : unit) :
  Conv2DSpace_validate shape nc axes b = OK u ->
  exists v, b = BVar DenseType v /\ ndim v = 4.
Proof.
  destruct b as [| ty v | v | l]; simpl; try discriminate.
  destruct ty; [| discriminate].
  destruct (Nat.eqb_spec (ndim v) 4) as [Hnd | _]; simpl; [| discriminate].
  intros _. exists v. split; [reflexivity | exact Hnd].
Qed.

(** On the three descriptors without components the number
    [get_batch_size] stands for is read off directly. *)
Lemma get_batch_size_VectorSpace (dim : Z) (sparse : bool) (data : batch) :
  get_batch_size (VectorSpace dim sparse) data =
  (VectorSpace_validate sparse data ;;; batch_shape_at data 0).
Proof.
  unfold get_batch_size. cbn [get_batch_size_object].
  destruct (VectorSpace_validate sparse data) as [u | e]; cbn [bind]; [| reflexivity].
  destruct (batch_shape_at data 0) as [n | e]; reflexivity.
Qed.

Lemma get_batch_size_Conv2DSpace (shape : pyseq Z) (nc : Z) (axes : pyseq tag)
    (data : batch) :
  get_batch_size (Conv2DSpace shape nc axes) data =
  Conv2DSpace_get_batch_size shape nc axes data.
Proof.
  unfold get_batch_size. cbn [get_batch_size_object].
  destruct (Conv2DSpace_get_batch_size shape nc axes data) as [n | e]; reflexivity.
Qed.

Lemma get_batch_size_NullSpace (data : batch) :
  get_batch_size NullSpace data = (NullSpace_validate data ;;; OK 0%Z).
Proof.
  unfold get_batch_size. cbn [get_batch_size_object].
  destruct (NullSpace_validate data) as [u | e]; reflexivity.
Qed.

(** C10.  For a [Conv2DSpace] with four axes among which ['b'], and a batch
    valid under it, [get_batch_size] returns the extent of the batch at the
    position of ['b'] in the axes, not that of the first axis; for the axes
    [('c', 0, 1, 'b')] it is the extent of the last axis. *)
Theorem Conv2DSpace_get_batch_size_reads_b (shape : pyseq Z) (nc : Z)
    (axes : pyseq tag) (data : batch) :
  length (items axes) = 4 ->
  In tag_b (items axes) ->
  validate (Conv2DSpace shape nc axes) data = OK tt ->
  (exists k, index (items axes) tag_b = OK k /\
             get_batch_size (Conv2DSpace shape nc axes) data = batch_shape_at data k /\
             exists s, batch_shape_at data k = OK s) /\
  (items axes = [tag_c; tag_0; tag_1; tag_b] ->
   get_batch_size (Conv2DSpace shape nc axes) data = batch_shape_at data 3).
Proof.
  intros Hlen Hin Hval. simpl in Hval.
  destruct (Conv2DSpace_validate_OK _ _ _ _ _ Hval) as [v [-> Hnd]].
  destruct (index_from_In tag_b (items axes) 0 Hin) as [k [Hk [Hnth Hlt]]].
  simpl in Hk. split.
  - exists k. split; [exact Hk |]. split.
    + rewrite get_batch_size_Conv2DSpace.
      unfold Conv2DSpace_get_batch_size. rewrite Hval. simpl.
      unfold index. rewrite Hk. reflexivity.
    + simpl. unfold shape_at.
      destruct (nth_error (arr_shape v) k) as [s |] eqn:Hs.
      * eexists. reflexivity.
      * apply nth_error_None in Hs. unfold ndim in Hnd. lia.
  - intros Hax. rewrite get_batch_size_Conv2DSpace.
    unfold Conv2DSpace_get_batch_size. rewrite Hval. simpl.
    rewrite Hax. reflexivity.
Qed.

(** ** Row-major indexing *)

Lemma ravel_unravel (shape : list nat) :
  forall j, j < prod shape ->
    ravel (unravel shape j) (strides shape) = j /\ in_bounds (unravel shape j) shape.
Proof.
  induction shape as [| s rest IH]; simpl; intros j Hj.
  - split; [lia | exact I].
  - assert (Hp : prod rest <> 0) by (intros H0; rewrite H0 in Hj; lia).
    destruct (IH (j mod prod rest)) as [Hr Hb].
    { apply Nat.mod_upper_bound. exact Hp. }
    rewrite Hr. split; [| split].
    + pose proof (Nat.div_mod_eq j (prod rest)). lia.
    + apply Nat.Div0.div_lt_upper_bound. lia.
    + exact Hb.
Qed.

Lemma unravel_ravel (shape : list nat) :
  forall idx, in_bounds idx shape ->
    unravel shape (ravel idx (strides shape)) = idx /\
    ravel idx (strides shape) < prod shape.
Proof.
  induction shape as [| s rest IH]; intros [| i idx]; simpl; intros Hb;
    try contradiction.
  - split; [reflexivity | lia].
  - destruct Hb as [Hi Hb]. destruct (IH idx Hb) as [Hu Hlt].
    assert (Hp : prod rest <> 0) by lia.
    rewrite Nat.div_add_l by exact Hp.
    rewrite Nat.div_small by exact Hlt.
    assert (Hm : (i * prod rest + ravel idx (strides rest)) mod prod rest =
                 ravel idx (strides rest)).
    { rewrite Nat.add_comm, Nat.Div0.mod_add.
      apply Nat.mod_small. exact Hlt. }
    rewrite Hm, Hu, Nat.add_0_r. split; [reflexivity | nia].
Qed.

Lemma nth_map_seq (f : nat -> elt) (n j : nat) (d : elt) :
  j < n -> nth j (map f (seq 0 n)) d = f j.
Proof.
  intros Hj. rewrite (nth_indep _ d (f 0)) by (rewrite length_map, length_seq; exact Hj).
  rewrite map_nth, seq_nth by exact Hj. reflexivity.
Qed.

(** Two arrays of one shape with the same element at every position are the
    same array. *)
Lemma ndarray_ext (t u : ndarray) :
  wf_ndarray t -> wf_ndarray u -> arr_shape t = arr_shape u ->
  (forall idx, in_bounds idx (arr_shape t) -> get t idx = get u idx) ->
  t = u.
Proof.
  destruct t as [st dt], u as [su du]. unfold wf_ndarray. simpl.
  intros Ht Hu <- Hget. f_equal.
  apply (nth_ext dt du zero zero); [congruence |].
  intros j Hj. rewrite Ht in Hj.
  destruct (ravel_unravel st j Hj) as [Hr Hb].
  specialize (Hget _ Hb). unfold get in Hget. simpl in Hget.
  rewrite Hr in Hget. exact Hget.
Qed.

(** ** Transposition *)

Lemma transpose_OK (t t' : ndarray) (perm : list nat) :
  transpose t perm = OK t' ->
  is_axis_permutation perm (ndim t) = true /\
  arr_shape t' = map (fun k => nth k (arr_shape t) 0) perm /\
  wf_ndarray t' /\
  forall idx, in_bounds idx (arr_shape t') ->
    get t' idx =
    nth (ravel idx (map (fun k => nth k (strides (arr_shape t)) 0) perm)) (arr_data t) zero.
Proof.
  unfold transpose.
  destruct (is_axis_permutation perm (ndim t)); [| discriminate].
  intros H. injection H as <-. simpl.
  split; [reflexivity |]. split; [reflexivity |]. split.
  - unfold wf_ndarray. simpl. rewrite length_map, length_seq. reflexivity.
  - intros idx Hb. unfold get. simpl.
    destruct (unravel_ravel _ idx Hb) as [Hu Hlt].
    rewrite nth_map_seq by exact Hlt. rewrite Hu. reflexivity.
Qed.

Lemma transpose_defined (t : ndarray) (perm : list nat) :
  is_axis_permutation perm (ndim t) = true -> exists t', transpose t perm = OK t'.
Proof.
  intros H. unfold transpose. rewrite H. eexists. reflexivity.
Qed.

Lemma axis_permutation4_cases (perm : list nat) :
  is_axis_permutation perm 4 = true -> In perm (orderings [0; 1; 2; 3]).
Proof.
  unfold is_axis_permutation. intros H.
  apply andb_true_iff in H. destruct H as [Hlen H].
  apply Nat.eqb_eq in Hlen.
  destruct perm as [| a [| b [| c [| d [| e r]]]]]; try discriminate Hlen.
  assert (Hlt : forall x, In x [a; b; c; d] -> x < 4).
  { intros x Hx.
    destruct (Nat.lt_ge_cases x 4) as [Hx4 | Hx4]; [exact Hx4 | exfalso].
    cbn [seq forallb] in H. rewrite !andb_true_iff in H.
    destruct H as [H0 [H1 [H2 [H3 _]]]].
    cbn [existsb] in H0, H1, H2, H3.
    rewrite !orb_true_iff, !Nat.eqb_eq in H0, H1, H2, H3.
    simpl in Hx. lia. }
  assert (Ha := Hlt a (or_introl eq_refl)).
  assert (Hb := Hlt b (or_intror (or_introl eq_refl))).
  assert (Hc := Hlt c (or_intror (or_intror (or_introl eq_refl)))).
  assert (Hd := Hlt d (or_intror (or_intror (or_intror (or_introl eq_refl))))).
  clear Hlt Hlen.
  destruct a as [| [| [| [| a]]]]; try lia;
  destruct b as [| [| [| [| b]]]]; try lia;
  destruct c as [| [| [| [| c]]]]; try lia;
  destruct d as [| [| [| [| d]]]]; try lia;
  try (vm_compute in H; discriminate H);
  vm_compute; tauto.
Qed.

Lemma ravel_permute4 (perm : list nat) (i0 i1 i2 i3 s0 s1 s2 s3 : nat) :
  In perm (orderings [0; 1; 2; 3]) ->
  ravel (map (fun k => nth k [i0; i1; i2; i3] 0) perm)
        (map (fun k => nth k [s0; s1; s2; s3] 0) perm) =
  ravel [i0; i1; i2; i3] [s0; s1; s2; s3].
Proof.
  intros H. cbn in H.
  repeat (destruct H as [<- | H]; [cbn; lia |]).
  destruct H.
Qed.

Lemma in_bounds_permute4 (perm : list nat) (i0 i1 i2 i3 s0 s1 s2 s3 : nat) :
  In perm (orderings [0; 1; 2; 3]) ->
  in_bounds [i0; i1; i2; i3] [s0; s1; s2; s3] ->
  in_bounds (map (fun k => nth k [i0; i1; i2; i3] 0) perm)
            (map (fun k => nth k [s0; s1; s2; s3] 0) perm).
Proof.
  intros H Hb. cbn in H, Hb.
  repeat (destruct H as [<- | H]; [cbn; tauto |]).
  destruct H.
Qed.

Lemma in_bounds_length (idx shape : list nat) :
  in_bounds idx shape -> length idx = length shape.
Proof.
  revert shape. induction idx as [| i idx IH]; intros [| s shape]; simpl;
    try contradiction; try reflexivity.
  intros [_ H]. f_equal. apply IH. exact H.
Qed.

(** Transposing a four-axis array moves the element at [idx] to the position
    whose [k]-th coordinate is coordinate [perm[k]] of [idx]. *)
Lemma get_transpose4 (t t' : ndarray) (perm : list nat) :
  ndim t = 4 ->
  transpose t perm = OK t' ->
  forall idx, in_bounds idx (arr_shape t) ->
    in_bounds (map (fun k => nth k idx 0) perm) (arr_shape t') /\
    get t' (map (fun k => nth k idx 0) perm) = get t idx.
Proof.
  intros Hnd Ht idx Hb.
  destruct (transpose_OK _ _ _ Ht) as [Hperm [Hshape [_ Hget]]].
  rewrite Hnd in Hperm. apply axis_permutation4_cases in Hperm.
  pose proof (in_bounds_length _ _ Hb) as Hlen.
  unfold ndim in Hnd.
  destruct (arr_shape t) as [| s0 [| s1 [| s2 [| s3 [| s4 r]]]]] eqn:Es;
    try discriminate Hnd.
  destruct idx as [| i0 [| i1 [| i2 [| i3 [| i4 r]]]]]; try discriminate Hlen.
  assert (Hb' : in_bounds (map (fun k => nth k [i0; i1; i2; i3] 0) perm) (arr_shape t')).
  { rewrite Hshape. apply in_bounds_permute4; assumption. }
  split; [exact Hb' |].
  rewrite (Hget _ Hb').
  change (strides [s0; s1; s2; s3]) with [s1 * (s2 * (s3 * 1)); s2 * (s3 * 1); s3 * 1; 1].
  rewrite ravel_permute4 by exact Hperm.
  unfold get. rewrite Es. reflexivity.
Qed.

(** ** The converter's entry point *)

Lemma format_as_with_equal (hook : result batch) (s s' : Space) (b : batch) (m : Z) :
  validate s b = OK tt ->
  get_total_dimension s = OK m -> get_total_dimension s' = OK m ->
  space_eq s s' = true ->
  format_as_with hook s b s' = OK b.
Proof.
  intros Hv Hs Hs' Heq. unfold format_as_with.
  rewrite Hv, Hs, Hs'. cbn [bind]. rewrite Z.eqb_refl, Heq. reflexivity.
Qed.

Lemma format_as_with_hook (hook : result batch) (s s' : Space) (b : batch) (m : Z) :
  validate s b = OK tt ->
  get_total_dimension s = OK m -> get_total_dimension s' = OK m ->
  space_eq s s' = false ->
  format_as_with hook s b s' = hook.
Proof.
  intros Hv Hs Hs' Heq. unfold format_as_with.
  rewrite Hv, Hs, Hs'. cbn [bind]. rewrite Z.eqb_refl, Heq. reflexivity.
Qed.

(** C3 (the code at the failing input).  [VectorSpace.__eq__] and
    [__hash__] read the class and [dim] only: two descriptors that differ in
    their [sparse] attribute are equal and hash alike, although their
    validators accept different batches.  So [format_as] from the sparse to
    the dense descriptor takes the identity branch and returns the sparse
    batch, which the destination does not accept. *)
Theorem VectorSpace_eq_ignores_sparse (d : Z) (v : ndarray) :
  ndim v = 2 ->
  space_eq (VectorSpace d true) (VectorSpace d false) = true /\
  VectorSpace d true <> VectorSpace d false /\
  space_hash (VectorSpace d true) = space_hash (VectorSpace d false) /\
  validate (VectorSpace d true) (BVar SparseType v) = OK tt /\
  format_as (VectorSpace d true) (BVar SparseType v) (VectorSpace d false) =
    OK (BVar SparseType v) /\
  exists e, validate (VectorSpace d false) (BVar SparseType v) = Err e.
Proof.
  intros Hnd.
  assert (Hval : validate (VectorSpace d true) (BVar SparseType v) = OK tt).
  { simpl. rewrite Hnd. reflexivity. }
  split; [simpl; apply Z.eqb_refl |].
  split; [discriminate |].
  split; [reflexivity |].
  split; [exact Hval |].
  split.
  - unfold format_as.
    apply (format_as_with_equal _ (VectorSpace d true) (VectorSpace d false) _ d Hval
             eq_refl eq_refl).
    simpl. apply Z.eqb_refl.
  - eexists. reflexivity.
Qed.

(** ** Conversion between axes orderings *)

Lemma axes_order_cases (l : list tag) :
  Permutation l axis_tags -> In l (orderings axis_tags).
Proof.
  intros H. pose proof (Permutation_length H) as Hlen.
  destruct l as [| x0 [| x1 [| x2 [| x3 [| x4 r]]]]]; try discriminate Hlen.
  assert (Hin : forall a, In a axis_tags -> In a [x0; x1; x2; x3]).
  { intros a Ha. apply (Permutation_in a (Permutation_sym H) Ha). }
  pose proof (Hin tag_b (or_introl eq_refl)) as Hb.
  pose proof (Hin tag_c (or_intror (or_introl eq_refl))) as Hc.
  pose proof (Hin tag_0 (or_intror (or_intror (or_introl eq_refl)))) as H0.
  pose proof (Hin tag_1 (or_intror (or_intror (or_intror (or_introl eq_refl))))) as H1.
  clear Hin H Hlen.
  unfold axis_tags, tag_b, tag_c, tag_0, tag_1 in *. simpl in Hb, Hc, H0, H1.
  destruct Hb as [Hb | [Hb | [Hb | [Hb | []]]]];
  destruct Hc as [Hc | [Hc | [Hc | [Hc | []]]]];
  destruct H0 as [H0 | [H0 | [H0 | [H0 | []]]]];
  destruct H1 as [H1 | [H1 | [H1 | [H1 | []]]]];
  subst; try discriminate; cbn; tauto.
Qed.

Lemma axes_shuffle_facts (src dst : list tag) :
  In src (orderings axis_tags) -> In dst (orderings axis_tags) ->
  exists p q,
    axes_shuffle src dst = OK p /\ axes_shuffle dst src = OK q /\
    is_axis_permutation p 4 = true /\ is_axis_permutation q 4 = true /\
    map (fun k => nth k p 0) q = [0; 1; 2; 3] /\
    map (fun k => nth k src tag_b) p = dst.
Proof.
  intros Hsrc Hdst.
  assert (H : forallb (fun s => forallb (fun d =>
                match axes_shuffle s d, axes_shuffle d s with
                | OK p, OK q =>
                    is_axis_permutation p 4 && is_axis_permutation q 4 &&
                    list_nat_eqb (map (fun k => nth k p 0) q) [0; 1; 2; 3] &&
                    list_eqb tag_eqb (map (fun k => nth k s tag_b) p) d
                | _, _ => false
                end) (orderings axis_tags)) (orderings axis_tags) = true)
    by (vm_compute; reflexivity).
  rewrite forallb_forall in H. specialize (H src Hsrc).
  rewrite forallb_forall in H. specialize (H dst Hdst).
  destruct (axes_shuffle src dst) as [p | e]; [| discriminate H].
  destruct (axes_shuffle dst src) as [q | e]; [| discriminate H].
  rewrite !andb_true_iff in H. destruct H as [[[Hp Hq] Hpq] Htags].
  apply (list_eqb_eq Nat.eqb Nat.eqb_eq) in Hpq.
  apply (list_eqb_eq tag_eqb tag_eqb_eq) in Htags.
  exists p, q. repeat split; assumption.
Qed.

Lemma axis_permutation_lt (perm : list nat) :
  is_axis_permutation perm 4 = true -> forall k, In k perm -> k < 4.
Proof.
  intros H k Hk. apply axis_permutation4_cases in H. cbn in H.
  repeat (destruct H as [<- | H]; [simpl in Hk; lia |]).
  destruct H.
Qed.

(** Reading a list through [p] and then through [q] reads it through the
    composition of the two. *)
Lemma nth_compose {A : Type} (l : list A) (d : A) (p q : list nat) :
  length l = length p ->
  (forall k, In k q -> k < length p) ->
  (forall k, In k p -> k < length l) ->
  map (fun k => nth k (map (fun k' => nth k' l d) p) d) q =
  map (fun k => nth k l d) (map (fun k => nth k p 0) q).
Proof.
  intros Hlen Hq Hp. rewrite map_map. apply map_ext_in. intros k Hk.
  rewrite (nth_indep _ d (nth 0 l d)) by (rewrite length_map; apply Hq; exact Hk).
  rewrite (map_nth (fun k' => nth k' l d) p 0 k). reflexivity.
Qed.

Lemma transpose_roundtrip4 (X Y Z : ndarray) (p q : list nat) :
  wf_ndarray X -> ndim X = 4 ->
  map (fun k => nth k p 0) q = [0; 1; 2; 3] ->
  transpose X p = OK Y -> transpose Y q = OK Z ->
  Z = X.
Proof.
  intros Hwf Hnd Hpq HY HZ.
  destruct (transpose_OK _ _ _ HY) as [Hp [HsY [HwfY _]]].
  destruct (transpose_OK _ _ _ HZ) as [Hq [HsZ [HwfZ _]]].
  rewrite Hnd in Hp.
  assert (HndY : ndim Y = 4).
  { unfold ndim. rewrite HsY, length_map.
    unfold is_axis_permutation in Hp. apply andb_true_iff in Hp.
    destruct Hp as [Hp _]. apply Nat.eqb_eq in Hp. exact Hp. }
  rewrite HndY in Hq.
  assert (Hlp : length p = 4).
  { unfold is_axis_permutation in Hp. apply andb_true_iff in Hp.
    destruct Hp as [Hp' _]. apply Nat.eqb_eq in Hp'. exact Hp'. }
  assert (Hcomp : forall (A : Type) (l : list A) (d : A), length l = 4 ->
             map (fun k => nth k (map (fun k' => nth k' l d) p) d) q = l).
  { intros A l d Hl. rewrite nth_compose.
    - rewrite Hpq.
      destruct l as [| a [| b [| c [| e [| f r]]]]]; try discriminate Hl.
      reflexivity.
    - congruence.
    - intros k Hk. rewrite Hlp. apply (axis_permutation_lt q Hq k Hk).
    - intros k Hk. rewrite Hl. apply (axis_permutation_lt p Hp k Hk). }
  assert (Hshape : arr_shape Z = arr_shape X).
  { rewrite HsZ, HsY. apply Hcomp. exact Hnd. }
  apply ndarray_ext; [exact HwfZ | exact Hwf | exact Hshape |].
  intros idx Hb. rewrite Hshape in Hb.
  destruct (get_transpose4 X Y p Hnd HY idx Hb) as [HbY HgY].
  destruct (get_transpose4 Y Z q HndY HZ _ HbY) as [_ HgZ].
  rewrite Hcomp in HgZ.
  - rewrite HgZ. exact HgY.
  - rewrite (in_bounds_length _ _ Hb). exact Hnd.
Qed.

Lemma transpose_identity4 (X : ndarray) :
  wf_ndarray X -> ndim X = 4 -> transpose X [0; 1; 2; 3] = OK X.
Proof.
  intros Hwf Hnd.
  destruct (transpose_defined X [0; 1; 2; 3]) as [Y HY].
  { rewrite Hnd. reflexivity. }
  rewrite HY. f_equal.
  destruct (transpose_OK _ _ _ HY) as [_ [HsY [HwfY _]]].
  assert (Hid : forall (A : Type) (l : list A) (d : A), length l = 4 ->
            map (fun k => nth k l d) [0; 1; 2; 3] = l).
  { intros A l d Hl.
    destruct l as [| a [| b [| c [| e [| f r]]]]]; try discriminate Hl.
    reflexivity. }
  assert (Hshape : arr_shape Y = arr_shape X).
  { rewrite HsY. apply Hid. exact Hnd. }
  apply ndarray_ext; [exact HwfY | exact Hwf | exact Hshape |].
  intros idx Hb. rewrite Hshape in Hb.
  destruct (get_transpose4 X Y _ Hnd HY idx Hb) as [_ Hg].
  rewrite Hid in Hg; [exact Hg |].
  rewrite (in_bounds_length _ _ Hb). exact Hnd.
Qed.

Lemma axes_shuffle_same (l : list tag) :
  In l (orderings axis_tags) -> axes_shuffle l l = OK [0; 1; 2; 3].
Proof.
  intros H. cbn in H.
  repeat (destruct H as [<- | H]; [reflexivity |]).
  destruct H.
Qed.

Lemma convert_numpy_transposes (X : ndarray) (src dst : pyseq tag) (p : list nat) :
  wf_ndarray X -> ndim X = 4 ->
  In (items src) (orderings axis_tags) -> In (items dst) (orderings axis_tags) ->
  axes_shuffle (items src) (items dst) = OK p ->
  Conv2DSpace_convert_numpy X src dst = transpose X p.
Proof.
  intros Hwf Hnd Hsrc Hdst Hp. unfold Conv2DSpace_convert_numpy.
  assert (Hls : length (items src) = 4).
  { cbn in Hsrc. repeat (destruct Hsrc as [<- | Hsrc]; [reflexivity |]). destruct Hsrc. }
  assert (Hld : length (items dst) = 4).
  { cbn in Hdst. repeat (destruct Hdst as [<- | Hdst]; [reflexivity |]). destruct Hdst. }
  rewrite Hls, Hld. cbn [Nat.eqb assert bind].
  destruct (list_eqb tag_eqb (items src) (items dst)) eqn:Heq.
  - apply (list_eqb_eq tag_eqb tag_eqb_eq) in Heq.
    rewrite <- Heq, (axes_shuffle_same _ Hsrc) in Hp. injection Hp as <-.
    symmetry. apply transpose_identity4; assumption.
  - rewrite Hp. reflexivity.
Qed.

Lemma index_from_NoDup (a : tag) (l : list tag) :
  NoDup l -> forall i k0, nth_error l i = Some a -> index_from a l k0 = OK (k0 + i).
Proof.
  induction 1 as [| y r Hy Hr IH]; intros [| i] k0 Hi; simpl in Hi; try discriminate Hi.
  - injection Hi as ->. simpl. rewrite tag_eqb_refl, Nat.add_0_r. reflexivity.
  - simpl. destruct (tag_eqb y a) eqn:Hya.
    + apply tag_eqb_eq in Hya. subst y. exfalso. apply Hy.
      eapply nth_error_In. exact Hi.
    + rewrite (IH i (S k0) Hi). f_equal. lia.
Qed.

Lemma axes_order_NoDup (l : list tag) :
  In l (orderings axis_tags) -> NoDup l /\ length l = 4.
Proof.
  intros H. cbn in H.
  repeat (destruct H as [<- | H];
          [split; [| reflexivity];
           repeat (apply NoDup_cons;
                   [unfold tag_b, tag_c, tag_0, tag_1; simpl; intuition discriminate |]);
           apply NoDup_nil |]).
  destruct H.
Qed.

(** A transposed image batch has, along each tagged axis, the extent the
    original has along the same tag. *)
Lemma extent_at_transpose (X Y : ndarray) (src dst : list tag) (p : list nat) (a : tag) :
  NoDup src -> length src = 4 -> ndim X = 4 ->
  is_axis_permutation p 4 = true ->
  map (fun k => nth k src tag_b) p = dst ->
  arr_shape Y = map (fun k => nth k (arr_shape X) 0) p ->
  In a dst ->
  extent_at dst Y a = extent_at src X a.
Proof.
  intros Hnd Hls HX Hp Hdst HsY Ha.
  destruct (index_from_In a dst 0 Ha) as [j [Hj [Hnth Hlt]]]. simpl in Hj.
  unfold extent_at, index. rewrite Hj. cbn [bind].
  rewrite <- Hdst in Hnth. rewrite nth_error_map in Hnth.
  destruct (nth_error p j) as [pj |] eqn:Hpj; [| discriminate Hnth].
  simpl in Hnth. injection Hnth as Hsrc.
  assert (Hlt4 : pj < 4).
  { apply (axis_permutation_lt p Hp). eapply nth_error_In. exact Hpj. }
  assert (Hsrc' : nth_error src pj = Some a).
  { rewrite <- Hsrc. apply nth_error_nth'. lia. }
  rewrite (index_from_NoDup a src Hnd pj 0 Hsrc'). cbn [bind Nat.add].
  unfold shape_at. rewrite HsY, nth_error_map, Hpj. simpl.
  unfold ndim in HX. rewrite (nth_error_nth' (arr_shape X) 0) by lia.
  reflexivity.
Qed.

Lemma validate_value_extents (shape : pyseq Z) (nc : Z) (axes : pyseq tag) (v : ndarray) :
  Conv2DSpace_validate_value shape nc axes v = OK tt <->
  extent_at (items axes) v tag_c = OK nc /\
  (exists e, extent_at (items axes) v tag_0 = OK e /\ py_getitem (items shape) 0 = OK e) /\
  (exists e, extent_at (items axes) v tag_1 = OK e /\ py_getitem (items shape) 1 = OK e).
Proof.
  unfold Conv2DSpace_validate_value, extent_at. cbn [mapM].
  change (TInt 0) with tag_0. change (TInt 1) with tag_1.
  destruct (index (items axes) tag_c) as [dc | e]; cbn [bind];
    [| split; [discriminate | intros [H _]; discriminate H]].
  destruct (shape_at v dc) as [c | e]; cbn [bind];
    [| split; [discriminate | intros [H _]; discriminate H]].
  destruct (Z.eqb_spec c nc) as [-> | Hc]; cbn [negb];
    [| split; [discriminate | intros [H _]; congruence]].
  cbn [assert bind].
  destruct (index (items axes) tag_0) as [d0 | e]; cbn [bind];
    [| split; [discriminate | intros [_ [[x [H _]] _]]; discriminate H]].
  destruct (shape_at v d0) as [e0 | e]; cbn [bind];
    [| split; [discriminate | intros [_ [[x [H _]] _]]; discriminate H]].
  destruct (py_getitem (items shape) 0) as [x0 | e]; cbn [bind];
    [| split; [discriminate | intros [_ [[x [_ H]] _]]; discriminate H]].
  destruct (Z.eqb_spec e0 x0) as [-> | H0]; cbn [negb bind];
    [| split; [discriminate | intros [_ [[x [H H']] _]]; congruence]].
  destruct (index (items axes) tag_1) as [d1 | e]; cbn [bind];
    [| split; [discriminate | intros [_ [_ [x [H _]]]]; discriminate H]].
  destruct (shape_at v d1) as [e1 | e]; cbn [bind];
    [| split; [discriminate | intros [_ [_ [x [H _]]]]; discriminate H]].
  destruct (py_getitem (items shape) 1) as [x1 | e]; cbn [bind];
    [| split; [discriminate | intros [_ [_ [x [_ H]]]]; discriminate H]].
  destruct (Z.eqb_spec e1 x1) as [-> | H1]; cbn [negb bind];
    [| split; [discriminate | intros [_ [_ [x [H H']]]]; congruence]].
  split; [| reflexivity].
  intros _. split; [reflexivity |].
  split; eexists; split; reflexivity.
Qed.

Lemma validate_transposed (shape : pyseq Z) (nc : Z) (src dst : pyseq tag)
    (X Y : ndarray) (p : list nat) :
  In (items src) (orderings axis_tags) -> In (items dst) (orderings axis_tags) ->
  ndim X = 4 ->
  is_axis_permutation p 4 = true ->
  map (fun k => nth k (items src) tag_b) p = items dst ->
  transpose X p = OK Y ->
  validate (Conv2DSpace shape nc src) (BVar DenseType X) = OK tt ->
  validate (Conv2DSpace shape nc dst) (BVar DenseType Y) = OK tt.
Proof.
  intros Hsrc Hdst HX Hp Htags HY Hval.
  destruct (transpose_OK _ _ _ HY) as [_ [HsY _]].
  assert (HndY : ndim Y = 4).
  { unfold ndim. rewrite HsY, length_map.
    unfold is_axis_permutation in Hp. apply andb_true_iff in Hp.
    destruct Hp as [Hl _]. apply Nat.eqb_eq in Hl. exact Hl. }
  cbn [validate Conv2DSpace_validate] in Hval |- *.
  rewrite HX in Hval. rewrite HndY. cbn [Nat.eqb negb] in Hval |- *.
  unfold get_debug_values in Hval |- *.
  revert Hval. generalize compute_test_value. intros debug Hval.
  destruct debug; [| reflexivity].
  cbn [mapM bind] in Hval |- *.
  destruct (Conv2DSpace_validate_value shape nc src X) as [[] | e] eqn:HvX;
    [| discriminate Hval].
  destruct (axes_order_NoDup _ Hsrc) as [Hnd Hls].
  assert (Hext : forall a, In a axis_tags ->
             extent_at (items dst) Y a = extent_at (items src) X a).
  { intros a Ha.
    apply (extent_at_transpose X Y (items src) (items dst) p a); try assumption.
    assert (Hall : forallb (fun o => forallb (fun t => existsb (tag_eqb t) o) axis_tags)
                           (orderings axis_tags) = true) by (vm_compute; reflexivity).
    rewrite forallb_forall in Hall. specialize (Hall _ Hdst).
    rewrite forallb_forall in Hall. specialize (Hall a Ha).
    apply existsb_exists in Hall. destruct Hall as [x [Hx Hax]].
    apply tag_eqb_eq in Hax. subst x. exact Hx. }
  apply validate_value_extents in HvX.
  assert (HvY : Conv2DSpace_validate_value shape nc dst Y = OK tt).
  { apply validate_value_extents.
    rewrite !Hext by (unfold axis_tags; simpl; auto 7). exact HvX. }
  rewrite HvY. reflexivity.
Qed.

Lemma Conv2DSpace_total_dimension (shape : pyseq Z) (nc : Z) :
  length (items shape) = 2 ->
  exists total, forall axes', get_total_dimension (Conv2DSpace shape nc axes') = OK total.
Proof.
  intros Hl. destruct (items shape) as [| h [| w [| x r]]] eqn:Hs; try discriminate Hl.
  exists (h * w * nc)%Z. intros axes'. simpl. rewrite Hs. reflexivity.
Qed.

(** The symbolic path: [format_as] between two axes orderings is the same
    transpose, applied by [dimshuffle]. *)
Lemma format_as_axes (shape : pyseq Z) (nc : Z) (src dst : pyseq tag)
    (X Y : ndarray) (p : list nat) :
  length (items shape) = 2 ->
  In (items src) (orderings axis_tags) -> In (items dst) (orderings axis_tags) ->
  wf_ndarray X -> ndim X = 4 ->
  validate (Conv2DSpace shape nc src) (BVar DenseType X) = OK tt ->
  axes_shuffle (items src) (items dst) = OK p ->
  transpose X p = OK Y ->
  format_as (Conv2DSpace shape nc src) (BVar DenseType X) (Conv2DSpace shape nc dst) =
  OK (BVar DenseType Y).
Proof.
  intros Hshape Hsrc Hdst Hwf Hnd Hval Hp HY.
  destruct (Conv2DSpace_total_dimension shape nc Hshape) as [total Htotal].
  destruct (axes_order_NoDup _ Hsrc) as [_ Hls].
  destruct (axes_order_NoDup _ Hdst) as [_ Hld].
  unfold format_as.
  destruct (list_eqb tag_eqb (items src) (items dst)) eqn:Heq.
  - rewrite (format_as_with_equal _ _ _ _ total Hval (Htotal src) (Htotal dst)).
    + apply (list_eqb_eq tag_eqb tag_eqb_eq) in Heq.
      rewrite <- Heq, (axes_shuffle_same _ Hsrc) in Hp. injection Hp as <-.
      rewrite (transpose_identity4 X Hwf Hnd) in HY. injection HY as <-. reflexivity.
    + simpl. rewrite Heq, Z.eqb_refl.
      rewrite (proj2 (pyseq_eqb_eq Z.eqb Z.eqb_eq shape shape) eq_refl). reflexivity.
  - rewrite (format_as_with_hook _ _ _ _ total Hval (Htotal src) (Htotal dst)).
    + cbn [_format_as]. unfold Conv2DSpace__format_as.
      cbn [validate] in Hval. rewrite Hval. cbn [bind].
      unfold Conv2DSpace_convert. rewrite Hls, Hld. cbn [Nat.eqb assert bind].
      rewrite Heq, Hp. cbn [bind batch_dimshuffle]. rewrite HY. reflexivity.
    + simpl. rewrite Heq. apply andb_false_r.
Qed.

(** C1.  Between two [Conv2DSpace] descriptors that differ only in their
    axes orderings, converting a four-axis batch [X] is one transpose by the
    vector [[src_axes.index(a) for a in dst_axes]]: position [k] of the
    result carries the axis tagged [dst_axes[k]], with the extent it has in
    [X], and every element of [X] is found unchanged at the permuted
    position.  Converting the result back reproduces [X]; in particular
    from [('b', 0, 1, 'c')] to [('b', 'c', 0, 1)], by the vector
    [[0, 3, 1, 2]], and back.  The same holds on the symbolic path, through
    [format_as], for a batch that validates under the source. *)
Theorem Conv2DSpace_axes_conversion_is_transpose (shape : pyseq Z) (nc : Z)
    (src dst : pyseq tag) (X : ndarray) :
  Permutation (items src) axis_tags ->
  Permutation (items dst) axis_tags ->
  wf_ndarray X ->
  ndim X = 4 ->
  exists shuffle Y,
    axes_shuffle (items src) (items dst) = OK shuffle /\
    Conv2DSpace_np_format_as shape nc src X (Conv2DSpace shape nc dst) = OK Y /\
    transpose X shuffle = OK Y /\
    map (fun k => nth k (items src) tag_b) shuffle = items dst /\
    arr_shape Y = map (fun k => nth k (arr_shape X) 0) shuffle /\
    (forall idx, in_bounds idx (arr_shape X) ->
       get Y (map (fun k => nth k idx 0) shuffle) = get X idx) /\
    Conv2DSpace_np_format_as shape nc dst Y (Conv2DSpace shape nc src) = OK X /\
    (length (items shape) = 2 ->
     validate (Conv2DSpace shape nc src) (BVar DenseType X) = OK tt ->
     format_as (Conv2DSpace shape nc src) (BVar DenseType X) (Conv2DSpace shape nc dst) =
       OK (BVar DenseType Y) /\
     format_as (Conv2DSpace shape nc dst) (BVar DenseType Y) (Conv2DSpace shape nc src) =
       OK (BVar DenseType X)) /\
    (items src = [tag_b; tag_0; tag_1; tag_c] ->
     items dst = [tag_b; tag_c; tag_0; tag_1] ->
     shuffle = [0; 3; 1; 2]).
Proof.
  intros Hsrc Hdst Hwf Hnd.
  apply axes_order_cases in Hsrc. apply axes_order_cases in Hdst.
  destruct (axes_shuffle_facts _ _ Hsrc Hdst) as [p [q [Hp [Hq [Hpp [Hqp [Hpq Htags]]]]]]].
  destruct (transpose_defined X p) as [Y HY]; [rewrite Hnd; exact Hpp |].
  destruct (transpose_OK _ _ _ HY) as [_ [HsY [HwfY _]]].
  assert (HndY : ndim Y = 4).
  { unfold ndim. rewrite HsY, length_map.
    unfold is_axis_permutation in Hpp. apply andb_true_iff in Hpp.
    destruct Hpp as [Hl _]. apply Nat.eqb_eq in Hl. exact Hl. }
  assert (Hback : transpose Y q = OK X).
  { destruct (transpose_defined Y q) as [Z HZ]; [rewrite HndY; exact Hqp |].
    rewrite HZ. f_equal.
    apply (transpose_roundtrip4 X Y Z p q); assumption. }
  exists p, Y.
  split; [exact Hp |].
  split; [simpl; rewrite (convert_numpy_transposes X src dst p); assumption |].
  split; [exact HY |].
  split; [exact Htags |].
  split; [exact HsY |].
  split; [intros idx Hb; apply (get_transpose4 X Y p Hnd HY idx Hb) |].
  split; [simpl; rewrite (convert_numpy_transposes Y dst src q); assumption |].
  split.
  - intros Hshape Hval. split.
    + apply (format_as_axes shape nc src dst X Y p); assumption.
    + apply (format_as_axes shape nc dst src Y X q); try assumption.
      apply (validate_transposed shape nc src dst X Y p); assumption.
  - intros Es Ed. rewrite Es, Ed in Hp. vm_compute in Hp. congruence.
Qed.

(** ** Column slices and concatenation *)

Lemma chunks_length (n m : nat) (l : list elt) : length (chunks n m l) = n.
Proof.
  revert l. induction n as [| n IH]; simpl; intros l; [reflexivity |].
  rewrite IH. reflexivity.
Qed.

Lemma chunks_rows (n m : nat) :
  forall l, length l = n * m -> Forall (fun r => length r = m) (chunks n m l).
Proof.
  induction n as [| n IH]; simpl; intros l Hl; constructor.
  - rewrite length_firstn. lia.
  - apply IH. rewrite length_skipn. lia.
Qed.

Lemma concat_chunks (n m : nat) :
  forall l, length l = n * m -> concat (chunks n m l) = l.
Proof.
  induction n as [| n IH]; simpl; intros l Hl.
  - destruct l; [reflexivity | discriminate Hl].
  - rewrite IH by (rewrite length_skipn; lia). apply firstn_skipn.
Qed.

Lemma chunks_concat (m : nat) (rows : list (list elt)) :
  Forall (fun r => length r = m) rows ->
  chunks (length rows) m (concat rows) = rows.
Proof.
  induction 1 as [| r rows Hr _ IH]; simpl; [reflexivity |].
  rewrite firstn_app, skipn_app, Hr, Nat.sub_diag, firstn_all2, skipn_all2 by lia.
  simpl. rewrite app_nil_r, IH. reflexivity.
Qed.

Lemma zip_app_map (f g : list elt -> list elt) (rows : list (list elt)) :
  zip_app (map f rows) (map g rows) = map (fun r => f r ++ g r) rows.
Proof.
  induction rows as [| r rows IH]; simpl; [reflexivity |].
  rewrite IH. reflexivity.
Qed.

Lemma zip_app_nil (rows : list (list elt)) :
  zip_app rows (repeat [] (length rows)) = rows.
Proof.
  induction rows as [| r rows IH]; simpl; [reflexivity |].
  rewrite IH, app_nil_r. reflexivity.
Qed.

Lemma slice_axis1_matrix (v : ndarray) (n m lo hi : nat) :
  arr_shape v = [n; m] -> lo <= hi <= m ->
  slice_axis1 v (Z.of_nat lo) (Z.of_nat hi) =
  OK (NDArray [n; hi - lo] (concat (columns lo hi (chunks n m (arr_data v))))).
Proof.
  intros Hs Hb. unfold slice_axis1, columns. rewrite Hs.
  assert (Hc : forall k, k <= m -> clamp_bound (Z.of_nat k) m = k).
  { intros k Hk. unfold clamp_bound.
    destruct (Z.ltb_spec (Z.of_nat k) 0) as [Hneg | _]; [lia |].
    rewrite Z.min_l by lia. apply Nat2Z.id. }
  rewrite (Hc lo), (Hc hi) by lia.
  change (prod []) with 1. rewrite !Nat.mul_1_r. reflexivity.
Qed.

Lemma columns_rows (lo hi m : nat) (rows : list (list elt)) :
  lo <= hi <= m ->
  Forall (fun r => length r = m) rows ->
  Forall (fun r => length r = hi - lo) (columns lo hi rows).
Proof.
  intros Hb H. unfold columns. apply Forall_map.
  eapply Forall_impl; [| exact H]. simpl. intros r Hr.
  rewrite length_firstn, length_skipn. lia.
Qed.

Lemma rows_of_columns (n m lo hi : nat) (l : list elt) :
  lo <= hi <= m -> length l = n * m ->
  rows_of (NDArray [n; hi - lo] (concat (columns lo hi (chunks n m l)))) =
  columns lo hi (chunks n m l).
Proof.
  intros Hb Hl. unfold rows_of. simpl. rewrite Nat.mul_1_r.
  rewrite <- (chunks_length n m l) at 1.
  replace (length (chunks n m l)) with (length (columns lo hi (chunks n m l)))
    by (unfold columns; apply length_map).
  apply chunks_concat. apply (columns_rows lo hi m); [exact Hb |].
  apply chunks_rows. exact Hl.
Qed.

Lemma nth_concat_rows (w : nat) (rows : list (list elt)) :
  Forall (fun r => length r = w) rows ->
  forall i j, j < w ->
    nth (i * w + j) (concat rows) zero = nth j (nth i rows []) zero.
Proof.
  induction 1 as [| r rows Hr _ IH]; intros i j Hj.
  - simpl. destruct (i * w + j); destruct i; destruct j; reflexivity.
  - destruct i as [| i]; simpl.
    + apply app_nth1. lia.
    + rewrite <- Hr at 1. rewrite <- Nat.add_assoc, app_nth2_plus.
      apply IH. exact Hj.
Qed.

(** Column [j] of the slice [lo:hi] is column [lo + j] of the matrix. *)
Lemma get_columns (v : ndarray) (n m lo hi i j : nat) :
  wf_ndarray v -> arr_shape v = [n; m] -> lo <= hi <= m ->
  i < n -> j < hi - lo ->
  get (NDArray [n; hi - lo] (concat (columns lo hi (chunks n m (arr_data v))))) [i; j] =
  get v [i; lo + j].
Proof.
  intros Hwf Hs Hb Hi Hj. unfold wf_ndarray in Hwf. rewrite Hs in Hwf.
  simpl in Hwf. rewrite Nat.mul_1_r in Hwf.
  pose proof (chunks_rows n m (arr_data v) Hwf) as Hrows.
  unfold get. rewrite Hs. cbn [arr_shape arr_data strides prod fold_right ravel].
  rewrite !Nat.mul_1_r, !Nat.add_0_r.
  rewrite (nth_concat_rows (hi - lo)) by (try apply (columns_rows lo hi m); assumption).
  unfold columns.
  rewrite (nth_indep _ [] ((fun row => firstn (hi - lo) (skipn lo row)) []))
    by (rewrite length_map, chunks_length; exact Hi).
  transitivity (nth j (firstn (hi - lo) (skipn lo (nth i (chunks n m (arr_data v)) [])))
                  zero).
  { f_equal. apply (map_nth (fun row => firstn (hi - lo) (skipn lo row))). }
  rewrite nth_firstn.
  destruct (Nat.ltb_spec j (hi - lo)) as [_ | Hge]; [| lia].
  rewrite nth_skipn.
  rewrite <- (concat_chunks n m (arr_data v) Hwf) at 2.
  symmetry. apply nth_concat_rows; [exact Hrows | lia].
Qed.

(** Splitting a matrix at column [a] and joining the two parts gives the
    matrix back. *)
Lemma concatenate_columns (v : ndarray) (n m a : nat) :
  wf_ndarray v -> arr_shape v = [n; m] -> a <= m ->
  concatenate_axis1
    [NDArray [n; a - 0] (concat (columns 0 a (chunks n m (arr_data v))));
     NDArray [n; m - a] (concat (columns a m (chunks n m (arr_data v))))] = OK v.
Proof.
  intros Hwf Hs Ha. unfold wf_ndarray in Hwf. rewrite Hs in Hwf. simpl in Hwf.
  rewrite Nat.mul_1_r in Hwf.
  unfold concatenate_axis1. cbn [arr_shape forallb].
  rewrite Nat.eqb_refl. cbn [andb list_nat_eqb list_eqb map fold_right nth].
  rewrite !rows_of_columns by (try exact Hwf; lia).
  unfold columns.
  assert (Hz : forall rows : list (list elt), length rows = n ->
            zip_app rows (repeat [] n) = rows)
    by (intros rows <-; apply zip_app_nil).
  rewrite Hz by (rewrite length_map; apply chunks_length).
  rewrite zip_app_map.
  destruct v as [sv dv]. simpl in *. subst sv. f_equal. f_equal.
  - replace (a - 0 + (m - a + 0)) with m by lia. reflexivity.
  - rewrite <- (concat_chunks n m dv Hwf) at 2. f_equal.
    rewrite <- (map_id (chunks n m dv)) at 2.
    apply map_ext_in. intros r Hr.
    pose proof (chunks_rows n m dv Hwf) as Hrows.
    rewrite Forall_forall in Hrows. specialize (Hrows r Hr).
    rewrite Nat.sub_0_r.
    rewrite (firstn_all2 (skipn a r)) by (rewrite length_skipn; lia).
    apply firstn_skipn.
Qed.

(** ** Vector and composite round trip *)

Lemma VectorSpace_validate_matrix (v : ndarray) (n m : nat) (dim : Z) :
  arr_shape v = [n; m] -> validate (VectorSpace dim false) (BVar DenseType v) = OK tt.
Proof.
  intros Hs. simpl. unfold ndim. rewrite Hs. reflexivity.
Qed.

(** C2.  For a batch [X] that lies in [VectorSpace(d)], that is a dense
    batch of [n] rows and [d] columns, it validates, and for a split point
    [0 < a < d], converting from [VectorSpace(d)] to
    [CompositeSpace([VectorSpace(a), VectorSpace(d - a)])] returns the
    column ranges [X[:, 0:a]] and [X[:, a:d]], in this order (column [j] of
    the second is column [a + j] of [X]), and converting that tuple back to
    [VectorSpace(d)] returns [X]. *)
Theorem VectorSpace_composite_roundtrip (d a : Z) (n : nat) (v : ndarray) :
  (0 < a < d)%Z ->
  wf_ndarray v ->
  arr_shape v = [n; Z.to_nat d] ->
  let X := BVar DenseType v in
  let parts := CompositeSpace [VectorSpace a false; VectorSpace (d - a) false] in
  validate (VectorSpace d false) X = OK tt /\
  exists x1 x2,
    slice_axis1 v 0 a = OK x1 /\
    slice_axis1 v a d = OK x2 /\
    arr_shape x1 = [n; Z.to_nat a] /\
    arr_shape x2 = [n; Z.to_nat (d - a)] /\
    (forall i j, i < n -> j < Z.to_nat a -> get x1 [i; j] = get v [i; j]) /\
    (forall i j, i < n -> j < Z.to_nat (d - a) ->
       get x2 [i; j] = get v [i; Z.to_nat a + j]) /\
    format_as (VectorSpace d false) X parts =
      OK (BTuple [BVar DenseType x1; BVar DenseType x2]) /\
    format_as parts (BTuple [BVar DenseType x1; BVar DenseType x2]) (VectorSpace d false) =
      OK X.
Proof.
  intros Ha Hwf Hs X parts.
  set (m := Z.to_nat d) in *. set (k := Z.to_nat a).
  assert (Hk : k <= m) by lia.
  assert (Hx1 : slice_axis1 v 0 a =
                OK (NDArray [n; k - 0] (concat (columns 0 k (chunks n m (arr_data v)))))).
  { rewrite <- (slice_axis1_matrix v n m 0 k Hs) by lia.
    f_equal. unfold k. lia. }
  assert (Hx2 : slice_axis1 v a d =
                OK (NDArray [n; m - k] (concat (columns k m (chunks n m (arr_data v)))))).
  { rewrite <- (slice_axis1_matrix v n m k m Hs) by lia.
    f_equal; unfold k, m; lia. }
  set (x1 := NDArray [n; k - 0] (concat (columns 0 k (chunks n m (arr_data v))))) in *.
  set (x2 := NDArray [n; m - k] (concat (columns k m (chunks n m (arr_data v))))) in *.
  assert (Hvx1 : validate (VectorSpace a false) (BVar DenseType x1) = OK tt) by reflexivity.
  assert (Hvx2 : validate (VectorSpace (d - a) false) (BVar DenseType x2) = OK tt)
    by reflexivity.
  assert (HvX : validate (VectorSpace d false) X = OK tt).
  { apply (VectorSpace_validate_matrix v n m d Hs). }
  assert (Hdim : get_total_dimension parts = OK d).
  { cbn. f_equal. lia. }
  split; [exact HvX |].
  exists x1, x2. split; [exact Hx1 |]. split; [exact Hx2 |].
  split; [unfold x1; simpl; f_equal; f_equal; lia |].
  split; [unfold x2, m, k; simpl; f_equal; f_equal; lia |].
  split.
  { intros i j Hi Hj. unfold x1.
    rewrite (get_columns v n m 0 k i j Hwf Hs) by (fold k in Hj; lia).
    reflexivity. }
  split.
  { intros i j Hi Hj. unfold x2.
    apply (get_columns v n m k m i j Hwf Hs); unfold m, k; lia. }
  split.
  - unfold format_as.
    rewrite (format_as_with_hook _ (VectorSpace d false) parts X d HvX eq_refl Hdim eq_refl).
    unfold parts.
    unfold X.
    cbn [_format_as VectorSpace__format_as get_total_dimension bind batch_slice_axis1].
    replace (0 + a)%Z with a by lia. rewrite Hx1. cbn [bind].
    rewrite (format_as_with_equal _ (VectorSpace a false) (VectorSpace a false)
               (BVar DenseType x1) a Hvx1 eq_refl eq_refl)
      by (simpl; apply Z.eqb_refl).
    cbn [bind].
    replace (a + (d - a))%Z with d by lia. rewrite Hx2. cbn [bind].
    rewrite (format_as_with_equal _ (VectorSpace (d - a) false) (VectorSpace (d - a) false)
               (BVar DenseType x2) (d - a) Hvx2 eq_refl eq_refl)
      by (simpl; apply Z.eqb_refl).
    reflexivity.
  - unfold format_as.
    rewrite (format_as_with_hook _ parts (VectorSpace d false) _ d); try reflexivity;
      try exact Hdim.
    unfold parts.
    cbn [_format_as batch_iter get_total_dimension bind].
    rewrite (format_as_with_equal _ (VectorSpace a false) (VectorSpace a false)
               (BVar DenseType x1) a Hvx1 eq_refl eq_refl)
      by (simpl; apply Z.eqb_refl).
    cbn [bind].
    rewrite (format_as_with_equal _ (VectorSpace (d - a) false) (VectorSpace (d - a) false)
               (BVar DenseType x2) (d - a) Hvx2 eq_refl eq_refl)
      by (simpl; apply Z.eqb_refl).
    cbn [bind]. unfold T_concatenate_axis1. cbn [mapM bind].
    unfold x1, x2. rewrite (concatenate_columns v n m k Hwf Hs Hk).
    reflexivity.
Qed.

(** * Further properties of the descriptors *)

(** ** Construction of an image space *)

Lemma forallb_gtb_Forall (l : list Z) :
  forallb (fun elem => (elem >? 0)%Z) l = true <-> Forall (fun e => (0 < e)%Z) l.
Proof.
  rewrite forallb_forall, Forall_forall. split; intros H x Hx.
  - specialize (H x Hx). lia.
  - specialize (H x Hx). lia.
Qed.

(** [Conv2DSpace.__init__] succeeds exactly when one of [channels] and
    [num_channels] is given and is positive, [shape] has two positive
    entries and the axes (the default when omitted) have length 4; the
    descriptor then stores these values, whichever channel argument was
    used. *)
Theorem Conv2DSpace_init_succeeds_iff (shape : pyseq Z) (channels num_channels : option Z)
    (axes : option (pyseq tag)) (s : Space) :
  Conv2DSpace_init shape channels num_channels axes = OK s <->
  exists nc,
    ((channels = Some nc /\ num_channels = None) \/
     (channels = None /\ num_channels = Some nc)) /\
    length (items shape) = 2 /\
    Forall (fun e => (0 < e)%Z) (items shape) /\
    (0 < nc)%Z /\
    length (items (match axes with None => axes_b01c | Some a => a end)) = 4 /\
    s = Conv2DSpace shape nc (match axes with None => axes_b01c | Some a => a end).
Proof.
  unfold Conv2DSpace_init. fold axes_b01c.
  change (tuple [tag_b; tag_0; tag_1; tag_c]) with axes_b01c.
  split.
  - intros H. apply bind_OK in H. destruct H as [u1 [Hone H]].
    apply assert_OK in Hone.
    destruct channels as [c |], num_channels as [c' |]; try discriminate Hone.
    + destruct (negb (length (items shape) =? 2)) eqn:Hlen; [discriminate H |].
      apply negb_false_iff, Nat.eqb_eq in Hlen.
      apply bind_OK in H. destruct H as [u2 [Hpos H]].
      apply bind_OK in H. destruct H as [u3 [Hnc H]].
      apply bind_OK in H. destruct H as [u4 [Hax H]].
      apply assert_OK in Hpos, Hnc, Hax.
      apply forallb_gtb_Forall in Hpos. apply Nat.eqb_eq in Hax.
      injection H as <-. exists c. repeat split; try assumption; try lia.
      left. split; reflexivity.
    + destruct (negb (length (items shape) =? 2)) eqn:Hlen; [discriminate H |].
      apply negb_false_iff, Nat.eqb_eq in Hlen.
      apply bind_OK in H. destruct H as [u2 [Hpos H]].
      apply bind_OK in H. destruct H as [u3 [Hnc H]].
      apply bind_OK in H. destruct H as [u4 [Hax H]].
      apply assert_OK in Hpos, Hnc, Hax.
      apply forallb_gtb_Forall in Hpos. apply Nat.eqb_eq in Hax.
      injection H as <-. exists c'. repeat split; try assumption; try lia.
      right. split; reflexivity.
  - intros [nc [Hch [Hlen [Hpos [Hnc [Hax ->]]]]]].
    apply forallb_gtb_Forall in Hpos. apply Nat.eqb_eq in Hax, Hlen.
    assert (Hgt : (nc >? 0)%Z = true) by lia.
    destruct Hch as [[-> ->] | [-> ->]]; simpl;
      rewrite Hlen, Hpos, Hgt; simpl; rewrite Hax; reflexivity.
Qed.

(** ** Total dimension *)

Lemma mapM_Forall2 {A B : Type} (f : A -> result B) (l : list A) (r : list B) :
  mapM f l = OK r <-> Forall2 (fun x y => f x = OK y) l r.
Proof.
  revert r. induction l as [| x l IH]; intros r; simpl.
  - split.
    + intros H. injection H as <-. constructor.
    + intros H. inversion H. reflexivity.
  - split.
    + intros H. apply bind_OK in H. destruct H as [y [Hy H]].
      apply bind_OK in H. destruct H as [ys [Hys H]].
      injection H as <-. constructor; [exact Hy | apply IH; exact Hys].
    + intros H. inversion H as [| a y l' ys Hy Hys]; subst.
      rewrite Hy. simpl. apply IH in Hys. rewrite Hys. reflexivity.
Qed.

Lemma fold_left_add_sum (l : list Z) (acc : Z) :
  fold_left Z.add l acc = (acc + sum_Z l)%Z.
Proof.
  revert acc. induction l as [| x l IH]; intros acc; simpl.
  - lia.
  - rewrite IH. unfold sum_Z. simpl. lia.
Qed.

(** The total dimension of a [CompositeSpace] is defined exactly when that
    of every component is, and is then their sum (0 for no component); so
    it adds up when component lists are joined or nested. *)
Theorem CompositeSpace_total_dimension_sum (components : list Space) (m : Z) :
  (get_total_dimension (CompositeSpace components) = OK m <->
   exists dims,
     Forall2 (fun c d => get_total_dimension c = OK d) components dims /\
     m = sum_Z dims) /\
  (forall more m',
     get_total_dimension (CompositeSpace components) = OK m ->
     get_total_dimension (CompositeSpace more) = OK m' ->
     get_total_dimension (CompositeSpace (components ++ more)) = OK (m + m')%Z /\
     get_total_dimension
       (CompositeSpace [CompositeSpace components; CompositeSpace more]) = OK (m + m')%Z).
Proof.
  assert (Hiff : forall cs k,
             get_total_dimension (CompositeSpace cs) = OK k <->
             exists dims,
               Forall2 (fun c d => get_total_dimension c = OK d) cs dims /\
               k = sum_Z dims).
  { intros cs k. cbn [get_total_dimension]. split.
    - intros H. apply bind_OK in H. destruct H as [dims [Hdims H]].
      injection H as <-. exists dims. split; [apply mapM_Forall2; exact Hdims |].
      rewrite fold_left_add_sum. lia.
    - intros [dims [Hdims ->]]. apply mapM_Forall2 in Hdims.
      fold get_total_dimension. rewrite Hdims. simpl.
      rewrite fold_left_add_sum. reflexivity. }
  split; [apply Hiff |].
  intros more m' H1 H2. split.
  - apply Hiff in H1. apply Hiff in H2.
    destruct H1 as [d1 [Hd1 ->]], H2 as [d2 [Hd2 ->]].
    apply Hiff. exists (d1 ++ d2). split; [apply Forall2_app; assumption |].
    clear Hd1 Hd2. unfold sum_Z.
    induction d1 as [| x d1 IH]; simpl; [reflexivity | rewrite <- IH; lia].
  - apply Hiff. exists [m; m']. split.
    + repeat constructor; assumption.
    + unfold sum_Z. simpl. lia.
Qed.

(** ** Equality as a dictionary key *)

(** [==] on descriptors is an equivalence relation, [!=] is its negation,
    and descriptors that are equal and hashable have the same hash: a
    descriptor can serve as a dictionary key. *)
Theorem space_eq_equivalence (s1 s2 s3 : Space) :
  space_eq s1 s1 = true /\
  space_eq s1 s2 = space_eq s2 s1 /\
  (space_eq s1 s2 = true -> space_eq s2 s3 = true -> space_eq s1 s3 = true) /\
  space_ne s1 s2 = negb (space_eq s1 s2) /\
  (space_eq s1 s2 = true ->
   forall h1 h2, space_hash s1 = OK h1 -> space_hash s2 = OK h2 -> h1 = h2).
Proof.
  split; [apply space_eq_compared; reflexivity |].
  split.
  - destruct (space_eq s1 s2) eqn:H12, (space_eq s2 s1) eqn:H21; try reflexivity.
    + apply space_eq_compared in H12. symmetry in H12.
      apply space_eq_compared in H12. congruence.
    + apply space_eq_compared in H21. symmetry in H21.
      apply space_eq_compared in H21. congruence.
  - split.
    + intros H12 H23. apply space_eq_compared in H12, H23.
      apply space_eq_compared. congruence.
    + split; [reflexivity |].
      apply (proj2 (space_eq_characterisation s1 s2)).
Qed.

(** [hash] of a descriptor is defined exactly when every [shape] and [axes]
    in it is a tuple; a list anywhere makes it raise [TypeError]. *)
Theorem space_hash_defined_iff (s : Space) :
  ((exists h, space_hash s = OK h) <-> hashable s = true) /\
  (hashable s = false ->
   space_hash s = Err (Raise TypeError (Some "unhashable type: 'list'"%string))).
Proof.
  induction s as [d sp | sh n a | cs IH | ] using Space_ind'; simpl.
  - split; [split; [reflexivity | intros _; eexists; reflexivity] | discriminate].
  - destruct sh as [ks ls], a as [ka la]. unfold hash_seq. simpl.
    destruct ks, ka; simpl; split;
      try (split; [reflexivity | intros _; eexists; reflexivity]);
      try (split; [intros [h H]; discriminate H | discriminate]);
      try discriminate; try reflexivity.
  - induction IH as [| c cs Hc Hcs IHcs]; simpl.
    + split; [split; [reflexivity | intros _; eexists; reflexivity] | discriminate].
    + destruct Hc as [Hc_iff Hc_err]. destruct IHcs as [Hcs_iff Hcs_err].
      destruct (hashable c) eqn:Hh; simpl.
      * destruct (proj2 Hc_iff eq_refl) as [h Hh'].
        rewrite Hh'. simpl.
        destruct (forallb hashable cs) eqn:Hf.
        -- destruct (proj2 Hcs_iff eq_refl) as [h' Hh''].
           apply bind_OK in Hh''. destruct Hh'' as [hs [Hhs _]].
           rewrite Hhs. simpl.
           split; [split; [reflexivity | intros _; eexists; reflexivity] | discriminate].
        -- specialize (Hcs_err eq_refl).
           destruct (mapM space_hash cs) as [hs | e] eqn:Hm; simpl in Hcs_err;
             [discriminate Hcs_err |].
           simpl. split; [split; [intros [x Hx]; discriminate Hx | discriminate] |].
           intros _. exact Hcs_err.
      * rewrite (Hc_err eq_refl). simpl.
        split; [split; [intros [x Hx]; discriminate Hx | discriminate] | reflexivity].
  - split; [split; [reflexivity | intros _; eexists; reflexivity] | discriminate].
Qed.

(** ** What [format_as] requires *)

Lemma total_dimension_compared (s : Space) :
  get_total_dimension (compared_attributes s) = get_total_dimension s.
Proof.
  induction s as [d sp | sh n a | cs IH | ] using Space_ind'; simpl; try reflexivity.
  assert (Hm : mapM get_total_dimension (map compared_attributes cs) =
               mapM get_total_dimension cs).
  { induction IH as [| c cs Hc _ IHcs]; simpl; [reflexivity |].
    rewrite Hc, IHcs. reflexivity. }
  rewrite Hm. reflexivity.
Qed.

Lemma total_dimension_no_null (s : Space) :
  forall m, get_total_dimension s = OK m -> contains_null s = false.
Proof.
  induction s as [d sp | sh n a | cs IH | ] using Space_ind'; simpl; intros m H;
    try reflexivity; try discriminate H.
  apply bind_OK in H. destruct H as [dims [Hdims _]]. clear m.
  revert dims Hdims. induction IH as [| c cs Hc _ IHcs]; intros dims Hdims;
    simpl; [reflexivity |].
  simpl in Hdims. apply bind_OK in Hdims. destruct Hdims as [d [Hd Hdims]].
  apply bind_OK in Hdims. destruct Hdims as [ds [Hds _]].
  rewrite (Hc d Hd), (IHcs ds Hds). reflexivity.
Qed.

(** Formatting into an equal descriptor returns the batch itself, for any
    batch that validates under a source whose total dimension is defined. *)
Theorem format_as_equal_is_identity (self space : Space) (b : batch) (m : Z) :
  validate self b = OK tt ->
  get_total_dimension self = OK m ->
  space_eq self space = true ->
  format_as self b space = OK b.
Proof.
  intros Hval Hm Heq. unfold format_as.
  apply (format_as_with_equal _ self space b m Hval Hm); [| exact Heq].
  apply space_eq_compared in Heq.
  rewrite <- (total_dimension_compared space), <- Heq, total_dimension_compared.
  exact Hm.
Qed.

(** [format_as] returns a batch only if the batch validates under the
    source and the two total dimensions are defined and equal; so no
    conversion succeeds from or into a descriptor in which a [NullSpace]
    occurs. *)
Theorem format_as_success_requires (self space : Space) (b r : batch) :
  format_as self b space = OK r ->
  validate self b = OK tt /\
  (exists m, get_total_dimension self = OK m /\ get_total_dimension space = OK m) /\
  contains_null self = false /\
  contains_null space = false.
Proof.
  unfold format_as, format_as_with. intros H.
  apply bind_OK in H. destruct H as [[] [Hval H]].
  apply bind_OK in H. destruct H as [m [Hm H]].
  apply bind_OK in H. destruct H as [m' [Hm' H]].
  destruct (Z.eqb_spec m m') as [<- | Hneq]; [| discriminate H].
  split; [exact Hval |]. split; [exists m; split; assumption |].
  split; [apply (total_dimension_no_null self m Hm) |
          apply (total_dimension_no_null space m Hm')].
Qed.

(** A [CompositeSpace] converts only into a [VectorSpace] (or an equal
    descriptor) and a [Conv2DSpace] not into a [CompositeSpace]: the other
    pairs raise [NotImplementedError], also when the batch is valid and the
    total dimensions agree. *)
Theorem format_as_unsupported_pairs (self space : Space) (b : batch) (m : Z) :
  validate self b = OK tt ->
  get_total_dimension self = OK m ->
  get_total_dimension space = OK m ->
  space_eq self space = false ->
  (type_of self = CompositeSpaceT -> type_of space <> VectorSpaceT ->
   format_as self b space =
   Err (Raise NotImplementedError
          (Some (space_str self ++ " does not know how to format as " ++
                 space_str space)%string))) /\
  (type_of self = Conv2DSpaceT -> type_of space = CompositeSpaceT ->
   format_as self b space =
   Err (Raise NotImplementedError
          (Some ("Conv2DSPace doesn't know how to format as " ++
                 str_type CompositeSpaceT)%string))).
Proof.
  intros Hval Hm Hm' Hneq. unfold format_as.
  rewrite (format_as_with_hook _ self space b m Hval Hm Hm' Hneq).
  split.
  - intros Hself Hspace.
    destruct self as [d sp | sh n a | cs | ]; try discriminate Hself.
    destruct space as [d' sp' | sh' n' a' | cs' | ]; simpl;
      [exfalso; apply Hspace; reflexivity | reflexivity | reflexivity | reflexivity].
  - intros Hself Hspace.
    destruct self as [d sp | sh n a | cs | ]; try discriminate Hself.
    destruct space as [d' sp' | sh' n' a' | cs' | ]; try discriminate Hspace.
    cbn [_format_as]. unfold Conv2DSpace__format_as.
    cbn [validate] in Hval. rewrite Hval. reflexivity.
Qed.

(** ** What the validators accept *)

(** [Conv2DSpace.validate] accepts exactly the dense variables of four axes;
    when test values are computed it also requires the value's extent
    along ['c'] to be [num_channels] and its extents along [0] and [1] to be
    the two entries of [shape]. *)
Theorem Conv2DSpace_validate_iff (shape : pyseq Z) (nc : Z) (axes : pyseq tag) (b : batch) :
  validate (Conv2DSpace shape nc axes) b = OK tt <->
  exists v,
    b = BVar DenseType v /\ ndim v = 4 /\
    (compute_test_value = true ->
     extent_at (items axes) v tag_c = OK nc /\
     (exists e, extent_at (items axes) v tag_0 = OK e /\ py_getitem (items shape) 0 = OK e) /\
     (exists e, extent_at (items axes) v tag_1 = OK e /\ py_getitem (items shape) 1 = OK e)).
Proof.
  cbn [validate]. unfold Conv2DSpace_validate, get_debug_values.
  pose proof (validate_value_extents shape nc axes) as Hext.
  generalize compute_test_value. intros debug.
  split.
  - intros H. destruct b as [| ty v | v | l]; try discriminate H.
    destruct ty; [| discriminate H].
    destruct (Nat.eqb_spec (ndim v) 4) as [Hnd | Hnd]; simpl in H; [| discriminate H].
    exists v. split; [reflexivity |]. split; [exact Hnd |].
    intros ->. cbn [mapM bind] in H.
    destruct (Conv2DSpace_validate_value shape nc axes v) as [[] | e] eqn:Hv;
      [| discriminate H].
    apply Hext. exact Hv.
  - intros [v [-> [Hnd Hdebug]]]. rewrite Hnd. simpl.
    destruct debug; [| reflexivity].
    cbn [mapM bind]. rewrite (proj2 (Hext v) (Hdebug eq_refl)). reflexivity.
Qed.

Lemma validate_tuple_Forall2 (cs : list Space) (l : list batch) :
  validate (CompositeSpace cs) (BTuple l) = OK tt <->
  Forall2 (fun c x => validate c x = OK tt) cs l.
Proof.
  cbn [validate]. split.
  - intros H.
    destruct (Nat.eqb_spec (length l) (length cs)) as [Hlen | Hlen];
      simpl in H; [| discriminate H].
    revert l Hlen H. induction cs as [| c cs IH]; intros [| x l] Hlen H;
      try discriminate Hlen; constructor.
    + apply bind_OK in H. destruct H as [[] [Hc _]]. exact Hc.
    + apply bind_OK in H. destruct H as [u [_ H]].
      apply IH; [simpl in Hlen; lia | exact H].
  - intros HF.
    rewrite (proj2 (Nat.eqb_eq _ _) (eq_sym (Forall2_length HF))). simpl.
    induction HF as [| c x cs l Hc _ IH]; [reflexivity |].
    rewrite Hc. simpl. exact IH.
Qed.

(** [CompositeSpace.validate] accepts exactly the tuples with one element
    per component, each valid under its component; a tuple of another
    length raises a [ValueError] naming both lengths. *)
Theorem CompositeSpace_validate_iff (components : list Space) (b : batch) :
  (validate (CompositeSpace components) b = OK tt <->
   exists l, b = BTuple l /\ Forall2 (fun c x => validate c x = OK tt) components l) /\
  (forall l, length l <> length components ->
     validate (CompositeSpace components) (BTuple l) =
     Err (Raise ValueError
            (Some ("Expected " ++ str_nat (length components) ++ " elements in batch, " ++
                   "got " ++ str_nat (length l))%string))).
Proof.
  split.
  - split.
    + intros H. destruct b as [| ty v | v | l]; try discriminate H.
      exists l. split; [reflexivity |]. apply validate_tuple_Forall2. exact H.
    + intros [l [-> HF]]. apply validate_tuple_Forall2. exact HF.
  - intros l Hlen. cbn [validate].
    destruct (Nat.eqb_spec (length l) (length components)) as [Heq | _];
      [contradiction | reflexivity].
Qed.

(** ** Batch size of a composite batch *)

Lemma validate_components (cs : list Space) (l : list batch) :
  validate (CompositeSpace cs) (BTuple l) = OK tt ->
  Forall2 (fun c x => validate c x = OK tt) cs l.
Proof.
  intros H. apply validate_tuple_Forall2. exact H.
Qed.

(** What [get_batch_size] returns is a theano scalar or the int [0]. *)
Lemma get_batch_size_object_cases (s : Space) :
  forall d b, get_batch_size_object s d = OK b ->
    b = SizeInt 0 \/ exists n, b = SizeVar n.
Proof.
  induction s as [dim sp | sh nc a | cs IH | ] using Space_ind'; intros d b H;
    cbn [get_batch_size_object] in H.
  - apply bind_OK in H. destruct H as [u [_ H]].
    apply bind_OK in H. destruct H as [n [_ H]].
    injection H as <-. right. exists n. reflexivity.
  - apply bind_OK in H. destruct H as [n [_ H]].
    injection H as <-. right. exists n. reflexivity.
  - apply bind_OK in H. destruct H as [u [_ H]].
    apply bind_OK in H. destruct H as [ds [_ H]].
    revert ds H. induction IH as [| c cs Hc _ IHcs]; intros ds H.
    + injection H as <-. left. reflexivity.
    + destruct ds as [| x ds]; [injection H as <-; left; reflexivity |].
      apply bind_OK in H. destruct H as [b' [Hb' H]].
      destruct (ne_zero b'); [injection H as <-; apply (Hc x b' Hb') |].
      apply (IHcs ds H).
  - apply bind_OK in H. destruct H as [u [_ H]].
    injection H as <-. left. reflexivity.
Qed.

(** [CompositeSpace.get_batch_size] on a valid batch passes over the
    components that return the int [0] and returns what the first other
    component returns: a theano scalar, whatever it evaluates to, also when
    that is 0.  When every component returns the int [0] (in particular for
    no component at all), so does the composite.  Nothing else is ever
    returned by a component. *)
Theorem CompositeSpace_get_batch_size_first_variable (cs1 cs2 : list Space)
    (l1 l2 : list batch) (c : Space) (x : batch) (n : Z) :
  Forall2 (fun c' x' => get_batch_size_object c' x' = OK (SizeInt 0)) cs1 l1 ->
  (validate (CompositeSpace (cs1 ++ c :: cs2)) (BTuple (l1 ++ x :: l2)) = OK tt ->
   get_batch_size_object c x = OK (SizeVar n) ->
   get_batch_size_object (CompositeSpace (cs1 ++ c :: cs2)) (BTuple (l1 ++ x :: l2)) =
     OK (SizeVar n) /\
   get_batch_size (CompositeSpace (cs1 ++ c :: cs2)) (BTuple (l1 ++ x :: l2)) = OK n) /\
  (validate (CompositeSpace cs1) (BTuple l1) = OK tt ->
   get_batch_size_object (CompositeSpace cs1) (BTuple l1) = OK (SizeInt 0) /\
   get_batch_size (CompositeSpace cs1) (BTuple l1) = OK 0%Z) /\
  (forall b, get_batch_size_object c x = OK b ->
     b = SizeInt 0 \/ exists k, b = SizeVar k).
Proof.
  intros Hzero. split; [| split].
  - intros Hval Hn.
    assert (Hobj : get_batch_size_object (CompositeSpace (cs1 ++ c :: cs2))
                     (BTuple (l1 ++ x :: l2)) = OK (SizeVar n)).
    { cbn [get_batch_size_object]. rewrite Hval. cbn [bind batch_iter].
      clear Hval.
      induction Hzero as [| c' x' cs1 l1 Hc' _ IH]; simpl.
      - rewrite Hn. reflexivity.
      - rewrite Hc'. simpl. exact IH. }
    split; [exact Hobj |]. unfold get_batch_size. rewrite Hobj. reflexivity.
  - intros Hval.
    assert (Hobj : get_batch_size_object (CompositeSpace cs1) (BTuple l1) =
                   OK (SizeInt 0)).
    { cbn [get_batch_size_object]. rewrite Hval. cbn [bind batch_iter].
      clear Hval.
      induction Hzero as [| c' x' cs1 l1 Hc' _ IH]; simpl; [reflexivity |].
      rewrite Hc'. simpl. exact IH. }
    split; [exact Hobj |]. unfold get_batch_size. rewrite Hobj. reflexivity.
  - intros b Hb. apply (get_batch_size_object_cases c x b Hb).
Qed.

(** ** Restricting a batch *)

Lemma Forall2_nth_default {A B : Type} (P : A -> B -> Prop) (l : list A) (l' : list B)
    (a : A) (b : B) (i : nat) :
  Forall2 P l l' -> i < length l -> P (nth i l a) (nth i l' b).
Proof.
  intros H. revert i. induction H as [| x y l l' Hxy _ IH]; intros i Hi.
  - simpl in Hi. lia.
  - destruct i as [| i]; simpl; [exact Hxy | apply IH; simpl in Hi; lia].
Qed.

(** Restricting a valid composite batch to a subset of valid indices gives
    a batch that is valid under the descriptor restricted to the same
    subset. *)
Theorem restrict_batch_valid_under_restrict (components : list Space) (l : list batch)
    (subset : pyseq Z) :
  validate (CompositeSpace components) (BTuple l) = OK tt ->
  Forall (fun i => (- Z.of_nat (length components) <= i < Z.of_nat (length components))%Z)
         (items subset) ->
  exists space' batch',
    restrict (CompositeSpace components) subset = OK space' /\
    restrict_batch (CompositeSpace components) (BTuple l) subset = OK batch' /\
    validate space' batch' = OK tt.
Proof.
  intros Hval Hin.
  pose proof (validate_components components l Hval) as HF.
  pose proof (Forall2_length HF) as Hlen.
  set (position := fun i : Z =>
         Z.to_nat (if (i <? 0)%Z then i + Z.of_nat (length components) else i)%Z).
  assert (Hpos : forall i, In i (items subset) -> position i < length components).
  { intros i Hi. rewrite Forall_forall in Hin. specialize (Hin i Hi).
    unfold position. destruct (Z.ltb_spec i 0); lia. }
  assert (Hgc : forall i, In i (items subset) ->
            py_getitem components i = OK (nth (position i) components NullSpace)).
  { intros i Hi. rewrite Forall_forall in Hin.
    apply py_getitem_in_range. apply Hin. exact Hi. }
  assert (Hgl : forall i, In i (items subset) ->
            py_getitem l i = OK (nth (position i) l BNone)).
  { intros i Hi. rewrite Forall_forall in Hin. specialize (Hin i Hi).
    unfold position. rewrite Hlen. apply py_getitem_in_range. rewrite <- Hlen. exact Hin. }
  assert (Hvi : forall i, In i (items subset) ->
            validate (nth (position i) components NullSpace) (nth (position i) l BNone) =
            OK tt).
  { intros i Hi.
    apply (Forall2_nth_default (fun c x => validate c x = OK tt) components l
             NullSpace BNone (position i) HF (Hpos i Hi)). }
  unfold restrict, restrict_batch. rewrite Hval. cbn [bind].
  destruct (items subset) as [| i [| j r]] eqn:Hitems.
  - exists (CompositeSpace []), (BTuple []). repeat split.
  - exists (nth (position i) components NullSpace), (nth (position i) l BNone).
    split; [apply Hgc; left; reflexivity |].
    split; [apply Hgl; left; reflexivity |].
    apply Hvi. left. reflexivity.
  - exists (CompositeSpace (map (fun i => nth (position i) components NullSpace)
                               (i :: j :: r))),
           (BTuple (map (fun i => nth (position i) l BNone) (i :: j :: r))).
    split; [rewrite (mapM_total _ _ _ Hgc); reflexivity |].
    split; [rewrite (mapM_total _ _ _ Hgl); reflexivity |].
    apply validate_tuple_Forall2.
    assert (Hall : forall ks, (forall k, In k ks -> In k (i :: j :: r)) ->
              Forall2 (fun c x => validate c x = OK tt)
                (map (fun k => nth (position k) components NullSpace) ks)
                (map (fun k => nth (position k) l BNone) ks)).
    { induction ks as [| k ks IH]; intros Hks; simpl; constructor.
      - apply Hvi. apply Hks. left. reflexivity.
      - apply IH. intros k' Hk'. apply Hks. right. exact Hk'. }
    apply Hall. intros k Hk. exact Hk.
Qed.

(** ** Origins *)

Lemma Permutation_filter_same {A : Type} (p : A -> bool) (l l' : list A) :
  Permutation l l' -> Permutation (filter p l) (filter p l').
Proof.
  induction 1 as [| x l l' _ IH | x y l | l l' l'' _ IH1 _ IH2]; simpl.
  - constructor.
  - destruct (p x); [constructor; exact IH | exact IH].
  - destruct (p x), (p y); try apply Permutation_refl.
    apply perm_swap.
  - eapply Permutation_trans; [exact IH1 | exact IH2].
Qed.

Lemma prod_Permutation (l l' : list nat) : Permutation l l' -> prod l = prod l'.
Proof.
  induction 1 as [| x l l' _ IH | x y l | l l' l'' _ IH1 _ IH2].
  - reflexivity.
  - unfold prod in IH |- *. simpl. rewrite IH. reflexivity.
  - unfold prod. simpl. lia.
  - congruence.
Qed.

Lemma np_zeros_nonneg (shape : list Z) :
  Forall (fun d => (0 <= d)%Z) shape ->
  np_zeros shape =
  OK (NDArray (map Z.to_nat shape) (repeat zero (prod (map Z.to_nat shape)))).
Proof.
  intros H. unfold np_zeros.
  replace (existsb (fun d => (d <? 0)%Z) shape) with false; [reflexivity |].
  symmetry. apply not_true_is_false. intros Hex.
  apply existsb_exists in Hex. destruct Hex as [d [Hd Hneg]].
  rewrite Forall_forall in H. specialize (H d Hd). lia.
Qed.

Lemma extent_at_lookup (ax : list tag) (f : tag -> Z) (t : ndarray) (a : tag) :
  arr_shape t = map Z.to_nat (map f ax) ->
  In a ax -> (0 <= f a)%Z ->
  extent_at ax t a = OK (f a).
Proof.
  intros Hs Ha Hpos.
  destruct (index_from_In a ax 0 Ha) as [k [Hk [Hnth _]]]. simpl in Hk.
  unfold extent_at, index. rewrite Hk. cbn [bind].
  unfold shape_at. rewrite Hs, !nth_error_map, Hnth. simpl.
  rewrite Z2Nat.id by exact Hpos. reflexivity.
Qed.

(** The lookup of [get_origin_batch], as a function of the tag. *)
Lemma origin_dims_lookup (n h w c : Z) (a : tag) :
  In a axis_tags ->
  dict_get [(tag_b, n); (tag_0, h); (tag_1, w); (tag_c, c)] a =
  OK (if tag_eqb a tag_b then n
      else if tag_eqb a tag_0 then h
      else if tag_eqb a tag_1 then w else c).
Proof.
  intros [<- | [<- | [<- | [<- | []]]]]; reflexivity.
Qed.

(** For a [Conv2DSpace] of positive shape and channel count whose axes are
    a permutation of the four tags: the origin has three axes and as many
    elements as the total dimension; the batch of [n] origins has [n] times
    as many, reports [n] along ['b'] and passes the checks the validator
    makes on a value. *)
Theorem Conv2DSpace_origin_conforms (shape : pyseq Z) (h w c n : Z) (ax : pyseq tag) :
  items shape = [h; w] ->
  (0 < h)%Z -> (0 < w)%Z -> (0 < c)%Z ->
  Permutation (items ax) axis_tags ->
  (0 < n)%Z ->
  exists o t,
    get_origin (Conv2DSpace shape c ax) = OK o /\
    ndim o = 3 /\
    get_total_dimension (Conv2DSpace shape c ax) = OK (Z.of_nat (length (arr_data o))) /\
    get_origin_batch (Conv2DSpace shape c ax) n = OK (BArray t) /\
    Z.of_nat (length (arr_data t)) = (n * Z.of_nat (length (arr_data o)))%Z /\
    extent_at (items ax) t tag_b = OK n /\
    Conv2DSpace_validate_value shape c ax t = OK tt.
Proof.
  intros Hshape Hh Hw Hc Hperm Hn.
  set (f := fun a => if tag_eqb a tag_b then n
                     else if tag_eqb a tag_0 then h
                     else if tag_eqb a tag_1 then w else c).
  set (g := fun a => if tag_eqb a tag_0 then h
                     else if tag_eqb a tag_1 then w else c).
  assert (Hin : forall a, In a axis_tags -> In a (items ax)).
  { intros a Ha. apply (Permutation_in a (Permutation_sym Hperm) Ha). }
  assert (Hin' : forall a, In a (items ax) -> In a axis_tags).
  { intros a Ha. apply (Permutation_in a Hperm Ha). }
  assert (Hfpos : forall a, (0 < f a)%Z).
  { intros a. unfold f.
    destruct (tag_eqb a tag_b), (tag_eqb a tag_0), (tag_eqb a tag_1); assumption. }
  assert (Hgpos : forall a, (0 < g a)%Z).
  { intros a. unfold g. destruct (tag_eqb a tag_0), (tag_eqb a tag_1); assumption. }
  set (rest := filter (fun elem => negb (tag_eqb elem tag_b)) (items ax)).
  assert (Hrest : Permutation rest [tag_c; tag_0; tag_1]).
  { apply (Permutation_filter_same (fun elem => negb (tag_eqb elem tag_b))) in Hperm.
    exact Hperm. }
  assert (Hgo : Conv2DSpace_get_origin shape c ax =
                OK (NDArray (map Z.to_nat (map g rest))
                            (repeat zero (prod (map Z.to_nat (map g rest)))))).
  { unfold Conv2DSpace_get_origin. rewrite Hshape.
    change (py_getitem [h; w] 0%Z) with (OK h).
    change (py_getitem [h; w] 1%Z) with (OK w).
    cbn [bind]. fold rest.
    rewrite (mapM_total _ g rest).
    - cbn [bind]. apply np_zeros_nonneg.
      apply Forall_forall. intros d Hd. apply in_map_iff in Hd.
      destruct Hd as [a [<- _]]. specialize (Hgpos a). lia.
    - intros a Ha. apply (Permutation_in a Hrest) in Ha.
      destruct Ha as [<- | [<- | [<- | []]]]; reflexivity. }
  assert (Hgb : Conv2DSpace_get_origin_batch shape c ax (PInt n) =
                OK (NDArray (map Z.to_nat (map f (items ax)))
                            (repeat zero (prod (map Z.to_nat (map f (items ax))))))).
  { unfold Conv2DSpace_get_origin_batch.
    destruct (Z.gtb_spec n 0) as [_ | Hle]; [| lia].
    rewrite Hshape.
    change (py_getitem [h; w] 0%Z) with (OK h).
    change (py_getitem [h; w] 1%Z) with (OK w).
    cbn [bind assert].
    rewrite (mapM_total _ f (items ax)).
    - cbn [bind]. apply np_zeros_nonneg.
      apply Forall_forall. intros d Hd. apply in_map_iff in Hd.
      destruct Hd as [a [<- _]]. specialize (Hfpos a). lia.
    - intros a Ha. apply origin_dims_lookup. apply Hin'. exact Ha. }
  assert (Hsize_o : prod (map Z.to_nat (map g rest)) =
                    Z.to_nat c * (Z.to_nat h * (Z.to_nat w * 1))).
  { rewrite (prod_Permutation _ _
               (Permutation_map Z.to_nat (Permutation_map g Hrest))).
    reflexivity. }
  assert (Hsize_t : prod (map Z.to_nat (map f (items ax))) =
                    Z.to_nat n * (Z.to_nat c * (Z.to_nat h * (Z.to_nat w * 1)))).
  { rewrite (prod_Permutation _ _
               (Permutation_map Z.to_nat (Permutation_map f Hperm))).
    reflexivity. }
  eexists. eexists.
  split; [exact Hgo |].
  split.
  { unfold ndim. simpl. rewrite !length_map.
    apply (Permutation_length Hrest). }
  split.
  { simpl. rewrite Hshape. simpl. rewrite repeat_length, Hsize_o. f_equal. lia. }
  split.
  { cbn [get_origin_batch]. rewrite Hgb. reflexivity. }
  split.
  { simpl. rewrite !repeat_length, Hsize_o, Hsize_t. lia. }
  assert (Hext : forall a, In a axis_tags ->
             extent_at (items ax)
               (NDArray (map Z.to_nat (map f (items ax)))
                  (repeat zero (prod (map Z.to_nat (map f (items ax)))))) a = OK (f a)).
  { intros a Ha. apply extent_at_lookup; [reflexivity | apply Hin; exact Ha |].
    specialize (Hfpos a). lia. }
  split.
  { apply Hext. left. reflexivity. }
  apply validate_value_extents.
  rewrite !Hext by (unfold axis_tags; simpl; auto 7).
  rewrite Hshape.
  split; [reflexivity |].
  split; eexists; split; reflexivity.
Qed.

(** ** Batch size across axes orderings *)

Lemma Conv2DSpace_get_batch_size_extent (shape : pyseq Z) (nc : Z) (axes : pyseq tag)
    (v : ndarray) :
  validate (Conv2DSpace shape nc axes) (BVar DenseType v) = OK tt ->
  get_batch_size (Conv2DSpace shape nc axes) (BVar DenseType v) =
  extent_at (items axes) v tag_b.
Proof.
  intros Hval. rewrite get_batch_size_Conv2DSpace. unfold Conv2DSpace_get_batch_size.
  cbn [validate] in Hval. rewrite Hval. reflexivity.
Qed.

(** Converting a valid image batch to another axes ordering keeps its batch
    size: [get_batch_size] of the destination on the converted batch is
    [get_batch_size] of the source on the original. *)
Theorem get_batch_size_kept_by_axes_conversion (shape : pyseq Z) (nc : Z)
    (src dst : pyseq tag) (X : ndarray) :
  Permutation (items src) axis_tags ->
  Permutation (items dst) axis_tags ->
  wf_ndarray X ->
  length (items shape) = 2 ->
  validate (Conv2DSpace shape nc src) (BVar DenseType X) = OK tt ->
  exists Y n,
    format_as (Conv2DSpace shape nc src) (BVar DenseType X) (Conv2DSpace shape nc dst) =
      OK (BVar DenseType Y) /\
    get_batch_size (Conv2DSpace shape nc src) (BVar DenseType X) = OK n /\
    get_batch_size (Conv2DSpace shape nc dst) (BVar DenseType Y) = OK n.
Proof.
  intros Hsrc Hdst Hwf Hshape Hval.
  pose proof (Permutation_in tag_b (Permutation_sym Hdst) (or_introl eq_refl)) as Hb.
  apply axes_order_cases in Hsrc. apply axes_order_cases in Hdst.
  destruct (Conv2DSpace_validate_OK _ _ _ _ _ Hval) as [v [Hv Hnd]].
  injection Hv as <-.
  destruct (axes_shuffle_facts _ _ Hsrc Hdst) as [p [q [Hp [_ [Hpp [_ [_ Htags]]]]]]].
  destruct (transpose_defined X p) as [Y HY]; [rewrite Hnd; exact Hpp |].
  destruct (transpose_OK _ _ _ HY) as [_ [HsY _]].
  destruct (axes_order_NoDup _ Hsrc) as [Hnodup Hls].
  pose proof (validate_transposed shape nc src dst X Y p Hsrc Hdst Hnd Hpp Htags HY Hval)
    as HvalY.
  assert (Hext : extent_at (items dst) Y tag_b = extent_at (items src) X tag_b).
  { apply (extent_at_transpose X Y (items src) (items dst) p tag_b); assumption. }
  destruct (index_from_In tag_b (items src) 0) as [k [Hk [_ Hlt]]].
  { assert (Hall : forallb (fun o => existsb (tag_eqb tag_b) o) (orderings axis_tags) = true)
      by (vm_compute; reflexivity).
    rewrite forallb_forall in Hall. specialize (Hall _ Hsrc).
    apply existsb_exists in Hall. destruct Hall as [y [Hy Hby]].
    apply tag_eqb_eq in Hby. subst y. exact Hy. }
  simpl in Hk.
  assert (Hn : exists n, extent_at (items src) X tag_b = OK n).
  { unfold extent_at, index. rewrite Hk. cbn [bind]. unfold shape_at.
    destruct (nth_error (arr_shape X) k) as [e |] eqn:He; [eexists; reflexivity |].
    apply nth_error_None in He. unfold ndim in Hnd. lia. }
  destruct Hn as [n Hn].
  exists Y, n.
  split; [apply (format_as_axes shape nc src dst X Y p); assumption |].
  rewrite (Conv2DSpace_get_batch_size_extent _ _ _ _ Hval).
  rewrite (Conv2DSpace_get_batch_size_extent _ _ _ _ HvalY).
  rewrite Hext. split; exact Hn.
Qed.

(** ** Images as vectors and back *)

Lemma reshape_exact (t : ndarray) (newshape : list Z) :
  Forall (fun d => (0 <= d)%Z) newshape ->
  fold_right Z.mul 1%Z newshape = Z.of_nat (length (arr_data t)) ->
  reshape t newshape = OK (NDArray (map Z.to_nat newshape) (arr_data t)).
Proof.
  intros Hpos Hsize. unfold reshape.
  assert (Hlow : existsb (fun d => (d <? -1)%Z) newshape = false).
  { apply not_true_is_false. intros Hex. apply existsb_exists in Hex.
    destruct Hex as [d [Hd Hneg]]. rewrite Forall_forall in Hpos.
    specialize (Hpos d Hd). lia. }
  assert (Hnone : filter (fun d => (d =? -1)%Z) newshape = [] /\
                  filter (fun d => negb (d =? -1)%Z) newshape = newshape).
  { clear Hsize Hlow. induction Hpos as [| d l Hd _ [IH1 IH2]]; simpl.
    - split; reflexivity.
    - destruct (Z.eqb_spec d (-1)) as [Heq | _]; [lia |].
      simpl. rewrite IH1, IH2. split; reflexivity. }
  destruct Hnone as [Hn1 Hn2].
  rewrite Hlow, Hn1, Hn2, Hsize, Z.eqb_refl. reflexivity.
Qed.

Lemma prod_to_nat (l : list Z) :
  Forall (fun d => (0 <= d)%Z) l ->
  Z.of_nat (prod (map Z.to_nat l)) = fold_right Z.mul 1%Z l.
Proof.
  induction 1 as [| d l Hd _ IH]; [reflexivity |].
  unfold prod in IH |- *. simpl. rewrite Nat2Z.inj_mul, IH, Z2Nat.id by exact Hd.
  reflexivity.
Qed.

Lemma batch_leading_order (l : list tag) :
  In l (orderings axis_tags) ->
  In (batch_leading l) (orderings axis_tags) /\
  (forall a r, l = a :: r -> tag_eqb a tag_b = true -> batch_leading l = l).
Proof.
  intros H. cbn in H.
  repeat (destruct H as [<- | H];
          [split;
           [vm_compute; repeat (first [left; reflexivity | right]) |
            intros a r Hl Ha; injection Hl as <- <-;
            first [discriminate Ha | reflexivity]] |]).
  destruct H.
Qed.

Lemma image_extent_lookup (n h w c : Z) (a : tag) :
  In a axis_tags ->
  dict_get [(tag_b, n); (tag_c, c); (tag_0, h); (tag_1, w)] a = OK (image_extent n h w c a).
Proof.
  intros [<- | [<- | [<- | [<- | []]]]]; reflexivity.
Qed.

Lemma image_extent_product (n h w c : Z) (l : list tag) :
  Permutation l axis_tags ->
  prod (map Z.to_nat (map (image_extent n h w c) l)) =
  Z.to_nat n * (Z.to_nat c * (Z.to_nat h * (Z.to_nat w * 1))).
Proof.
  intros Hperm.
  rewrite (prod_Permutation _ _
             (Permutation_map Z.to_nat (Permutation_map (image_extent n h w c) Hperm))).
  reflexivity.
Qed.

Lemma orderings_Permutation (l : list tag) :
  In l (orderings axis_tags) -> Permutation l axis_tags.
Proof.
  intros H.
  destruct (axes_order_NoDup l H) as [Hnd Hlen].
  apply NoDup_Permutation_bis.
  - exact Hnd.
  - rewrite Hlen. simpl. lia.
  - intros a Ha. cbn in H.
    repeat (destruct H as [<- | H];
            [simpl in Ha; unfold axis_tags; simpl;
             repeat (destruct Ha as [<- | Ha]; [auto 7 |]); destruct Ha |]).
    destruct H.
Qed.

(** An image batch whose extents are those the descriptor prescribes
    converts to the [VectorSpace] of the same total dimension as a matrix of
    one row per example, and converting that matrix back to the image
    space returns the batch: for every ordering of the four axes.  With
    ['b'] as first axis the forward conversion is a plain reshape. *)
Theorem Conv2DSpace_VectorSpace_roundtrip (shape : pyseq Z) (h w c n : Z)
    (ax : pyseq tag) (X : ndarray) :
  items shape = [h; w] ->
  (0 < h)%Z -> (0 < w)%Z -> (0 < c)%Z -> (0 <= n)%Z ->
  Permutation (items ax) axis_tags ->
  wf_ndarray X ->
  map Z.of_nat (arr_shape X) = map (image_extent n h w c) (items ax) ->
  let image := Conv2DSpace shape c ax in
  let vector := VectorSpace (h * w * c) false in
  validate image (BVar DenseType X) = OK tt /\
  exists V,
    format_as image (BVar DenseType X) vector = OK (BVar DenseType V) /\
    arr_shape V = [Z.to_nat n; Z.to_nat (h * w * c)] /\
    (forall r, items ax = tag_b :: r -> arr_data V = arr_data X) /\
    format_as vector (BVar DenseType V) image = OK (BVar DenseType X).
Proof.
  intros Hshape Hh Hw Hc Hn Hperm Hwf Hext image vector.
  set (f := image_extent n h w c) in *.
  set (total := (h * w * c)%Z) in *.
  assert (Hfpos : forall a, (0 <= f a)%Z).
  { intros a. unfold f, image_extent.
    destruct (tag_eqb a tag_b), (tag_eqb a tag_0), (tag_eqb a tag_1); lia. }
  assert (Hfall : forall l, Forall (fun d => (0 <= d)%Z) (map f l)).
  { intros l. apply Forall_forall. intros d Hd. apply in_map_iff in Hd.
    destruct Hd as [a [<- _]]. apply Hfpos. }
  assert (HsX : arr_shape X = map Z.to_nat (map f (items ax))).
  { rewrite <- Hext, map_map.
    rewrite (map_ext (fun x => Z.to_nat (Z.of_nat x)) (fun x => x) Nat2Z.id).
    symmetry. apply map_id. }
  pose proof (axes_order_cases _ Hperm) as Hord.
  destruct (axes_order_NoDup _ Hord) as [Hnodup Hlen].
  assert (Hnd : ndim X = 4).
  { unfold ndim. rewrite HsX, !length_map. exact Hlen. }
  assert (Hin : forall a, In a axis_tags -> In a (items ax)).
  { intros a Ha. apply (Permutation_in a (Permutation_sym Hperm) Ha). }
  assert (Hin' : forall a, In a (items ax) -> In a axis_tags).
  { intros a Ha. apply (Permutation_in a Hperm Ha). }
  (* validity *)
  assert (Hvalue : Conv2DSpace_validate_value shape c ax X = OK tt).
  { apply validate_value_extents.
    rewrite !(extent_at_lookup (items ax) f X)
      by (try exact HsX; try apply Hfpos; apply Hin; unfold axis_tags; simpl; auto 7).
    rewrite Hshape. split; [reflexivity |].
    split; eexists; split; reflexivity. }
  assert (Hval : validate image (BVar DenseType X) = OK tt).
  { unfold image. cbn [validate]. unfold Conv2DSpace_validate.
    rewrite Hnd. cbn [Nat.eqb negb]. unfold get_debug_values.
    generalize compute_test_value. intros [|]; [| reflexivity].
    cbn [mapM bind]. rewrite Hvalue. reflexivity. }
  assert (Htotal : get_total_dimension image = OK total).
  { unfold image. cbn [get_total_dimension]. rewrite Hshape. reflexivity. }
  (* the batch-leading pivot *)
  set (bl := batch_leading (items ax)) in *.
  destruct (batch_leading_order _ Hord) as [Hbl Hsame]. fold bl in Hbl, Hsame.
  destruct (axes_shuffle_facts _ _ Hord Hbl) as [p [q [Hp [Hq [Hpp [Hqp [Hpq Htags]]]]]]].
  destruct (transpose_defined X p) as [X1 HX1]; [rewrite Hnd; exact Hpp |].
  destruct (transpose_OK _ _ _ HX1) as [_ [HsX1 [HwfX1 _]]].
  assert (HsX1' : arr_shape X1 = map Z.to_nat (map f bl)).
  { rewrite HsX1, HsX, <- Htags, !map_map.
    apply map_ext_in. intros k Hk.
    rewrite (nth_indep _ 0 (Z.to_nat (f tag_b)))
      by (rewrite length_map, Hlen; apply (axis_permutation_lt p Hpp k Hk)).
    rewrite (map_nth (fun a => Z.to_nat (f a))). reflexivity. }
  assert (HndX1 : ndim X1 = 4).
  { unfold ndim. rewrite HsX1', !length_map.
    apply (proj2 (axes_order_NoDup _ Hbl)). }
  pose proof (image_extent_product n h w c bl (orderings_Permutation _ Hbl)) as Hprod.
  fold f in Hprod.
  assert (Hsize : Z.of_nat (length (arr_data X1)) = (n * total)%Z).
  { unfold wf_ndarray in HwfX1. rewrite HwfX1, HsX1', Hprod.
    unfold total. rewrite !Nat2Z.inj_mul, !Z2Nat.id by lia. lia. }
  assert (Hblhead : shape_at X1 0 = OK n).
  { unfold shape_at. rewrite HsX1'. unfold bl, batch_leading. simpl.
    unfold f, image_extent. simpl. rewrite Z2Nat.id by exact Hn. reflexivity. }
  set (V := NDArray [Z.to_nat n; Z.to_nat total] (arr_data X1)).
  assert (Hreshape : reshape X1 [n; total] = OK V).
  { apply (reshape_exact X1 [n; total]).
    - repeat constructor; unfold total; lia.
    - simpl. rewrite Hsize. lia. }
  assert (Hlead : forall r, items ax = tag_b :: r -> X1 = X).
  { intros r Hr.
    assert (Heq : bl = items ax) by (apply (Hsame tag_b r Hr); reflexivity).
    rewrite Heq, (axes_shuffle_same _ Hord) in Hp. injection Hp as <-.
    rewrite (transpose_identity4 X Hwf Hnd) in HX1. injection HX1 as <-. reflexivity. }
  assert (Hback : reshape V (map f bl) = OK X1).
  { rewrite (reshape_exact V (map f bl) (Hfall bl)).
    - unfold V. cbn [arr_data]. rewrite <- HsX1'. destruct X1; reflexivity.
    - unfold V. cbn [arr_data]. rewrite Hsize.
      rewrite <- (prod_to_nat (map f bl) (Hfall bl)), Hprod.
      unfold total. rewrite !Nat2Z.inj_mul, !Z2Nat.id by lia. lia. }
  assert (Hunshuffle : transpose X1 q = OK X).
  { destruct (transpose_defined X1 q) as [Z HZ]; [rewrite HndX1; exact Hqp |].
    rewrite HZ. f_equal. apply (transpose_roundtrip4 X X1 Z p q); assumption. }
  assert (Hlookup : forall l, (forall a, In a l -> In a axis_tags) ->
             mapM (dict_get [(tag_b, n); (tag_c, c); (tag_0, h); (tag_1, w)]) l =
             OK (map f l)).
  { intros l Hl. apply mapM_total. intros a Ha.
    apply image_extent_lookup. apply Hl. exact Ha. }
  split; [exact Hval |].
  exists V.
  destruct (items ax) as [| a0 [| a1 [| a2 [| a3 [| a4 r]]]]] eqn:Hax;
    try discriminate Hlen.
  split.
  { unfold format_as.
    rewrite (format_as_with_hook _ image vector _ total Hval Htotal eq_refl eq_refl).
    unfold image, vector. cbn [_format_as]. unfold Conv2DSpace__format_as.
    unfold image in Hval. cbn [validate] in Hval. rewrite Hval. cbn [bind].
    rewrite Hax. change (py_getitem [a0; a1; a2; a3] 0%Z) with (OK a0). cbn [bind].
    fold image in Htotal.
    destruct (tag_eqb a0 tag_b) eqn:Ha0; cbn [negb].
    - apply tag_eqb_eq in Ha0. subst a0.
      rewrite <- (Hlead _ eq_refl). cbn [bind batch_shape_at].
      rewrite Hblhead. cbn [bind].
      unfold image in Htotal. rewrite Htotal. cbn [bind batch_reshape].
      rewrite Hreshape. reflexivity.
    - change (mapM (index [a0; a1; a2; a3]) (batch_leading [a0; a1; a2; a3]))
        with (axes_shuffle [a0; a1; a2; a3] bl).
      rewrite Hp. cbn [bind batch_dimshuffle]. rewrite HX1. cbn [bind batch_shape_at].
      rewrite Hblhead. cbn [bind].
      unfold image in Htotal. rewrite Htotal. cbn [bind batch_reshape].
      rewrite Hreshape. reflexivity. }
  split; [reflexivity |].
  split.
  { intros r Hr. unfold V. simpl. rewrite (Hlead r Hr). reflexivity. }
  unfold format_as.
  rewrite (format_as_with_hook _ vector image (BVar DenseType V) total);
    try reflexivity; try exact Htotal.
  unfold image, vector. cbn [_format_as VectorSpace__format_as].
  cbn [batch_shape_at]. unfold shape_at at 1. unfold V at 1. cbn [arr_shape nth_error].
  rewrite Z2Nat.id by exact Hn. cbn [bind]. rewrite Hshape.
  change (py_getitem [h; w] 0%Z) with (OK h).
  change (py_getitem [h; w] 1%Z) with (OK w).
  cbn [bind]. rewrite Hax.
  change (py_getitem [a0; a1; a2; a3] 0%Z) with (OK a0). cbn [bind].
  destruct (tag_eqb a0 tag_b) eqn:Ha0; cbn [negb].
  - apply tag_eqb_eq in Ha0. subst a0.
    assert (Heq : bl = [tag_b; a1; a2; a3]) by (apply (Hsame tag_b _ eq_refl); reflexivity).
    rewrite (Hlookup [tag_b; a1; a2; a3]) by exact Hin'.
    cbn [bind batch_reshape]. rewrite <- Heq, Hback. cbn [bind].
    rewrite (Hlead _ eq_refl). reflexivity.
  - change (batch_leading [a0; a1; a2; a3]) with bl.
    rewrite (Hlookup bl).
    + cbn [bind batch_reshape]. rewrite Hback. cbn [bind].
      change (mapM (index bl) [a0; a1; a2; a3]) with (axes_shuffle bl [a0; a1; a2; a3]).
      rewrite Hq. cbn [bind batch_dimshuffle]. rewrite Hunshuffle. reflexivity.
    + intros a Ha. apply (Permutation_in a (orderings_Permutation _ Hbl) Ha).
Qed.

(** ** A vector batch split into any number of vector batches *)

Lemma firstn_app_skipn (a b : nat) (l : list elt) :
  firstn a l ++ firstn b (skipn a l) = firstn (a + b) l.
Proof.
  revert l. induction a as [| a IH]; intros l; simpl; [reflexivity |].
  destruct l as [| x l]; simpl; [apply firstn_nil |].
  rewrite IH. reflexivity.
Qed.

Lemma column_blocks_zip (v : ndarray) (n m : nat) :
  length (arr_data v) = n * m ->
  forall ws p, p + list_sum ws <= m ->
    fold_right zip_app (repeat [] n) (map rows_of (column_blocks v n m p ws)) =
    columns p (p + list_sum ws) (chunks n m (arr_data v)).
Proof.
  intros Hl. induction ws as [| w ws IH]; intros p Hp.
  - simpl. unfold columns. replace (p + 0 - p) with 0 by lia.
    cbn [firstn]. rewrite map_const, chunks_length. reflexivity.
  - change (list_sum (w :: ws)) with (w + list_sum ws) in Hp |- *.
    cbn [column_blocks map fold_right].
    rewrite (rows_of_columns n m p (p + w) (arr_data v)) by (try exact Hl; lia).
    rewrite (IH (p + w)) by lia.
    unfold columns. rewrite zip_app_map. apply map_ext. intros r.
    replace (p + w - p) with w by lia.
    replace (p + w + list_sum ws - (p + w)) with (list_sum ws) by lia.
    replace (p + (w + list_sum ws) - p) with (w + list_sum ws) by lia.
    replace (p + w) with (w + p) by lia.
    rewrite <- skipn_skipn. apply firstn_app_skipn.
Qed.

Lemma column_blocks_conform (v : ndarray) (n m : nat) (ws : list nat) :
  forall p,
    forallb (fun t => match arr_shape t with
                      | s0' :: _ :: rest' => (s0' =? n)%nat && list_nat_eqb rest' []
                      | _ => false
                      end) (column_blocks v n m p ws) = true /\
    fold_right Nat.add 0 (map (fun t => nth 1 (arr_shape t) 0) (column_blocks v n m p ws)) =
    list_sum ws /\
    Forall2 (fun w x => arr_shape x = [n; w]) ws (column_blocks v n m p ws).
Proof.
  induction ws as [| w ws IH]; intros p.
  - split; [reflexivity |]. split; [reflexivity | constructor].
  - destruct (IH (p + w)) as [Hall [Hsum Hshapes]].
    change (list_sum (w :: ws)) with (w + list_sum ws).
    cbn [column_blocks forallb map fold_right arr_shape nth].
    rewrite Nat.eqb_refl, Hall, Hsum.
    split; [reflexivity |].
    split; [lia |].
    constructor; [| exact Hshapes].
    cbn [arr_shape]. f_equal. f_equal. lia.
Qed.

(** Joining the column blocks of all of a matrix gives the matrix back. *)
Lemma concatenate_column_blocks (v : ndarray) (n m : nat) (ws : list nat) :
  wf_ndarray v -> arr_shape v = [n; m] ->
  ws <> [] -> list_sum ws = m ->
  concatenate_axis1 (column_blocks v n m 0 ws) = OK v.
Proof.
  intros Hwf Hs Hne Hsum. unfold wf_ndarray in Hwf. rewrite Hs in Hwf.
  simpl in Hwf. rewrite Nat.mul_1_r in Hwf.
  destruct (column_blocks_conform v n m ws 0) as [Hall [Hwidth _]].
  pose proof (column_blocks_zip v n m Hwf ws 0) as Hzip.
  unfold concatenate_axis1.
  destruct (column_blocks v n m 0 ws) as [| first rest] eqn:HB.
  - destruct ws; [contradiction | discriminate HB].
  - assert (Hfirst : exists w, arr_shape first = [n; w]).
    { destruct ws as [| w ws]; [discriminate HB |].
      cbn [column_blocks] in HB. injection HB as <- _. eexists. reflexivity. }
    destruct Hfirst as [w Hfirst]. rewrite Hfirst, Hall, Hwidth, Hzip by lia.
    destruct v as [sv dv]. cbn [arr_shape arr_data] in Hs, Hwf |- *. subst sv.
    rewrite Hsum. f_equal. f_equal.
    rewrite <- (concat_chunks n m dv Hwf) at 2. f_equal.
    unfold columns. rewrite <- (map_id (chunks n m dv)) at 2.
    apply map_ext_in. intros r Hr.
    pose proof (chunks_rows n m dv Hwf) as Hrows.
    rewrite Forall_forall in Hrows. specialize (Hrows r Hr).
    cbn [skipn]. apply firstn_all2. lia.
Qed.

(** Column [j] of block [k] is column [offset of block k + j] of the matrix. *)
Lemma column_blocks_get (v : ndarray) (n m : nat) :
  wf_ndarray v -> arr_shape v = [n; m] ->
  forall ws p k x i j,
    p + list_sum ws <= m ->
    nth_error (column_blocks v n m p ws) k = Some x ->
    i < n -> j < nth k ws 0 ->
    get x [i; j] = get v [i; p + list_sum (firstn k ws) + j].
Proof.
  intros Hwf Hs. induction ws as [| w ws IH]; intros p k x i j Hp Hx Hi Hj.
  - destruct k; discriminate Hx.
  - change (list_sum (w :: ws)) with (w + list_sum ws) in Hp. destruct k as [| k].
    + cbn [column_blocks nth_error] in Hx. injection Hx as <-.
      cbn [nth] in Hj. cbn [firstn].
      change (list_sum []) with 0.
      replace (p + 0 + j) with (p + j) by lia.
      apply (get_columns v n m p (p + w) i j Hwf Hs); lia.
    + cbn [column_blocks nth_error] in Hx. cbn [nth] in Hj.
      rewrite (IH (p + w) k x i j) by (try assumption; lia).
      cbn [firstn].
      change (list_sum (w :: firstn k ws)) with (w + list_sum (firstn k ws)).
      f_equal. f_equal. f_equal. lia.
Qed.

Lemma sum_Z_to_nat (dims : list Z) :
  Forall (fun d => (0 <= d)%Z) dims ->
  (0 <= sum_Z dims)%Z /\ Z.to_nat (sum_Z dims) = list_sum (map Z.to_nat dims).
Proof.
  unfold sum_Z. induction 1 as [| d dims Hd _ [IH0 IH]]; simpl; [split; [lia | reflexivity] |].
  split; [lia |]. rewrite Z2Nat.inj_add by assumption. rewrite IH. reflexivity.
Qed.

Lemma sum_Z_firstn (dims : list Z) (k : nat) :
  Forall (fun d => (0 <= d)%Z) dims ->
  Z.to_nat (sum_Z (firstn k dims)) = list_sum (firstn k (map Z.to_nat dims)).
Proof.
  intros H. rewrite firstn_map. apply sum_Z_to_nat.
  revert k. induction H as [| d dims Hd _ IH]; intros [| k]; simpl; constructor.
  - exact Hd.
  - apply IH.
Qed.

Lemma total_dimension_vectors (dims : list Z) :
  get_total_dimension (CompositeSpace (map (fun d => VectorSpace d false) dims)) =
  OK (sum_Z dims).
Proof.
  cbn [get_total_dimension].
  assert (Hm : mapM get_total_dimension (map (fun d => VectorSpace d false) dims) = OK dims).
  { induction dims as [| d dims IH]; simpl; [reflexivity |]. rewrite IH. reflexivity. }
  rewrite Hm. cbn [bind]. rewrite fold_left_add_sum. f_equal.
Qed.

(** A batch of [n] rows formatted from [VectorSpace(sum of dims)] into the
    [CompositeSpace] of [VectorSpace(d)] for [d] in [dims] is the tuple of
    its consecutive column blocks: block [k] has [n] rows and [dims[k]]
    columns, and its column [j] is column [dims[0] + ... + dims[k-1] + j] of
    the batch.  Formatting the tuple back gives the batch, for at least one
    component. *)
Theorem VectorSpace_splits_into_column_blocks (dims : list Z) (n : nat) (v : ndarray) :
  Forall (fun d => (0 <= d)%Z) dims ->
  wf_ndarray v ->
  arr_shape v = [n; Z.to_nat (sum_Z dims)] ->
  let vector := VectorSpace (sum_Z dims) false in
  let parts := CompositeSpace (map (fun d => VectorSpace d false) dims) in
  exists pieces,
    format_as vector (BVar DenseType v) parts = OK (BTuple (map (BVar DenseType) pieces)) /\
    Forall2 (fun d x => arr_shape x = [n; Z.to_nat d]) dims pieces /\
    (forall k x i j,
       nth_error pieces k = Some x -> i < n -> j < Z.to_nat (nth k dims 0%Z) ->
       get x [i; j] = get v [i; Z.to_nat (sum_Z (firstn k dims)) + j]) /\
    (dims <> [] ->
     format_as parts (BTuple (map (BVar DenseType) pieces)) vector = OK (BVar DenseType v)).
Proof.
  intros Hpos Hwf Hs vector parts.
  set (m := Z.to_nat (sum_Z dims)) in *.
  set (ws := map Z.to_nat dims).
  destruct (sum_Z_to_nat dims Hpos) as [Hsum0 Hsum]. fold m ws in Hsum.
  exists (column_blocks v n m 0 ws).
  assert (Hval : validate vector (BVar DenseType v) = OK tt)
    by (apply (VectorSpace_validate_matrix v n m _ Hs)).
  assert (Hdim : get_total_dimension parts = OK (sum_Z dims))
    by (apply total_dimension_vectors).
  split; [| split; [| split]].
  - unfold format_as.
    rewrite (format_as_with_hook _ vector parts _ (sum_Z dims) Hval eq_refl Hdim eq_refl).
    unfold vector, parts. cbn [_format_as VectorSpace__format_as].
    assert (Hslices : forall ds p,
              Forall (fun d => (0 <= d)%Z) ds ->
              p + list_sum (map Z.to_nat ds) <= m ->
              (fix slices (cs : list Space) (pos : Z) {struct cs} : result (list batch) :=
                 match cs with
                 | [] => OK []
                 | component :: cs' =>
                     width <- get_total_dimension component ;;
                     subtensor <- batch_slice_axis1 (BVar DenseType v) pos (pos + width) ;;
                     formatted <-
                       format_as_with (VectorSpace__format_as width false subtensor component)
                         (VectorSpace width false) subtensor component ;;
                     rest <- slices cs' (pos + width)%Z ;;
                     OK (formatted :: rest)
                 end) (map (fun d => VectorSpace d false) ds) (Z.of_nat p) =
              OK (map (BVar DenseType) (column_blocks v n m p (map Z.to_nat ds)))).
    { induction ds as [| d ds IH]; intros p Hds Hp; [reflexivity |].
      inversion Hds as [| d' ds' Hd Hds']; subst.
      cbn [map] in Hp.
      change (list_sum (Z.to_nat d :: map Z.to_nat ds))
        with (Z.to_nat d + list_sum (map Z.to_nat ds)) in Hp.
      cbn [map get_total_dimension bind column_blocks].
      replace (Z.of_nat p + d)%Z with (Z.of_nat (p + Z.to_nat d)) by lia.
      change (batch_slice_axis1 (BVar DenseType v) (Z.of_nat p)
                (Z.of_nat (p + Z.to_nat d)))
        with (v' <- slice_axis1 v (Z.of_nat p) (Z.of_nat (p + Z.to_nat d)) ;;
              OK (BVar DenseType v')).
      rewrite (slice_axis1_matrix v n m p (p + Z.to_nat d) Hs) by lia.
      cbn [bind].
      rewrite (format_as_with_equal _ (VectorSpace d false) (VectorSpace d false) _ d)
        by (try reflexivity; simpl; apply Z.eqb_refl).
      cbn [bind]. rewrite (IH (p + Z.to_nat d) Hds') by lia.
      reflexivity. }
    pose proof (Hslices dims 0 Hpos) as Hall. change (Z.of_nat 0) with 0%Z in Hall.
    rewrite Hall by (fold ws; lia).
    reflexivity.
  - destruct (column_blocks_conform v n m ws 0) as [_ [_ Hshapes]].
    unfold ws in Hshapes |- *. clear - Hshapes.
    revert Hshapes. generalize (column_blocks v n m 0 (map Z.to_nat dims)).
    induction dims as [| d dims IH]; intros l H; inversion H; subst; constructor.
    + assumption.
    + apply IH. assumption.
  - intros k x i j Hx Hi Hj.
    rewrite (sum_Z_firstn dims k Hpos). fold ws.
    rewrite <- (map_nth Z.to_nat dims 0%Z k) in Hj.
    rewrite (column_blocks_get v n m Hwf Hs ws 0 k x i j) by
      (try assumption; try lia; exact Hj).
    reflexivity.
  - intros Hne. unfold format_as.
    assert (Hvparts : validate parts (BTuple (map (BVar DenseType)
                                                (column_blocks v n m 0 ws))) = OK tt).
    { apply validate_tuple_Forall2. unfold ws.
      clearbody m. generalize 0 at 1. clear. induction dims as [| d dims IH]; intros p;
        cbn [map column_blocks]; [apply Forall2_nil |].
      apply Forall2_cons; [reflexivity | apply IH]. }
    rewrite (format_as_with_hook _ parts vector _ (sum_Z dims) Hvparts Hdim eq_refl eq_refl).
    unfold parts, vector. cbn [_format_as batch_iter bind].
    assert (Heach : forall ds p,
              (fix each (cs : list Space) (bs : list batch) {struct cs}
                 : result (list batch) :=
                 match cs, bs with
                 | component :: cs', input_piece :: bs' =>
                     width <- get_total_dimension component ;;
                     piece <-
                       format_as_with
                         (_format_as component input_piece (VectorSpace width false))
                         component input_piece (VectorSpace width false) ;;
                     rest <- each cs' bs' ;;
                     OK (piece :: rest)
                 | _, _ => OK []
                 end) (map (fun d => VectorSpace d false) ds)
                (map (BVar DenseType) (column_blocks v n m p (map Z.to_nat ds))) =
              OK (map (BVar DenseType) (column_blocks v n m p (map Z.to_nat ds)))).
    { induction ds as [| d ds IH]; intros p; [reflexivity |].
      cbn [map get_total_dimension bind column_blocks].
      rewrite (format_as_with_equal _ (VectorSpace d false) (VectorSpace d false) _ d)
        by (try reflexivity; simpl; apply Z.eqb_refl).
      cbn [bind]. rewrite (IH (p + Z.to_nat d)). reflexivity. }
    pose proof (Heach dims 0) as Hall. fold ws in Hall. rewrite Hall. cbn [bind].
    unfold T_concatenate_axis1.
    assert (Hm : forall l : list ndarray,
              mapM (fun b => match b with
                             | BVar DenseType x | BArray x => OK x
                             | _ => raise_opaque TypeError
                             end) (map (BVar DenseType) l) = OK l).
    { induction l as [| x l IH]; simpl; [reflexivity | rewrite IH; reflexivity]. }
    rewrite Hm. cbn [bind].
    rewrite (concatenate_column_blocks v n m ws Hwf Hs); [reflexivity | | lia].
    unfold ws. destruct dims; [contradiction | discriminate].
Qed.

End Spaces.

(** * Properties of the helpers *)

(** ** [safe_zip] *)

Lemma heads_nonempty {A : Type} (args : list (list A)) (k : nat) :
  Forall (fun arg => length arg = S k) args ->
  exists hs, heads args = Some hs /\
             Forall2 (fun arg x => nth_error arg 0 = Some x) args hs /\
             Forall (fun arg => length arg = k) (map (@tl A) args).
Proof.
  induction 1 as [| arg args Harg _ IH].
  - exists []. repeat split; constructor.
  - destruct IH as [hs [Hhs [Hrow Htl]]].
    destruct arg as [| x arg]; [discriminate Harg |].
    exists (x :: hs). simpl. rewrite Hhs. repeat split.
    + constructor; [reflexivity | exact Hrow].
    + constructor; [simpl in Harg; lia | exact Htl].
Qed.

Lemma zip_upto_rows {A : Type} (n : nat) :
  forall args : list (list A),
    Forall (fun arg => length arg = n) args ->
    length (zip_upto n args) = n /\
    forall j row, nth_error (zip_upto n args) j = Some row ->
                  Forall2 (fun arg x => nth_error arg j = Some x) args row.
Proof.
  induction n as [| n IH]; intros args Hlen.
  - split; [reflexivity |]. intros [| j] row H; discriminate H.
  - destruct (heads_nonempty args n Hlen) as [hs [Hhs [Hrow Htl]]].
    destruct (IH _ Htl) as [Hl Hnth].
    simpl. rewrite Hhs. simpl. split; [rewrite Hl; reflexivity |].
    intros [| j] row H; simpl in H.
    + injection H as <-. exact Hrow.
    + specialize (Hnth j row H). clear - Hnth Hlen.
      revert row Hnth. induction Hlen as [| arg args Harg _ IHa]; intros row Hnth.
      * inversion Hnth. constructor.
      * simpl in Hnth. inversion Hnth as [| a x l l' Hx Hrest]; subst.
        constructor; [| apply IHa; exact Hrest].
        destruct arg as [| y arg]; [discriminate Harg | exact Hx].
Qed.

Lemma safe_zip_check_spec {A : Type} (base : nat) (rest : list (list A)) :
  forall i,
    (Forall (fun arg => length arg = base) rest /\ safe_zip_check base i rest = OK tt) \/
    (exists pre arg post,
        rest = pre ++ arg :: post /\
        Forall (fun a => length a = base) pre /\
        length arg <> base /\
        safe_zip_check base i rest =
        Err (Raise ValueError
               (Some ("Argument 0 has length " ++ str_nat base ++ " but argument " ++
                      str_nat (i + length pre + 1) ++ " has length " ++
                      str_nat (length arg))%string))).
Proof.
  induction rest as [| arg rest IH]; intros i.
  - left. split; [constructor | reflexivity].
  - simpl. destruct (Nat.eqb_spec (length arg) base) as [Heq | Hneq]; simpl.
    + destruct (IH (S i)) as [[Hall Hok] | [pre [a [post [Hr [Hpre [Ha Herr]]]]]]].
      * left. split; [constructor; assumption | exact Hok].
      * right. exists (arg :: pre), a, post.
        split; [rewrite Hr; reflexivity |].
        split; [constructor; assumption |].
        split; [exact Ha |].
        rewrite Herr. simpl length.
        replace (S i + length pre + 1) with (i + S (length pre) + 1) by lia.
        reflexivity.
    + right. exists [], arg, rest.
      split; [reflexivity |]. split; [constructor |]. split; [exact Hneq |].
      simpl. rewrite Nat.add_0_r. reflexivity.
Qed.

(** [safe_zip] succeeds exactly when every argument has the length of the
    first; it then returns one tuple per position, holding the items of the
    arguments at that position in argument order. *)
Theorem safe_zip_equal_lengths {A : Type} (first : list A) (rest : list (list A)) :
  Forall (fun arg => length arg = length first) rest ->
  exists rows,
    safe_zip (first :: rest) = OK rows /\
    length rows = length first /\
    forall j row, nth_error rows j = Some row ->
                  Forall2 (fun arg x => nth_error arg j = Some x) (first :: rest) row.
Proof.
  intros Hall.
  assert (Hargs : Forall (fun arg => length arg = length first) (first :: rest))
    by (constructor; [reflexivity | exact Hall]).
  destruct (zip_upto_rows (length first) (first :: rest) Hargs) as [Hlen Hrows].
  exists (py_zip (first :: rest)). split; [| split].
  - unfold safe_zip.
    destruct (safe_zip_check_spec (length first) rest 0)
      as [[_ Hok] | [pre [arg [post [Hr [_ [Ha _]]]]]]].
    + rewrite Hok. reflexivity.
    + exfalso. apply Ha. rewrite Forall_forall in Hall. apply Hall.
      rewrite Hr. apply in_or_app. right. left. reflexivity.
  - exact Hlen.
  - exact Hrows.
Qed.

(** When some argument differs in length from the first, [safe_zip] raises
    a [ValueError] naming the first such argument and the two lengths, and
    with no argument at all an [IndexError]. *)
Theorem safe_zip_unequal_lengths {A : Type} (first : list A) (pre post : list (list A))
    (arg : list A) :
  Forall (fun a => length a = length first) pre ->
  length arg <> length first ->
  safe_zip (first :: pre ++ arg :: post) =
  Err (Raise ValueError
         (Some ("Argument 0 has length " ++ str_nat (length first) ++ " but argument " ++
                str_nat (length pre + 1) ++ " has length " ++
                str_nat (length arg))%string)) /\
  @safe_zip A [] = Err (Raise IndexError None).
Proof.
  intros Hpre Harg. split; [| reflexivity].
  unfold safe_zip.
  assert (Hcheck : forall i,
             safe_zip_check (length first) i (pre ++ arg :: post) =
             Err (Raise ValueError
                    (Some ("Argument 0 has length " ++ str_nat (length first) ++
                           " but argument " ++ str_nat (i + length pre + 1) ++
                           " has length " ++ str_nat (length arg))%string))).
  { induction Hpre as [| a pre Ha _ IH]; intros i; simpl.
    - destruct (Nat.eqb_spec (length arg) (length first)) as [Heq | _];
        [contradiction |].
      simpl. rewrite Nat.add_0_r. reflexivity.
    - rewrite Ha, Nat.eqb_refl. simpl. rewrite IH.
      replace (S i + length pre + 1) with (i + S (length pre) + 1) by lia.
      reflexivity. }
  rewrite (Hcheck 0). reflexivity.
Qed.

(** ** [safe_union] *)

Section SafeUnion.

Context {A : Type} (eqb : A -> A -> bool).
Hypothesis eqb_eq : forall x y, eqb x y = true <-> x = y.

Lemma existsb_eqb_In (x : A) (c : list A) : existsb (eqb x) c = true <-> In x c.
Proof.
  rewrite existsb_exists. split.
  - intros [y [Hy Hxy]]. apply eqb_eq in Hxy. subst y. exact Hy.
  - intros Hx. exists x. split; [exact Hx | apply eqb_eq; reflexivity].
Qed.

Lemma append_new_spec (l : list A) :
  forall c, NoDup c ->
    NoDup (append_new eqb c l) /\
    (forall x, In x (append_new eqb c l) <-> In x c \/ In x l) /\
    exists rest, append_new eqb c l = c ++ rest /\ incl rest l.
Proof.
  induction l as [| y l IH]; intros c Hc; simpl.
  - split; [exact Hc |]. split.
    + intros x. split; [intros H; left; exact H | intros [H | []]; exact H].
    + exists []. split; [symmetry; apply app_nil_r | intros x []].
  - destruct (existsb (eqb y) c) eqn:Hy.
    + apply existsb_eqb_In in Hy.
      destruct (IH c Hc) as [Hnd [Hin [rest [Hrest Hincl]]]].
      split; [exact Hnd |]. split.
      * intros x. rewrite Hin. split.
        -- intros [H | H]; [left; exact H | right; right; exact H].
        -- intros [H | [H | H]];
             [left; exact H | subst x; left; exact Hy | right; exact H].
      * exists rest. split; [exact Hrest |].
        intros x Hx. right. apply Hincl. exact Hx.
    + assert (Hnot : ~ In y c).
      { intros H. apply existsb_eqb_In in H. congruence. }
      assert (Hc' : NoDup (c ++ [y])).
      { apply NoDup_app; [exact Hc | repeat constructor; intros [] |].
        intros x Hx [Hxy | []]. subst x. contradiction. }
      destruct (IH (c ++ [y]) Hc') as [Hnd [Hin [rest [Hrest Hincl]]]].
      split; [exact Hnd |]. split.
      * intros x. rewrite Hin, in_app_iff. simpl. split.
        -- intros [[H | [H | []]] | H];
             [left; exact H | right; left; exact H | right; right; exact H].
        -- intros [H | [H | H]];
             [left; left; exact H | left; right; left; exact H | right; exact H].
      * exists (y :: rest). split.
        -- rewrite Hrest, <- app_assoc. reflexivity.
        -- intros x [Hx | Hx]; [left; exact Hx | right; apply Hincl; exact Hx].
Qed.

Lemma append_new_app (l1 l2 c : list A) :
  append_new eqb c (l1 ++ l2) = append_new eqb (append_new eqb c l1) l2.
Proof.
  revert c. induction l1 as [| x l1 IH]; intros c; simpl; [reflexivity | apply IH].
Qed.

Lemma append_new_fresh (l : list A) :
  forall c, NoDup (c ++ l) -> append_new eqb c l = c ++ l.
Proof.
  induction l as [| y l IH]; intros c Hnd; simpl.
  - symmetry. apply app_nil_r.
  - assert (Hnot : ~ In y c).
    { intros H. apply NoDup_remove_2 in Hnd. apply Hnd.
      apply in_or_app. left. exact H. }
    destruct (existsb (eqb y) c) eqn:Hy.
    + apply existsb_eqb_In in Hy. contradiction.
    + rewrite IH by (rewrite <- app_assoc; exact Hnd).
      rewrite <- app_assoc. reflexivity.
Qed.

(** On two lists, [safe_union] returns a list without repetitions that
    holds exactly the items of the two; when the first list has no
    repetition the result starts with it, followed by items of the second. *)
Theorem safe_union_is_ordered_union (a b : list A) :
  exists c,
    safe_union eqb (PySeq List a) (PySeq List b) = OK c /\
    NoDup c /\
    (forall x, In x c <-> In x a \/ In x b) /\
    (NoDup a -> exists rest, c = a ++ rest /\ incl rest b).
Proof.
  exists (append_new eqb [] (a ++ b)).
  destruct (append_new_spec (a ++ b) [] (NoDup_nil A)) as [Hnd [Hin _]].
  split; [reflexivity |]. split; [exact Hnd |]. split.
  - intros x. rewrite Hin, in_app_iff. split.
    + intros [[] | H]; exact H.
    + intros H. right. exact H.
  - intros Ha. rewrite append_new_app.
    rewrite (append_new_fresh a []) by exact Ha. simpl.
    destruct (append_new_spec b a Ha) as [_ [_ Hrest]]. exact Hrest.
Qed.

End SafeUnion.

(** ** [get_dimshuffle_pattern] *)

Lemma dimshuffle_loop_spec (axes : list Z) (count : nat) :
  forall i c,
    length (dimshuffle_loop axes i count c) = count /\
    (forall j, j < count ->
       (nth j (dimshuffle_loop axes i count c) PatX = PatX <->
        In (i + Z.of_nat j)%Z axes)) /\
    kept_axes (dimshuffle_loop axes i count c) =
      seq c (length (kept_axes (dimshuffle_loop axes i count c))).
Proof.
  induction count as [| count IH]; intros i c; simpl.
  - split; [reflexivity |]. split; [intros j Hj; lia | reflexivity].
  - destruct (existsb (Z.eqb i) axes) eqn:Hi.
    + destruct (IH (i + 1)%Z c) as [Hlen [Hx Hkept]].
      simpl. split; [rewrite Hlen; reflexivity |]. split; [| exact Hkept].
      intros [| j] Hj; simpl.
      * rewrite Z.add_0_r. split; [intros _ | reflexivity].
        apply existsb_exists in Hi. destruct Hi as [y [Hy Hiy]].
        apply Z.eqb_eq in Hiy. subst y. exact Hy.
      * rewrite (Hx j) by lia.
        replace (i + 1 + Z.of_nat j)%Z with (i + Z.pos (Pos.of_succ_nat j))%Z by lia.
        reflexivity.
    + destruct (IH (i + 1)%Z (S c)) as [Hlen [Hx Hkept]].
      simpl. split; [rewrite Hlen; reflexivity |]. split.
      * intros [| j] Hj; simpl.
        -- rewrite Z.add_0_r. split; [discriminate |].
           intros Hin. exfalso.
           assert (Ht : existsb (Z.eqb i) axes = true).
           { apply existsb_exists. exists i. split; [exact Hin | apply Z.eqb_refl]. }
           congruence.
        -- rewrite (Hx j) by lia.
           replace (i + 1 + Z.of_nat j)%Z with (i + Z.pos (Pos.of_succ_nat j))%Z by lia.
           reflexivity.
      * f_equal. exact Hkept.
Qed.

(** For a tuple of axes, the pattern has one entry per dimension: ['x'] at
    exactly the positions listed in the axes, and at the other positions the
    numbers 0, 1, 2, ... in increasing order. *)
Theorem get_dimshuffle_pattern_layout (axes : list Z) (ndim : Z) :
  exists pattern,
    get_dimshuffle_pattern (Some (PySeq Tuple axes)) ndim = OK pattern /\
    length pattern = Z.to_nat ndim /\
    (forall j, j < Z.to_nat ndim ->
       (nth j pattern PatX = PatX <-> In (Z.of_nat j) axes)) /\
    kept_axes pattern = seq 0 (length (kept_axes pattern)).
Proof.
  exists (dimshuffle_loop axes 0 (Z.to_nat ndim) 0).
  destruct (dimshuffle_loop_spec axes (Z.to_nat ndim) 0%Z 0) as [Hlen [Hx Hkept]].
  split; [reflexivity |]. split; [exact Hlen |]. split; [| exact Hkept].
  intros j Hj. apply Hx. exact Hj.
Qed.

(** * Instances

    The properties above at concrete descriptors and batches of integers,
    and the inputs at which the stricter readings fail: a batch of one 2x2
    image with two channels, and design matrices of two rows and of one row
    of three columns. *)

Abbreviation image_batch := (NDArray [1; 2; 2; 2] [1; 2; 3; 4; 5; 6; 7; 8]%Z).
Abbreviation matrix_2x3 := (NDArray [2; 3] [1; 2; 3; 4; 5; 6]%Z).
Abbreviation matrix_1x3 := (NDArray [1; 3] [1; 2; 3]%Z).
Abbreviation matrix_2x2 := (NDArray [2; 2] [1; 2; 3; 4]%Z).
Abbreviation matrix_0x3 := (@NDArray Z [0; 3] []).

Lemma Permutation_b01c : Permutation (items axes_b01c) axis_tags.
Proof.
  unfold axes_b01c, axis_tags, tuple. simpl.
  apply perm_skip.
  apply Permutation_sym.
  apply (Permutation_cons_append [tag_0; tag_1] tag_c).
Qed.

Lemma Permutation_bc01 : Permutation (items axes_bc01) axis_tags.
Proof. apply Permutation_refl. Qed.

Lemma Conv2DSpace_axes_conversion_witness :
  Permutation (items axes_b01c) axis_tags /\
  Permutation (items axes_bc01) axis_tags /\
  wf_ndarray image_batch /\
  ndim image_batch = 4 /\
  exists Y,
    Conv2DSpace_np_format_as 0%Z (tuple [2; 2]%Z) 2 axes_b01c image_batch
      (Conv2DSpace (tuple [2; 2]%Z) 2 axes_bc01) = OK Y /\
    transpose 0%Z image_batch [0; 3; 1; 2] = OK Y /\
    Conv2DSpace_np_format_as 0%Z (tuple [2; 2]%Z) 2 axes_bc01 Y
      (Conv2DSpace (tuple [2; 2]%Z) 2 axes_b01c) = OK image_batch /\
    format_as 0%Z true (Conv2DSpace (tuple [2; 2]%Z) 2 axes_b01c)
      (BVar DenseType image_batch) (Conv2DSpace (tuple [2; 2]%Z) 2 axes_bc01) =
      OK (BVar DenseType Y) /\
    format_as 0%Z true (Conv2DSpace (tuple [2; 2]%Z) 2 axes_bc01)
      (BVar DenseType Y) (Conv2DSpace (tuple [2; 2]%Z) 2 axes_b01c) =
      OK (BVar DenseType image_batch).
Proof.
  split; [exact Permutation_b01c |].
  split; [exact Permutation_bc01 |].
  split; [reflexivity |].
  split; [reflexivity |].
  destruct (Conv2DSpace_axes_conversion_is_transpose 0%Z true (tuple [2; 2]%Z) 2
              axes_b01c axes_bc01 image_batch
              Permutation_b01c Permutation_bc01 eq_refl eq_refl)
    as [shuffle [Y [_ [Hfwd [Htr [_ [_ [_ [Hback [Hsym Hvec]]]]]]]]]].
  exists Y. rewrite (Hvec eq_refl eq_refl) in Htr.
  split; [exact Hfwd |]. split; [exact Htr |]. split; [exact Hback |].
  apply Hsym; reflexivity.
Defined.

Lemma VectorSpace_composite_roundtrip_witness :
  (0 < 1 < 3)%Z /\
  wf_ndarray matrix_2x3 /\
  arr_shape matrix_2x3 = [2; Z.to_nat 3] /\
  exists x1 x2,
    format_as 0%Z true (VectorSpace 3 false) (BVar DenseType matrix_2x3)
      (CompositeSpace [VectorSpace 1 false; VectorSpace (3 - 1) false]) =
      OK (BTuple [BVar DenseType x1; BVar DenseType x2]) /\
    format_as 0%Z true (CompositeSpace [VectorSpace 1 false; VectorSpace (3 - 1) false])
      (BTuple [BVar DenseType x1; BVar DenseType x2]) (VectorSpace 3 false) =
      OK (BVar DenseType matrix_2x3).
Proof.
  split; [lia |]. split; [reflexivity |]. split; [reflexivity |].
  destruct (VectorSpace_composite_roundtrip 0%Z true 3 1 2 matrix_2x3
              (conj eq_refl eq_refl) eq_refl eq_refl)
    as [_ [x1 [x2 [_ [_ [_ [_ [_ [_ [Hfwd Hback]]]]]]]]]].
  exists x1, x2. split; [exact Hfwd | exact Hback].
Defined.

(** [VectorSpace.validate] checks the type and the rank of a batch, not its
    width: a batch of three columns passes it under [VectorSpace(dim=2)],
    and [format_as] then reads the first two columns only. *)
Lemma VectorSpace_validate_ignores_width :
  validate true (VectorSpace 2 false) (BVar DenseType matrix_1x3) = OK tt /\
  exists t,
    format_as 0%Z true (VectorSpace 2 false) (BVar DenseType matrix_1x3)
      (CompositeSpace [VectorSpace 1 false; VectorSpace (2 - 1) false]) = OK t /\
    format_as 0%Z true (CompositeSpace [VectorSpace 1 false; VectorSpace (2 - 1) false])
      t (VectorSpace 2 false) =
      OK (BVar DenseType (NDArray [1; 2] [1; 2]%Z)) /\
    BVar DenseType (NDArray [1; 2] [1; 2]%Z) <> BVar DenseType matrix_1x3.
Proof.
  split; [reflexivity |].
  exists (BTuple [BVar DenseType (NDArray [1; 1] [1%Z]);
                  BVar DenseType (NDArray [1; 1] [2%Z])]).
  split; [vm_compute; reflexivity |].
  split; [vm_compute; reflexivity |].
  discriminate.
Qed.

Lemma VectorSpace_eq_ignores_sparse_witness :
  ndim matrix_2x3 = 2 /\
  space_eq (VectorSpace 3 true) (VectorSpace 3 false) = true /\
  format_as 0%Z true (VectorSpace 3 true) (BVar SparseType matrix_2x3) (VectorSpace 3 false) =
    OK (BVar SparseType matrix_2x3) /\
  exists e, validate true (VectorSpace 3 false) (BVar SparseType matrix_2x3) = Err e.
Proof.
  split; [reflexivity |].
  destruct (VectorSpace_eq_ignores_sparse 0%Z true
              (fun z => z) (fun _ => 0%Z) (fun _ => 1%Z) (fun l => fold_left Z.add l 0%Z)
              3 matrix_2x3 eq_refl)
    as [Heq [_ [_ [_ [Hfmt Hrej]]]]].
  split; [exact Heq |]. split; [exact Hfmt | exact Hrej].
Defined.

(** C4 as stated fails: dimensions [0] and [-1] construct descriptors. *)
Lemma nonpositive_dim_accepted :
  VectorSpace_init 0 None = OK (VectorSpace 0 false) /\
  VectorSpace_init (-1) None = OK (VectorSpace (-1) false) /\
  ~ (exists e, VectorSpace_init 0 None = Err e).
Proof.
  split; [reflexivity |]. split; [reflexivity |].
  intros [e H]. discriminate H.
Qed.

Lemma Conv2DSpace_init_axes_witness :
  Conv2DSpace_init (tuple [2; 2]%Z) None (Some 3%Z) None =
    OK (Conv2DSpace (tuple [2; 2]%Z) 3 axes_b01c) /\
  (exists nc ax,
      Conv2DSpace (tuple [2; 2]%Z) 3 axes_b01c = Conv2DSpace (tuple [2; 2]%Z) nc ax /\
      length (items ax) = 4 /\
      ax = PySeq Tuple [tag_b; tag_0; tag_1; tag_c]) /\
  length (items (tuple [tag_b; tag_c; tag_0])) <> 4 /\
  exists e,
    Conv2DSpace_init (tuple [2; 2]%Z) None (Some 3%Z) (Some (tuple [tag_b; tag_c; tag_0])) =
    Err e.
Proof.
  split; [reflexivity |].
  split.
  - apply (proj1 (Conv2DSpace_init_axes (tuple [2; 2]%Z) None (Some 3%Z) None)).
    reflexivity.
  - split; [discriminate |].
    apply (proj2 (Conv2DSpace_init_axes (tuple [2; 2]%Z) None (Some 3%Z)
                    (Some (tuple [tag_b; tag_c; tag_0])))
             (tuple [tag_b; tag_c; tag_0]) eq_refl).
    discriminate.
Defined.

(** C5 as stated fails: a length-4 sequence with a repeated tag constructs a
    descriptor whose axes are not a permutation of the four tags. *)
Lemma repeated_tag_accepted :
  Conv2DSpace_init (tuple [2; 2]%Z) None (Some 1%Z)
    (Some (tuple [tag_b; tag_b; tag_0; tag_1])) =
    OK (Conv2DSpace (tuple [2; 2]%Z) 1 (tuple [tag_b; tag_b; tag_0; tag_1])) /\
  ~ Permutation [tag_b; tag_b; tag_0; tag_1] axis_tags.
Proof.
  split; [reflexivity |].
  intros H.
  assert (Hc : In tag_c [tag_b; tag_b; tag_0; tag_1]).
  { apply (Permutation_in tag_c (Permutation_sym H)). right. left. reflexivity. }
  simpl in Hc. unfold tag_b, tag_c, tag_0, tag_1 in Hc.
  destruct Hc as [Hc | [Hc | [Hc | [Hc | []]]]]; discriminate Hc.
Qed.

Lemma format_as_dimension_mismatch_witness :
  validate true (VectorSpace 3 false) (BVar DenseType matrix_1x3) = OK tt /\
  get_total_dimension (VectorSpace 3 false) = OK 3%Z /\
  get_total_dimension (VectorSpace 4 false) = OK 4%Z /\
  3%Z <> 4%Z /\
  format_as 0%Z true (VectorSpace 3 false) (BVar DenseType matrix_1x3) (VectorSpace 4 false) =
  Err (Raise ValueError
         (Some "VectorSpace(dim=3) with total dimension 3 can't format a batch into VectorSpace(dim=4)because its total dimension is 4"%string)).
Proof.
  split; [reflexivity |]. split; [reflexivity |]. split; [reflexivity |].
  split; [discriminate |].
  apply (proj1 (format_as_dimension_mismatch 0%Z true (VectorSpace 3 false)
                  (VectorSpace 4 false) (BVar DenseType matrix_1x3) 3 4
                  eq_refl eq_refl eq_refl ltac:(discriminate))).
Defined.

Lemma Conv2DSpace_get_origin_batch_shape_witness :
  items (tuple [2; 3]%Z) = [2; 3]%Z /\
  (0 < 2)%Z /\ (0 < 3)%Z /\ (0 < 4)%Z /\
  length (items axes_c01b) = 4 /\
  Forall (fun a => In a axis_tags) (items axes_c01b) /\
  (0 < 5)%Z /\
  exists t,
    Conv2DSpace_get_origin_batch 0%Z (tuple [2; 3]%Z) 4 axes_c01b (PInt 5) = OK t /\
    arr_shape t = [4; 2; 3; 5] /\
    Forall (eq 0%Z) (arr_data t).
Proof.
  assert (Htags : Forall (fun a => In a axis_tags) (items axes_c01b)).
  { unfold axes_c01b, tuple. simpl.
    repeat (apply Forall_cons; [simpl; tauto |]). apply Forall_nil. }
  split; [reflexivity |].
  split; [lia |]. split; [lia |]. split; [lia |].
  split; [reflexivity |]. split; [exact Htags |]. split; [lia |].
  destruct (proj1 (Conv2DSpace_get_origin_batch_shape 0%Z (tuple [2; 3]%Z) 2 3 4 5 axes_c01b
                     eq_refl eq_refl eq_refl eq_refl eq_refl Htags eq_refl))
    as [t [Ht [_ [_ [Hzero _]]]]].
  exists t. split; [exact Ht |]. split; [| exact Hzero].
  vm_compute in Ht. injection Ht as <-. reflexivity.
Defined.

Lemma restrict_selects_in_order_witness :
  items (tuple [2; 0]%Z) <> [] /\
  Forall (fun i => (- Z.of_nat (length [VectorSpace 1 false; VectorSpace 2 false; NullSpace])
                    <= i < Z.of_nat (length [VectorSpace 1 false; VectorSpace 2 false; NullSpace]))%Z)
         (items (tuple [2; 0]%Z)) /\
  restrict (CompositeSpace [VectorSpace 1 false; VectorSpace 2 false; NullSpace])
           (tuple [2; 0]%Z) =
  OK (CompositeSpace [NullSpace; VectorSpace 1 false]).
Proof.
  assert (Hin : Forall (fun i => (- Z.of_nat (length [VectorSpace 1 false; VectorSpace 2 false; NullSpace])
                                  <= i < Z.of_nat (length [VectorSpace 1 false; VectorSpace 2 false; NullSpace]))%Z)
                       (items (tuple [2; 0]%Z))).
  { simpl. repeat (apply Forall_cons; [lia |]). apply Forall_nil. }
  split; [discriminate |]. split; [exact Hin |].
  apply (proj1 (restrict_selects_in_order
                  [VectorSpace 1 false; VectorSpace 2 false; NullSpace] (tuple [2; 0]%Z)
                  ltac:(discriminate) Hin)).
Defined.

Lemma Conv2DSpace_get_batch_size_reads_b_witness :
  length (items axes_c01b) = 4 /\
  In tag_b (items axes_c01b) /\
  validate true (Conv2DSpace (tuple [2; 2]%Z) 3 axes_c01b)
    (BVar DenseType (NDArray [3; 2; 2; 5] (repeat 0%Z 60))) = OK tt /\
  get_batch_size true (Conv2DSpace (tuple [2; 2]%Z) 3 axes_c01b)
    (BVar DenseType (NDArray [3; 2; 2; 5] (repeat 0%Z 60))) = OK 5%Z.
Proof.
  assert (Hin : In tag_b (items axes_c01b)) by (simpl; auto).
  split; [reflexivity |]. split; [exact Hin |]. split; [reflexivity |].
  rewrite (proj2 (Conv2DSpace_get_batch_size_reads_b true (tuple [2; 2]%Z) 3 axes_c01b
                    (BVar DenseType (NDArray [3; 2; 2; 5] (repeat 0%Z 60)))
                    eq_refl Hin eq_refl) eq_refl).
  reflexivity.
Defined.

(** ** Instances of the further properties *)

Lemma Conv2DSpace_init_succeeds_iff_witness :
  (exists nc,
      ((@None Z = Some nc /\ Some 3%Z = None) \/ (@None Z = None /\ Some 3%Z = Some nc)) /\
      length (items (tuple [2; 2]%Z)) = 2 /\
      Forall (fun e => (0 < e)%Z) (items (tuple [2; 2]%Z)) /\
      (0 < nc)%Z /\
      length (items axes_b01c) = 4 /\
      Conv2DSpace (tuple [2; 2]%Z) 3 axes_b01c = Conv2DSpace (tuple [2; 2]%Z) nc axes_b01c) /\
  Conv2DSpace_init (tuple [2; 2]%Z) None (Some 3%Z) None =
    OK (Conv2DSpace (tuple [2; 2]%Z) 3 axes_b01c).
Proof.
  assert (H : exists nc,
             ((@None Z = Some nc /\ Some 3%Z = None) \/
              (@None Z = None /\ Some 3%Z = Some nc)) /\
             length (items (tuple [2; 2]%Z)) = 2 /\
             Forall (fun e => (0 < e)%Z) (items (tuple [2; 2]%Z)) /\
             (0 < nc)%Z /\
             length (items axes_b01c) = 4 /\
             Conv2DSpace (tuple [2; 2]%Z) 3 axes_b01c =
             Conv2DSpace (tuple [2; 2]%Z) nc axes_b01c).
  { exists 3%Z. split; [right; split; reflexivity |].
    split; [reflexivity |].
    split; [simpl; repeat (apply Forall_cons; [lia |]); apply Forall_nil |].
    split; [lia |]. split; reflexivity. }
  split; [exact H |].
  apply (proj2 (Conv2DSpace_init_succeeds_iff (tuple [2; 2]%Z) None (Some 3%Z) None
                  (Conv2DSpace (tuple [2; 2]%Z) 3 axes_b01c)) H).
Defined.

Lemma CompositeSpace_total_dimension_sum_witness :
  get_total_dimension (CompositeSpace [VectorSpace 2 false; VectorSpace 3 false]) = OK 5%Z /\
  get_total_dimension (CompositeSpace [VectorSpace 4 false]) = OK 4%Z /\
  get_total_dimension
    (CompositeSpace ([VectorSpace 2 false; VectorSpace 3 false] ++ [VectorSpace 4 false])) =
    OK (5 + 4)%Z.
Proof.
  split; [reflexivity |]. split; [reflexivity |].
  apply (proj1 (proj2 (CompositeSpace_total_dimension_sum
                         [VectorSpace 2 false; VectorSpace 3 false] 5)
                  [VectorSpace 4 false] 4%Z eq_refl eq_refl)).
Defined.

Lemma space_eq_equivalence_witness :
  space_eq (Conv2DSpace (tuple [2; 2]%Z) 1 axes_b01c)
           (Conv2DSpace (tuple [2; 2]%Z) 1 (PySeq List (items axes_b01c))) = true /\
  space_eq (Conv2DSpace (tuple [2; 2]%Z) 1 (PySeq List (items axes_b01c)))
           (Conv2DSpace (tuple [2; 2]%Z) 1 axes_b01c) = true /\
  space_eq (Conv2DSpace (tuple [2; 2]%Z) 1 axes_b01c)
           (Conv2DSpace (tuple [2; 2]%Z) 1 axes_b01c) = true.
Proof.
  split; [reflexivity |]. split; [reflexivity |].
  apply (proj1 (proj2 (proj2 (space_eq_equivalence
                                (fun z => z) (fun _ => 0%Z) (fun _ => 1%Z)
                                (fun l => fold_left Z.add l 0%Z)
                                (Conv2DSpace (tuple [2; 2]%Z) 1 axes_b01c)
                                (Conv2DSpace (tuple [2; 2]%Z) 1 (PySeq List (items axes_b01c)))
                                (Conv2DSpace (tuple [2; 2]%Z) 1 axes_b01c))))
           eq_refl eq_refl).
Defined.

Lemma space_hash_defined_iff_witness :
  hashable (CompositeSpace [VectorSpace 3 false; Conv2DSpace (tuple [2; 2]%Z) 1 axes_b01c]) =
    true /\
  exists h,
    space_hash (fun z => z) (fun _ => 0%Z) (fun _ => 1%Z) (fun l => fold_left Z.add l 0%Z)
      (CompositeSpace [VectorSpace 3 false; Conv2DSpace (tuple [2; 2]%Z) 1 axes_b01c]) = OK h.
Proof.
  split; [reflexivity |].
  apply (proj2 (proj1 (space_hash_defined_iff
                         (fun z => z) (fun _ => 0%Z) (fun _ => 1%Z)
                         (fun l => fold_left Z.add l 0%Z)
                         (CompositeSpace [VectorSpace 3 false;
                                          Conv2DSpace (tuple [2; 2]%Z) 1 axes_b01c])))
           eq_refl).
Defined.

Lemma format_as_equal_is_identity_witness :
  validate true (VectorSpace 3 true) (BVar SparseType matrix_1x3) = OK tt /\
  get_total_dimension (VectorSpace 3 true) = OK 3%Z /\
  space_eq (VectorSpace 3 true) (VectorSpace 3 true) = true /\
  format_as 0%Z true (VectorSpace 3 true) (BVar SparseType matrix_1x3) (VectorSpace 3 true) =
    OK (BVar SparseType matrix_1x3).
Proof.
  split; [reflexivity |]. split; [reflexivity |]. split; [reflexivity |].
  apply (format_as_equal_is_identity 0%Z true (VectorSpace 3 true) (VectorSpace 3 true)
           (BVar SparseType matrix_1x3) 3 eq_refl eq_refl eq_refl).
Defined.

Lemma format_as_success_requires_witness :
  format_as 0%Z true (VectorSpace 3 false) (BVar DenseType matrix_1x3)
    (CompositeSpace [VectorSpace 3 false]) =
    OK (BTuple [BVar DenseType matrix_1x3]) /\
  validate true (VectorSpace 3 false) (BVar DenseType matrix_1x3) = OK tt /\
  contains_null (CompositeSpace [VectorSpace 3 false]) = false.
Proof.
  assert (H : format_as 0%Z true (VectorSpace 3 false) (BVar DenseType matrix_1x3)
                (CompositeSpace [VectorSpace 3 false]) =
              OK (BTuple [BVar DenseType matrix_1x3])) by (vm_compute; reflexivity).
  split; [exact H |].
  destruct (format_as_success_requires 0%Z true (VectorSpace 3 false)
              (CompositeSpace [VectorSpace 3 false]) (BVar DenseType matrix_1x3) _ H)
    as [Hval [_ [_ Hnull]]].
  split; [exact Hval | exact Hnull].
Defined.

Lemma format_as_unsupported_pairs_witness :
  validate true (CompositeSpace [VectorSpace 3 false])
    (BTuple [BVar DenseType matrix_1x3]) = OK tt /\
  get_total_dimension (CompositeSpace [VectorSpace 3 false]) = OK 3%Z /\
  get_total_dimension (CompositeSpace [VectorSpace 1 false; VectorSpace 2 false]) = OK 3%Z /\
  space_eq (CompositeSpace [VectorSpace 3 false])
           (CompositeSpace [VectorSpace 1 false; VectorSpace 2 false]) = false /\
  format_as 0%Z true (CompositeSpace [VectorSpace 3 false])
    (BTuple [BVar DenseType matrix_1x3])
    (CompositeSpace [VectorSpace 1 false; VectorSpace 2 false]) =
  Err (Raise NotImplementedError
         (Some "CompositeSpace(VectorSpace(dim=3)) does not know how to format as CompositeSpace(VectorSpace(dim=1), VectorSpace(dim=2))"%string)).
Proof.
  split; [reflexivity |]. split; [reflexivity |]. split; [reflexivity |].
  split; [reflexivity |].
  apply (proj1 (format_as_unsupported_pairs 0%Z true (CompositeSpace [VectorSpace 3 false])
                  (CompositeSpace [VectorSpace 1 false; VectorSpace 2 false])
                  (BTuple [BVar DenseType matrix_1x3]) 3
                  eq_refl eq_refl eq_refl eq_refl) eq_refl).
  discriminate.
Defined.

Lemma Conv2DSpace_validate_iff_witness :
  validate true (Conv2DSpace (tuple [2; 2]%Z) 2 axes_b01c) (BVar DenseType image_batch) =
    OK tt /\
  exists v,
    BVar DenseType image_batch = BVar DenseType v /\ ndim v = 4 /\
    (true = true ->
     extent_at (items axes_b01c) v tag_c = OK 2%Z /\
     (exists e, extent_at (items axes_b01c) v tag_0 = OK e /\
                py_getitem (items (tuple [2; 2]%Z)) 0 = OK e) /\
     (exists e, extent_at (items axes_b01c) v tag_1 = OK e /\
                py_getitem (items (tuple [2; 2]%Z)) 1 = OK e)).
Proof.
  split; [reflexivity |].
  apply (proj1 (Conv2DSpace_validate_iff true (tuple [2; 2]%Z) 2 axes_b01c
                  (BVar DenseType image_batch))).
  reflexivity.
Defined.

Lemma CompositeSpace_validate_iff_witness :
  validate true (CompositeSpace [VectorSpace 3 false; NullSpace])
    (BTuple [BVar DenseType matrix_1x3; BNone]) = OK tt /\
  exists l,
    BTuple [BVar DenseType matrix_1x3; BNone] = BTuple l /\
    Forall2 (fun c x => validate true c x = OK tt) [VectorSpace 3 false; NullSpace] l.
Proof.
  split; [reflexivity |].
  apply (proj1 (proj1 (CompositeSpace_validate_iff true [VectorSpace 3 false; NullSpace]
                         (BTuple [BVar DenseType matrix_1x3; BNone])))).
  reflexivity.
Defined.

Lemma CompositeSpace_get_batch_size_first_variable_witness :
  Forall2 (fun c' x' => get_batch_size_object true c' x' = OK (SizeInt 0))
    [NullSpace] [@BNone Z] /\
  validate true (CompositeSpace ([NullSpace] ++ VectorSpace 3 false :: [VectorSpace 2 false]))
    (BTuple ([BNone] ++ BVar DenseType matrix_0x3 ::
             [BVar DenseType matrix_2x2])) = OK tt /\
  get_batch_size_object true (VectorSpace 3 false) (BVar DenseType matrix_0x3) =
    OK (SizeVar 0) /\
  get_batch_size true (VectorSpace 2 false)
    (BVar DenseType matrix_2x2) = OK 2%Z /\
  get_batch_size true
    (CompositeSpace ([NullSpace] ++ VectorSpace 3 false :: [VectorSpace 2 false]))
    (BTuple ([BNone] ++ BVar DenseType matrix_0x3 ::
             [BVar DenseType matrix_2x2])) = OK 0%Z.
Proof.
  assert (H : Forall2 (fun c' x' => get_batch_size_object true c' x' = OK (SizeInt 0))
                [NullSpace] [@BNone Z]).
  { constructor; [reflexivity | constructor]. }
  split; [exact H |]. split; [reflexivity |]. split; [reflexivity |].
  split; [reflexivity |].
  apply (proj1 (CompositeSpace_get_batch_size_first_variable true [NullSpace]
                  [VectorSpace 2 false] [BNone]
                  [BVar DenseType matrix_2x2]
                  (VectorSpace 3 false) (BVar DenseType matrix_0x3) 0 H)
           eq_refl eq_refl).
Defined.

Lemma restrict_batch_valid_under_restrict_witness :
  validate true (CompositeSpace [VectorSpace 3 false; NullSpace])
    (BTuple [BVar DenseType matrix_1x3; BNone]) = OK tt /\
  Forall (fun i => (- Z.of_nat (length [VectorSpace 3 false; NullSpace]) <= i
                    < Z.of_nat (length [VectorSpace 3 false; NullSpace]))%Z)
         (items (tuple [1; 0]%Z)) /\
  exists space' batch',
    restrict (CompositeSpace [VectorSpace 3 false; NullSpace]) (tuple [1; 0]%Z) = OK space' /\
    restrict_batch true (CompositeSpace [VectorSpace 3 false; NullSpace])
      (BTuple [BVar DenseType matrix_1x3; BNone]) (tuple [1; 0]%Z) = OK batch' /\
    validate true space' batch' = OK tt.
Proof.
  assert (Hin : Forall (fun i => (- Z.of_nat (length [VectorSpace 3 false; NullSpace]) <= i
                                  < Z.of_nat (length [VectorSpace 3 false; NullSpace]))%Z)
                       (items (tuple [1; 0]%Z))).
  { simpl. repeat (apply Forall_cons; [lia |]). apply Forall_nil. }
  split; [reflexivity |]. split; [exact Hin |].
  apply (restrict_batch_valid_under_restrict true [VectorSpace 3 false; NullSpace]
           [BVar DenseType matrix_1x3; BNone] (tuple [1; 0]%Z) eq_refl Hin).
Defined.

Lemma Permutation_c01b : Permutation (items axes_c01b) axis_tags.
Proof.
  unfold axes_c01b, axis_tags, tuple. simpl.
  apply Permutation_sym.
  apply (Permutation_trans (perm_swap tag_c tag_b [tag_0; tag_1])).
  apply perm_skip.
  apply (Permutation_cons_append [tag_0; tag_1] tag_b).
Qed.

Lemma Conv2DSpace_origin_conforms_witness :
  items (tuple [2; 3]%Z) = [2; 3]%Z /\
  (0 < 2)%Z /\ (0 < 3)%Z /\ (0 < 4)%Z /\
  Permutation (items axes_c01b) axis_tags /\
  (0 < 5)%Z /\
  exists o t,
    get_origin 0%Z (Conv2DSpace (tuple [2; 3]%Z) 4 axes_c01b) = OK o /\
    ndim o = 3 /\
    get_origin_batch 0%Z (Conv2DSpace (tuple [2; 3]%Z) 4 axes_c01b) 5 = OK (BArray t) /\
    Z.of_nat (length (arr_data t)) = (5 * Z.of_nat (length (arr_data o)))%Z /\
    Conv2DSpace_validate_value (tuple [2; 3]%Z) 4 axes_c01b t = OK tt.
Proof.
  split; [reflexivity |].
  split; [lia |]. split; [lia |]. split; [lia |].
  split; [exact Permutation_c01b |]. split; [lia |].
  destruct (Conv2DSpace_origin_conforms 0%Z (tuple [2; 3]%Z) 2 3 4 5 axes_c01b
              eq_refl eq_refl eq_refl eq_refl Permutation_c01b eq_refl)
    as [o [t [Ho [Hnd [_ [Ht [Hsize [_ Hval]]]]]]]].
  exists o, t. repeat split; assumption.
Defined.

Lemma get_batch_size_kept_by_axes_conversion_witness :
  Permutation (items axes_b01c) axis_tags /\
  Permutation (items axes_c01b) axis_tags /\
  wf_ndarray image_batch /\
  length (items (tuple [2; 2]%Z)) = 2 /\
  validate true (Conv2DSpace (tuple [2; 2]%Z) 2 axes_b01c) (BVar DenseType image_batch) =
    OK tt /\
  exists Y n,
    format_as 0%Z true (Conv2DSpace (tuple [2; 2]%Z) 2 axes_b01c)
      (BVar DenseType image_batch) (Conv2DSpace (tuple [2; 2]%Z) 2 axes_c01b) =
      OK (BVar DenseType Y) /\
    get_batch_size true (Conv2DSpace (tuple [2; 2]%Z) 2 axes_b01c)
      (BVar DenseType image_batch) = OK n /\
    get_batch_size true (Conv2DSpace (tuple [2; 2]%Z) 2 axes_c01b) (BVar DenseType Y) = OK n.
Proof.
  split; [exact Permutation_b01c |]. split; [exact Permutation_c01b |].
  split; [reflexivity |]. split; [reflexivity |]. split; [reflexivity |].
  apply (get_batch_size_kept_by_axes_conversion 0%Z true (tuple [2; 2]%Z) 2
           axes_b01c axes_c01b image_batch
           Permutation_b01c Permutation_c01b eq_refl eq_refl eq_refl).
Defined.

Lemma Conv2DSpace_VectorSpace_roundtrip_witness :
  items (tuple [2; 2]%Z) = [2; 2]%Z /\
  (0 < 2)%Z /\ (0 <= 1)%Z /\
  Permutation (items axes_b01c) axis_tags /\
  wf_ndarray image_batch /\
  map Z.of_nat (arr_shape image_batch) = map (image_extent 1 2 2 2) (items axes_b01c) /\
  exists V,
    format_as 0%Z true (Conv2DSpace (tuple [2; 2]%Z) 2 axes_b01c)
      (BVar DenseType image_batch) (VectorSpace (2 * 2 * 2) false) = OK (BVar DenseType V) /\
    arr_shape V = [Z.to_nat 1; Z.to_nat (2 * 2 * 2)] /\
    format_as 0%Z true (VectorSpace (2 * 2 * 2) false) (BVar DenseType V)
      (Conv2DSpace (tuple [2; 2]%Z) 2 axes_b01c) = OK (BVar DenseType image_batch).
Proof.
  split; [reflexivity |]. split; [lia |]. split; [lia |].
  split; [exact Permutation_b01c |]. split; [reflexivity |]. split; [reflexivity |].
  destruct (Conv2DSpace_VectorSpace_roundtrip 0%Z true (tuple [2; 2]%Z) 2 2 2 1
              axes_b01c image_batch
              eq_refl eq_refl eq_refl eq_refl ltac:(discriminate)
              Permutation_b01c eq_refl eq_refl)
    as [_ [V [Hfwd [Hs [_ Hback]]]]].
  exists V. repeat split; assumption.
Defined.

Lemma safe_zip_equal_lengths_witness :
  Forall (fun arg => length arg = length [1; 2]%Z) [[3; 4]%Z] /\
  safe_zip [[1; 2]; [3; 4]]%Z = OK [[1; 3]; [2; 4]]%Z.
Proof.
  assert (H : Forall (fun arg => length arg = length [1; 2]%Z) [[3; 4]%Z]).
  { apply Forall_cons; [reflexivity | apply Forall_nil]. }
  split; [exact H |].
  destruct (safe_zip_equal_lengths [1; 2]%Z [[3; 4]%Z] H) as [rows [Hrows _]].
  rewrite Hrows. vm_compute in Hrows. congruence.
Defined.

Lemma safe_zip_unequal_lengths_witness :
  Forall (fun a => length a = length [1; 2]%Z) [[3; 4]%Z] /\
  length [5%Z] <> length [1; 2]%Z /\
  safe_zip ([1; 2] :: [[3; 4]] ++ [5] :: [])%Z =
  Err (Raise ValueError
         (Some "Argument 0 has length 2 but argument 2 has length 1"%string)).
Proof.
  assert (H : Forall (fun a => length a = length [1; 2]%Z) [[3; 4]%Z]).
  { apply Forall_cons; [reflexivity | apply Forall_nil]. }
  split; [exact H |]. split; [discriminate |].
  apply (proj1 (safe_zip_unequal_lengths [1; 2]%Z [[3; 4]%Z] [] [5%Z] H
                  ltac:(discriminate))).
Defined.

Lemma safe_union_is_ordered_union_witness :
  (forall x y, Z.eqb x y = true <-> x = y) /\
  NoDup [1; 2]%Z /\
  exists c,
    safe_union Z.eqb (PySeq List [1; 2]%Z) (PySeq List [2; 3]%Z) = OK c /\
    NoDup c /\
    exists rest, c = [1; 2]%Z ++ rest /\ incl rest [2; 3]%Z.
Proof.
  assert (Hnd : NoDup [1; 2]%Z).
  { apply NoDup_cons; [simpl; lia |].
    apply NoDup_cons; [simpl; lia | apply NoDup_nil]. }
  split; [exact Z.eqb_eq |]. split; [exact Hnd |].
  destruct (safe_union_is_ordered_union Z.eqb Z.eqb_eq [1; 2]%Z [2; 3]%Z)
    as [c [Hc [Hno [_ Hpre]]]].
  exists c. split; [exact Hc |]. split; [exact Hno | exact (Hpre Hnd)].
Defined.

Lemma get_dimshuffle_pattern_layout_witness :
  1 < Z.to_nat 3 /\
  exists pattern,
    get_dimshuffle_pattern (Some (PySeq Tuple [1%Z])) 3 = OK pattern /\
    length pattern = Z.to_nat 3 /\
    (nth 1 pattern PatX = PatX <-> In (Z.of_nat 1) [1%Z]).
Proof.
  split; [simpl; lia |].
  destruct (get_dimshuffle_pattern_layout [1%Z] 3) as [pattern [Hp [Hlen [Hx _]]]].
  exists pattern. split; [exact Hp |]. split; [exact Hlen |].
  apply Hx. simpl. lia.
Defined.

Lemma VectorSpace_splits_into_column_blocks_witness :
  Forall (fun d => (0 <= d)%Z) [1; 0; 2]%Z /\
  wf_ndarray matrix_2x3 /\
  arr_shape matrix_2x3 = [2; Z.to_nat (sum_Z [1; 0; 2]%Z)] /\
  exists pieces,
    format_as 0%Z true (VectorSpace (sum_Z [1; 0; 2]%Z) false) (BVar DenseType matrix_2x3)
      (CompositeSpace (map (fun d => VectorSpace d false) [1; 0; 2]%Z)) =
      OK (BTuple (map (BVar DenseType) pieces)) /\
    Forall2 (fun d x => arr_shape x = [2; Z.to_nat d]) [1; 0; 2]%Z pieces /\
    format_as 0%Z true (CompositeSpace (map (fun d => VectorSpace d false) [1; 0; 2]%Z))
      (BTuple (map (BVar DenseType) pieces)) (VectorSpace (sum_Z [1; 0; 2]%Z) false) =
      OK (BVar DenseType matrix_2x3).
Proof.
  assert (Hpos : Forall (fun d => (0 <= d)%Z) [1; 0; 2]%Z).
  { repeat (apply Forall_cons; [lia |]). apply Forall_nil. }
  split; [exact Hpos |]. split; [reflexivity |]. split; [reflexivity |].
  destruct (VectorSpace_splits_into_column_blocks 0%Z true [1; 0; 2]%Z 2 matrix_2x3
              Hpos eq_refl eq_refl)
    as [pieces [Hfwd [Hshapes [_ Hback]]]].
  exists pieces. split; [exact Hfwd |]. split; [exact Hshapes |].
  apply Hback. discriminate.
Defined.
